(** * Haztrak: handler resolution and manifest synchronisation

    A shallow embedding of

    - [apps/trak/models/handler_model.py]: [HandlerManager],
      [ManifestHandlerManager] and the [ManifestHandler.signed] property;
    - [apps/trak/services/manifest_service.py]: [ManifestService].

    Python values are an inductive type, keyword dictionaries are ordered
    association lists, the database is a record of tables, and every method
    is a computation in a state-and-exception monad.  [transaction.atomic]
    restores the database when its body raises. *)

From Stdlib Require Import List String Ascii ZArith Lia Bool Arith PeanoNat.
From Stdlib Require Import Permutation.
Import ListNotations.
Local Open Scope string_scope.


(* ================================================================= *)
(** ** Python values and keyword dictionaries *)

#[warnings="-register-all"]
Inductive PyVal : Type :=
| PNone
| PBool (b : bool)
| PInt (z : Z)
| PStr (s : string)
| PList (xs : list PyVal)
| PDict (kvs : list (string * PyVal))
| PAddress (pk : nat).        (* an [Address] model instance *)

(** A [dict] with string keys, in insertion order. *)
Definition Kwargs := list (string * PyVal).

Module Dict.

Fixpoint get (k : string) (d : Kwargs) : option PyVal :=
  match d with
  | [] => None
  | (k', v) :: d' => if String.eqb k k' then Some v else get k d'
  end.

Definition mem (k : string) (d : Kwargs) : bool :=
  match get k d with Some _ => true | None => false end.

Fixpoint remove (k : string) (d : Kwargs) : Kwargs :=
  match d with
  | [] => []
  | (k', v) :: d' =>
      if String.eqb k k' then remove k d' else (k', v) :: remove k d'
  end.

Definition keys (d : Kwargs) : list string := map fst d.

(** [d.get(k)]: [None] when the key is absent. *)
Definition get_or_None (k : string) (d : Kwargs) : PyVal :=
  match get k d with Some v => v | None => PNone end.

(** [{k: v for k, v in d.items() if v is not None}] *)
Definition is_not_None (v : PyVal) : bool :=
  match v with PNone => false | _ => true end.

Definition drop_None (d : Kwargs) : Kwargs :=
  filter (fun kv => is_not_None (snd kv)) d.

End Dict.

(* ================================================================= *)
(** ** Exceptions *)

Inductive Exc : Type :=
| KeyError (key : string)
| ValidationError (cause : Exc)
| TypeError (what : string)
| AttributeError (what : string)
| IntegrityError (what : string)
| DoesNotExist
| MultipleObjectsReturned
| RequestException (body : PyVal)
| Exception_ (args : PyVal).

Inductive Result (A : Type) : Type :=
| Ok (a : A)
| Raise (e : Exc).
Arguments Ok {A} a.
Arguments Raise {A} e.

(* ================================================================= *)
(** ** The record store *)

(** Rows of the models whose declarations are outside the two files:
    a primary key and the keyword arguments the row was created from. *)
Record Row : Type := mkRow { pk : nat; fields : Kwargs }.

(** [class Handler(TrakBaseModel)]: the natural key and the four
    references; the scalar columns stay in [h_fields]. *)
Record Handler : Type := mkHandler {
  h_pk : nat;
  h_epa_id : string;
  h_site_address : nat;
  h_mail_address : nat;
  h_contact : nat;
  h_emergency_phone : option nat;
  h_fields : Kwargs
}.

(** [class ManifestHandler(TrakBaseModel)] *)
Record ManifestHandler : Type := mkManifestHandler {
  mh_pk : nat;
  mh_handler : nat;
  mh_paper_signature : option nat;
  mh_fields : Kwargs
}.

Record ESignature : Type := mkESignature {
  es_pk : nat;
  es_manifest_handler : nat;
  es_fields : Kwargs
}.

(** [class Manifest], declared in [manifest_model.py]: only [mtn] is read
    by the code here; [m_handlers] are the ManifestHandlers of the
    manifest, in order. *)
Record Manifest : Type := mkManifest {
  m_pk : nat;
  mtn : string;
  m_handlers : list nat;
  m_fields : Kwargs
}.

Record DB : Type := mkDB {
  addresses : list Row;
  contacts : list Row;
  phones : list Row;
  handlers : list Handler;
  paper_signatures : list Row;
  e_signatures : list ESignature;
  manifest_handlers : list ManifestHandler;
  manifests : list Manifest
}.

Definition empty_db : DB := mkDB [] [] [] [] [] [] [] [].

(** The next value of a table's key sequence. *)
Definition fresh (pks : list nat) : nat := S (list_max pks).

(* ================================================================= *)
(** ** Logging *)

Inductive Level : Type := DEBUG | INFO | WARNING.

Inductive LogArg : Type :=
| NoArg
| ArgStr (s : string)
| ArgVal (v : PyVal)
| ArgExc (e : Exc).

(** One call of [logger.<level>(f"<text>{<arg>}")]. *)
Record LogRecord : Type := mkLog {
  level : Level;
  text : string;
  arg : LogArg
}.

(* ================================================================= *)
(** ** Program state and the monad *)

(** [db] is the database; [handler_data] is the attribute
    [HandlerManager.handler_data] of the manager object [Handler.objects]
    (shared by all calls, [None] after [__init__]); [log] is what the
    loggers have emitted, oldest first; [requests] counts the calls made to
    the RCRAInfo service and [clock_reads] the calls of
    [datetime.utcnow()]. *)
Record State : Type := mkState {
  db : DB;
  handler_data : option Kwargs;
  log : list LogRecord;
  requests : nat;
  clock_reads : nat
}.

Definition init_state : State := mkState empty_db None [] 0 0.

Definition set_db (d : DB) (s : State) : State :=
  mkState d (handler_data s) (log s) (requests s) (clock_reads s).

Definition set_handler_data (hd : option Kwargs) (s : State) : State :=
  mkState (db s) hd (log s) (requests s) (clock_reads s).

Definition add_log (r : LogRecord) (s : State) : State :=
  mkState (db s) (handler_data s) (log s ++ [r]) (requests s) (clock_reads s).

Definition M (A : Type) : Type := State -> Result A * State.

Definition ret {A} (a : A) : M A := fun s => (Ok a, s).

Definition raise {A} (e : Exc) : M A := fun s => (Raise e, s).

Definition bind {A B} (m : M A) (f : A -> M B) : M B :=
  fun s =>
    match m s with
    | (Ok a, s') => f a s'
    | (Raise e, s') => (Raise e, s')
    end.

(** [try: m  except ... as exc: ...]: [except exc] is the handler of the
    first clause that matches [exc], [None] when no clause does.  What a
    handler raises is not offered to the other clauses. *)
Definition try_ {A} (m : M A) (except : Exc -> option (M A)) : M A :=
  fun s =>
    match m s with
    | (Ok a, s') => (Ok a, s')
    | (Raise e, s') =>
        match except e with
        | Some h => h s'
        | None => (Raise e, s')
        end
    end.

Declare Scope py_scope.
Delimit Scope py_scope with py.
Notation "x <- m ;; k" := (bind m (fun x => k))
  (at level 61, m at next level, right associativity) : py_scope.
Notation "' p <- m ;; k" := (bind m (fun x => match x with p => k end))
  (at level 61, p pattern, m at next level, right associativity) : py_scope.
Notation "m ;;; k" := (bind m (fun _ => k))
  (at level 61, right associativity) : py_scope.
Local Open Scope py_scope.

Definition get_db : M DB := fun s => (Ok (db s), s).

Definition put_db (d : DB) : M unit := fun s => (Ok tt, set_db d s).

Definition logger (l : Level) (t : string) (a : LogArg) : M unit :=
  fun s => (Ok tt, add_log (mkLog l t a) s).

(** [@transaction.atomic]: when the body raises, the database goes back to
    what it was on entry and the exception goes on to the caller.  What is
    not in the database (the log, the manager attribute, the requests made)
    stays. *)
Definition atomic {A} (m : M A) : M A :=
  fun s =>
    match m s with
    | (Ok a, s') => (Ok a, s')
    | (Raise e, s') => (Raise e, set_db (db s) s')
    end.

(** [**v]: the value must be a mapping. *)
Definition as_kwargs (v : PyVal) : M Kwargs :=
  match v with
  | PDict kvs => ret kvs
  | _ => raise (TypeError "argument after ** must be a mapping")
  end.

(** [d.pop(k)] on a local dictionary: the value and the rest. *)
Definition pop (k : string) (d : Kwargs) : M (PyVal * Kwargs) :=
  match Dict.get k d with
  | Some v => ret (v, Dict.remove k d)
  | None => raise (KeyError k)
  end.

(** [v[k]] *)
Definition subscript (v : PyVal) (k : string) : M PyVal :=
  match v with
  | PDict kvs =>
      match Dict.get k kvs with
      | Some x => ret x
      | None => raise (KeyError k)
      end
  | _ => raise (TypeError "object is not subscriptable by str")
  end.

(** [for x in v]: the items a [for] loop visits. *)
Definition iterate (v : PyVal) : M (list PyVal) :=
  match v with
  | PList xs => ret xs
  | PDict kvs => ret (map (fun kv => PStr (fst kv)) kvs)
  | PStr s => ret (map (fun c => PStr (String c EmptyString)) (list_ascii_of_string s))
  | _ => raise (TypeError "object is not iterable")
  end.

(* ================================================================= *)
(** ** The model layer outside the two files *)

(** What the models declared elsewhere ([Address], [Contact], [EpaPhone],
    [PaperSignature], [ESignature]), the columns of [Handler] and
    [ManifestHandler] kept in [h_fields] and [mh_fields], and the managers'
    own [save] methods refuse: [Some e] when building a row from these
    keyword arguments raises [e], [None] when the row is inserted. *)
Record Schema : Type := mkSchema {
  Address_clean : Kwargs -> option Exc;
  Contact_clean : Kwargs -> option Exc;
  EpaPhone_clean : Kwargs -> option Exc;
  PaperSignature_clean : Kwargs -> option Exc;
  ESignature_clean : Kwargs -> option Exc;
  Handler_clean : Kwargs -> option Exc;
  ManifestHandler_clean : Kwargs -> option Exc
}.

Definition insert_address (r : Row) (d : DB) : DB :=
  mkDB (addresses d ++ [r]) (contacts d) (phones d) (handlers d)
       (paper_signatures d) (e_signatures d) (manifest_handlers d) (manifests d).

Definition insert_contact (r : Row) (d : DB) : DB :=
  mkDB (addresses d) (contacts d ++ [r]) (phones d) (handlers d)
       (paper_signatures d) (e_signatures d) (manifest_handlers d) (manifests d).

Definition insert_phone (r : Row) (d : DB) : DB :=
  mkDB (addresses d) (contacts d) (phones d ++ [r]) (handlers d)
       (paper_signatures d) (e_signatures d) (manifest_handlers d) (manifests d).

Definition insert_handler (h : Handler) (d : DB) : DB :=
  mkDB (addresses d) (contacts d) (phones d) (handlers d ++ [h])
       (paper_signatures d) (e_signatures d) (manifest_handlers d) (manifests d).

Definition insert_paper_signature (r : Row) (d : DB) : DB :=
  mkDB (addresses d) (contacts d) (phones d) (handlers d)
       (paper_signatures d ++ [r]) (e_signatures d) (manifest_handlers d) (manifests d).

Definition insert_e_signature (e : ESignature) (d : DB) : DB :=
  mkDB (addresses d) (contacts d) (phones d) (handlers d)
       (paper_signatures d) (e_signatures d ++ [e]) (manifest_handlers d) (manifests d).

Definition insert_manifest_handler (m : ManifestHandler) (d : DB) : DB :=
  mkDB (addresses d) (contacts d) (phones d) (handlers d)
       (paper_signatures d) (e_signatures d) (manifest_handlers d ++ [m]) (manifests d).

Definition insert_manifest (m : Manifest) (d : DB) : DB :=
  mkDB (addresses d) (contacts d) (phones d) (handlers d)
       (paper_signatures d) (e_signatures d) (manifest_handlers d) (manifests d ++ [m]).

(** [Handler.objects.filter(epa_id=v)]: the column holds strings and is
    never null.  The payloads here carry the [epa_id] as a string, as the
    serializer's character field delivers it; a lookup value of another
    kind, which the column would turn into text, finds nothing here. *)
Definition Handler_filter (v : PyVal) (d : DB) : list Handler :=
  match v with
  | PStr e => filter (fun h => String.eqb (h_epa_id h) e) (handlers d)
  | _ => []
  end.

(** [.exists()] *)
Definition exists_ {A} (q : list A) : bool :=
  match q with [] => false | _ :: _ => true end.

(** [Handler.objects.get(epa_id=v)] *)
Definition Handler_get (v : PyVal) : M Handler :=
  d <- get_db ;;
  match Handler_filter v d with
  | [h] => ret h
  | [] => raise DoesNotExist
  | _ => raise MultipleObjectsReturned
  end.

Section HandlerModel.

Variable schema : Schema.

(** [Address.objects.create( **kw)] *)
Definition Address_create (kw : Kwargs) : M nat :=
  match Address_clean schema kw with
  | Some e => raise e
  | None =>
      d <- get_db ;;
      let r := mkRow (fresh (map pk (addresses d))) kw in
      put_db (insert_address r d) ;;; ret (pk r)
  end.

(** Modelled from the spec: [Contact.objects.save( **kw)] is declared in
    [contact_model.py]; per section 4.2 it "always creates a new Contact"
    (nested phone numbers stay among the fields of the row). *)
Definition Contact_save (kw : Kwargs) : M nat :=
  match Contact_clean schema kw with
  | Some e => raise e
  | None =>
      d <- get_db ;;
      let r := mkRow (fresh (map pk (contacts d))) kw in
      put_db (insert_contact r d) ;;; ret (pk r)
  end.

(** [EpaPhone.objects.create( **kw)] *)
Definition EpaPhone_create (kw : Kwargs) : M nat :=
  match EpaPhone_clean schema kw with
  | Some e => raise e
  | None =>
      d <- get_db ;;
      let r := mkRow (fresh (map pk (phones d))) kw in
      put_db (insert_phone r d) ;;; ret (pk r)
  end.

(** [PaperSignature.objects.create( **kw)] *)
Definition PaperSignature_create (kw : Kwargs) : M nat :=
  match PaperSignature_clean schema kw with
  | Some e => raise e
  | None =>
      d <- get_db ;;
      let r := mkRow (fresh (map pk (paper_signatures d))) kw in
      put_db (insert_paper_signature r d) ;;; ret (pk r)
  end.

(** Modelled from the spec: [ESignature.objects.save(manifest_handler=mh,
    **kw)] is declared in [signature_model.py]; per section 4.4 it creates
    one ESignature "referencing the ManifestHandler". *)
Definition ESignature_save (mh : ManifestHandler) (kw : Kwargs) : M ESignature :=
  match ESignature_clean schema kw with
  | Some e => raise e
  | None =>
      d <- get_db ;;
      let r := mkESignature (fresh (map es_pk (e_signatures d))) (mh_pk mh) kw in
      put_db (insert_e_signature r d) ;;; ret r
  end.

(** The [epa_id] column: [CharField(max_length=25, unique=True)], not
    nullable; a row built without the keyword gets the empty string. *)
Definition epa_id_column (kw : Kwargs) : M string :=
  match Dict.get "epa_id" kw with
  | Some (PStr e) => ret e
  | None => ret ""
  | Some _ => raise (IntegrityError "epa_id")
  end.

(** A foreign key can only hold the key of a row of the table it
    references. *)
Definition stored (key : nat) (rows : list Row) : bool :=
  existsb (Nat.eqb key) (map pk rows).

Definition stored_or_null (key : option nat) (rows : list Row) : bool :=
  match key with
  | None => true
  | Some k => stored k rows
  end.

(** Modelled from the spec: [TrakBaseManager.save], inherited by
    [HandlerManager] and called as [super().save(...)], is declared in
    [base_model.py]; per section 4.3 step 2 it creates the Handler "with
    the remaining scalar fields plus the four resolved/created
    references".  The constraints are the ones declared on the model:
    [epa_id] is unique; [site_address], [mail_address] and [contact] are
    foreign keys, and so is [emergency_phone], which may be null. *)
Definition TrakBaseManager_save (site_address mail_address : nat)
    (emergency_phone : option nat) (contact : nat) (kw : Kwargs) : M Handler :=
  match Handler_clean schema kw with
  | Some e => raise e
  | None =>
      e <- epa_id_column kw ;;
      d <- get_db ;;
      if exists_ (Handler_filter (PStr e) d)
      then raise (IntegrityError "epa_id")
      else if negb (stored site_address (addresses d))
      then raise (IntegrityError "site_address_id")
      else if negb (stored mail_address (addresses d))
      then raise (IntegrityError "mail_address_id")
      else if negb (stored contact (contacts d))
      then raise (IntegrityError "contact_id")
      else if negb (stored_or_null emergency_phone (phones d))
      then raise (IntegrityError "emergency_phone_id")
      else
        let h := mkHandler (fresh (map h_pk (handlers d))) e
                   site_address mail_address contact emergency_phone kw in
        put_db (insert_handler h d) ;;; ret h
  end.

(** [ManifestHandler.objects.create(handler=h, paper_signature=p, **kw)]:
    [handler] is a foreign key without [null=True], so a row without a
    Handler is refused. *)
Definition ManifestHandler_create (handler : option Handler)
    (paper_signature : option nat) (kw : Kwargs) : M ManifestHandler :=
  match ManifestHandler_clean schema kw with
  | Some e => raise e
  | None =>
      match handler with
      | None => raise (IntegrityError "handler_id")
      | Some h =>
          d <- get_db ;;
          let m := mkManifestHandler (fresh (map mh_pk (manifest_handlers d)))
                     (h_pk h) paper_signature kw in
          put_db (insert_manifest_handler m d) ;;; ret m
      end
  end.

(* --------------------------------------------------------------- *)
(** *** [class HandlerManager] *)

(** [self.handler_data.pop(key)] *)
Definition pop_handler_data (key : string) : M PyVal :=
  fun s =>
    match handler_data s with
    | None => (Raise (AttributeError "pop"), s)
    | Some hd =>
        match Dict.get key hd with
        | Some v => (Ok v, set_handler_data (Some (Dict.remove key hd)) s)
        | None => (Raise (KeyError key), s)
        end
    end.

(** [**self.handler_data] *)
Definition read_handler_data : M Kwargs :=
  fun s =>
    match handler_data s with
    | None => (Raise (TypeError "argument after ** must be a mapping"), s)
    | Some hd => (Ok hd, s)
    end.

Definition get_emergency_phone : M (option nat) :=
  try_
    (emergency_phone_data <- pop_handler_data "emergency_phone" ;;
     if Dict.is_not_None emergency_phone_data
     then kw <- as_kwargs emergency_phone_data ;;
          p <- EpaPhone_create kw ;;
          ret (Some p)
     else ret None)
    (fun exc =>
       match exc with
       | KeyError _ => Some (logger DEBUG "" (ArgExc exc) ;;; ret None)
       | _ => None
       end).

Definition get_address (key : string) : M nat :=
  try_
    (address <- pop_handler_data key ;;
     match address with
     | PAddress a => ret a
     | _ => kw <- as_kwargs address ;; Address_create kw
     end)
    (fun exc =>
       match exc with
       | KeyError _ =>
           Some (logger WARNING "" (ArgExc exc) ;;; raise (ValidationError exc))
       | _ => None
       end).

(** [HandlerManager.save( **handler_data)]; [None] is Python's implicit
    return after the [except] clause. *)
Definition HandlerManager_save (handler_data : Kwargs) : M (option Handler) :=
  try_
    (let epa_id := Dict.get_or_None "epa_id" handler_data in
     d <- get_db ;;
     if exists_ (Handler_filter epa_id d)
     then h <- Handler_get epa_id ;; ret (Some h)
     else
       (fun s => (Ok tt, set_handler_data (Some handler_data) s)) ;;;
       contact_data <- pop_handler_data "contact" ;;
       contact_kw <- as_kwargs contact_data ;;
       new_contact <- Contact_save contact_kw ;;
       emergency_phone <- get_emergency_phone ;;
       site_address <- get_address "site_address" ;;
       mail_address <- get_address "mail_address" ;;
       rest <- read_handler_data ;;
       h <- TrakBaseManager_save site_address mail_address emergency_phone
              new_contact rest ;;
       ret (Some h))
    (fun exc =>
       match exc with
       | KeyError _ =>
           Some (logger WARNING "error while creating handler " (ArgExc exc) ;;;
                 ret None)
       | _ => None
       end).

(* --------------------------------------------------------------- *)
(** *** [class ManifestHandlerManager] *)

(** [str(handler)] for the debug messages: [Handler.__str__] is the
    [epa_id]. *)
Definition str_handler (h : option Handler) : LogArg :=
  match h with
  | Some h => ArgStr (h_epa_id h)
  | None => ArgStr "None"
  end.

(** The [for] loop over the e-signature blocks. *)
Fixpoint attach_e_signatures (manifest_handler : ManifestHandler)
    (items : list PyVal) : M unit :=
  match items with
  | [] => ret tt
  | e_signature_data :: rest =>
      kw <- as_kwargs e_signature_data ;;
      e_sig <- ESignature_save manifest_handler kw ;;
      logger DEBUG "ESignature created " (ArgVal (PInt (Z.of_nat (es_pk e_sig)))) ;;;
      attach_e_signatures manifest_handler rest
  end.

(** The body of the [try] statement of [ManifestHandlerManager.save]. *)
Definition assemble (handler_data : Kwargs) (e_signatures : PyVal)
    (paper_signature : option nat) : M (option ManifestHandler) :=
  nested <- subscript (PDict handler_data) "handler" ;;
  epa_id <- subscript nested "epa_id" ;;
  d <- get_db ;;
  '(handler, handler_data) <-
     (if exists_ (Handler_filter epa_id d)
      then
        nested <- subscript (PDict handler_data) "handler" ;;
        epa_id <- subscript nested "epa_id" ;;
        h <- Handler_get epa_id ;;
        '(_, handler_data) <- pop "handler" handler_data ;;
        logger DEBUG "using existing Handler " (ArgStr (h_epa_id h)) ;;;
        ret (Some h, handler_data)
      else
        '(nested, handler_data) <- pop "handler" handler_data ;;
        kw <- as_kwargs nested ;;
        h <- HandlerManager_save kw ;;
        logger DEBUG "Handler created " (str_handler h) ;;;
        ret (h, handler_data)) ;;
  manifest_handler <- ManifestHandler_create handler paper_signature handler_data ;;
  logger DEBUG "ManifestHandler created ManifestHandler: " (str_handler handler) ;;;
  items <- iterate e_signatures ;;
  attach_e_signatures manifest_handler items ;;;
  ret (Some manifest_handler).

(** [ManifestHandlerManager.save( **handler_data)] *)
Definition ManifestHandlerManager_save (handler_data : Kwargs)
    : M (option ManifestHandler) :=
  '(e_signatures, handler_data) <-
     (if Dict.mem "e_signatures" handler_data
      then pop "e_signatures" handler_data
      else ret (PList [], handler_data)) ;;
  logger DEBUG "e_signature data " (ArgVal e_signatures) ;;;
  '(paper_signature, handler_data) <-
     (if Dict.mem "paper_signature" handler_data
      then
        '(data, handler_data) <- pop "paper_signature" handler_data ;;
        kw <- as_kwargs data ;;
        p <- PaperSignature_create kw ;;
        ret (Some p, handler_data)
      else ret (None, handler_data)) ;;
  try_
    (assemble handler_data e_signatures paper_signature)
    (fun exc =>
       match exc with
       | KeyError _ =>
           Some (logger WARNING "KeyError while creating Manifest handler "
                   (ArgExc exc) ;;;
                 ret None)
       | ValidationError _ =>
           Some (logger WARNING "ValidationError while creating Manifest handler "
                   (ArgExc exc) ;;;
                 raise exc)
       | _ => None
       end).

End HandlerModel.

(** [ManifestHandler.signed] *)
Definition signed (self : ManifestHandler) (d : DB) : bool :=
  let e_signature_exists :=
    exists_ (filter (fun e => Nat.eqb (es_manifest_handler e) (mh_pk self))
               (e_signatures d)) in
  let paper_signature_exists :=
    match mh_paper_signature self with Some _ => true | None => false end in
  paper_signature_exists || e_signature_exists.

(* ================================================================= *)
(** ** [datetime] *)

(** A [datetime] is its number of seconds since 1970-01-01T00:00:00; the
    microseconds play no part in what follows ([strftime] below does not
    print them and whole minutes are subtracted).  Python's [datetime]
    spans the years 1 to 9999: an integer outside that span stands for no
    [datetime]. *)
Definition datetime := Z.

Module Datetime.
Local Open Scope Z_scope.

(** [timedelta(minutes=n)], in seconds. *)
Definition timedelta_minutes (n : Z) : Z := 60 * n.

(** Proleptic Gregorian date of a day number (days since 1970-01-01). *)
Definition civil_from_days (days : Z) : Z * Z * Z :=
  let z := days + 719468 in
  let era := z / 146097 in
  let doe := z - era * 146097 in
  let yoe := (doe - doe / 1460 + doe / 36524 - doe / 146096) / 365 in
  let y := yoe + era * 400 in
  let doy := doe - (365 * yoe + yoe / 4 - yoe / 100) in
  let mp := (5 * doy + 2) / 153 in
  let d := doy - (153 * mp + 2) / 5 + 1 in
  let m := if mp <? 10 then mp + 3 else mp - 9 in
  (if m <=? 2 then y + 1 else y, m, d).

Definition digit (n : Z) : ascii :=
  ascii_of_nat (48 + Z.to_nat (n mod 10)).

Definition pad2 (n : Z) : string :=
  String (digit (n / 10)) (String (digit n) EmptyString).

Definition pad4 (n : Z) : string :=
  String (digit (n / 1000)) (String (digit (n / 100)) (pad2 n)).

(** [%Y] as the C library of Linux prints it: the year in decimal, not
    padded, so a year before 1000 has fewer than four digits. *)
Definition year_text (y : Z) : string :=
  if y <? 10 then String (digit y) EmptyString
  else if y <? 100 then pad2 y
  else if y <? 1000 then String (digit (y / 100)) (pad2 y)
  else pad4 y.

(** [t.year] *)
Definition year (t : datetime) : Z :=
  fst (fst (civil_from_days (t / 86400))).

(** [datetime.min], 0001-01-01T00:00:00: arithmetic that would go before
    it raises [OverflowError]. *)
Definition min : datetime := -62135596800.

(** [t.replace(tzinfo=timezone.utc).strftime("%Y-%m-%dT%H:%M:%SZ")] *)
Definition strftime (t : datetime) : string :=
  let '(y, m, d) := civil_from_days (t / 86400) in
  let secs := t mod 86400 in
  (year_text y ++ "-" ++ pad2 m ++ "-" ++ pad2 d ++ "T" ++
   pad2 (secs / 3600) ++ ":" ++ pad2 (secs / 60 mod 60) ++ ":" ++
   pad2 (secs mod 60) ++ "Z")%string.

End Datetime.

(* ================================================================= *)
(** ** [class ManifestService] *)

(** What [requests] hands back: [response.ok] and [response.json()]. *)
Record Response : Type := mkResponse { ok : bool; json : PyVal }.

(** The collaborators of the service that live outside the process: the
    RCRAInfo gateway ([RcrainfoService]) and the wall clock.  The answer to
    a request may depend on how many requests came before it, and the
    request itself may raise; [clock n] is what the system clock reads at
    the [n]-th call of [datetime.utcnow()], in seconds since 1970: the
    clock of the system does not go before that. *)
Record World : Type := mkWorld {
  get_manifest : nat -> string -> Result Response;
  search_mtn : nat -> Kwargs -> Result Response;
  clock : nat -> N
}.

(** What the [n]-th call of [datetime.utcnow()] returns. *)
Definition utcnow (world : World) (n : nat) : datetime := Z.of_N (clock world n).

(** [ManifestSerializer], declared in [apps/trak/serializers]: whether the
    document validates, the field errors when it does not, and the
    persisting of the manifest graph. *)
Record Serializer : Type := mkSerializer {
  is_valid : PyVal -> DB -> bool;
  errors : PyVal -> DB -> PyVal;
  save : PyVal -> M Manifest
}.

(** The keyword arguments of [search_rcra_mtn]. *)
Record SearchArgs : Type := mkSearchArgs {
  site_id : option string;
  start_date : option datetime;
  end_date : option datetime;
  status : option string;
  date_type : option string;
  state_code : option string;
  site_type : option string
}.

(** The defaults of the signature: everything [None] except
    [date_type="UpdatedDate"]. *)
Definition search_defaults : SearchArgs :=
  mkSearchArgs None None None None (Some "UpdatedDate") None None.

Definition with_site_id (v : string) (a : SearchArgs) : SearchArgs :=
  mkSearchArgs (Some v) (start_date a) (end_date a) (status a)
               (date_type a) (state_code a) (site_type a).

Definition py_str (o : option string) : PyVal :=
  match o with Some v => PStr v | None => PNone end.

(** The dictionary returned by [pull_manifests]. *)
Record Results : Type := mkResults {
  success : list string;
  error : list string
}.

Section ManifestService.

Variable world : World.
Variable serializer : Serializer.

Definition rcrainfo_get_manifest (tracking_number : string) : M Response :=
  fun s =>
    (get_manifest world (requests s) tracking_number,
     mkState (db s) (handler_data s) (log s) (S (requests s)) (clock_reads s)).

Definition rcrainfo_search_mtn (params : Kwargs) : M Response :=
  fun s =>
    (search_mtn world (requests s) params,
     mkState (db s) (handler_data s) (log s) (S (requests s)) (clock_reads s)).

Definition datetime_utcnow : M datetime :=
  fun s =>
    (Ok (utcnow world (clock_reads s)),
     mkState (db s) (handler_data s) (log s) (requests s) (S (clock_reads s))).

Definition _retrieve_manifest (tracking_number : string) : M PyVal :=
  response <- rcrainfo_get_manifest tracking_number ;;
  if ok response
  then logger DEBUG "manifest pulled " (ArgStr tracking_number) ;;;
       ret (json response)
  else logger WARNING "error retrieving manifest " (ArgStr tracking_number) ;;;
       raise (RequestException (json response)).

Definition _save_manifest (manifest_json : PyVal) : M Manifest :=
  atomic
    (d <- get_db ;;
     if is_valid serializer manifest_json d
     then logger DEBUG "manifest serializer is valid" NoArg ;;;
          manifest <- save serializer manifest_json ;;
          logger INFO "saved manifest " (ArgStr (mtn manifest)) ;;;
          ret manifest
     else logger WARNING "malformed serializer data: "
            (ArgVal (errors serializer manifest_json d)) ;;;
          raise (Exception_ (errors serializer manifest_json d))).

(** Lines 75 to 101 of [search_rcra_mtn]: the payload handed to
    [rcrainfo.search_mtn].  The subtraction takes 360 days from a reading
    of the clock, which leaves it far from [datetime.min]: its
    [OverflowError] cannot occur and is not written out. *)
Definition filtered_params (a : SearchArgs) : M Kwargs :=
  end_date <- match end_date a with
              | Some t => ret (Datetime.strftime t)
              | None => now <- datetime_utcnow ;; ret (Datetime.strftime now)
              end ;;
  start_date <- match start_date a with
                | Some t => ret (Datetime.strftime t)
                | None =>
                    now <- datetime_utcnow ;;
                    let start_date :=
                      (now - Datetime.timedelta_minutes (60 * 24 * 30 * 12))%Z in
                    ret (Datetime.strftime start_date)
                end ;;
  let search_params :=
    [ ("stateCode", py_str (state_code a));
      ("siteId", py_str (site_id a));
      ("status", py_str (status a));
      ("dateType", py_str (date_type a));
      ("siteType", py_str (site_type a));
      ("endDate", PStr end_date);
      ("startDate", PStr start_date) ] in
  ret (Dict.drop_None search_params).

Definition search_rcra_mtn (a : SearchArgs) : M PyVal :=
  params <- filtered_params a ;;
  logger DEBUG "rcrainfo manifest search parameters " (ArgVal (PDict params)) ;;;
  response <- rcrainfo_search_mtn params ;;
  logger DEBUG "rcrainfo manifest search response " (ArgVal (json response)) ;;;
  if ok response then ret (json response) else ret (PList []).

(** The body of the [for] loop of [pull_manifests] for one tracking
    number. *)
Definition pull_one (results : Results) (tracking_number : string) : M Results :=
  try_
    (manifest_json <- _retrieve_manifest tracking_number ;;
     manifest <- _save_manifest manifest_json ;;
     ret (mkResults (success results ++ [mtn manifest]) (error results)))
    (fun exc =>
       Some (logger WARNING ("error pulling manifest " ++ tracking_number ++ ": ")
               (ArgExc exc) ;;;
             ret (mkResults (success results) (error results ++ [tracking_number])))).

Fixpoint pull_loop (tracking_numbers : list string) (results : Results) : M Results :=
  match tracking_numbers with
  | [] => ret results
  | tracking_number :: rest =>
      results <- pull_one results tracking_number ;;
      pull_loop rest results
  end.

Definition pull_manifests (tracking_numbers : list string) : M Results :=
  pull_loop tracking_numbers (mkResults [] []).

End ManifestService.

(* ================================================================= *)
(** ** Predicates of the statements *)

(** The parameter names [search_rcra_mtn] can send. *)
Definition filter_names : list string :=
  ["stateCode"; "siteId"; "status"; "dateType"; "siteType"; "endDate"; "startDate"].

(** [d'] agrees with [d] on every key outside [ks]. *)
Definition agree_off (ks : list string) (d d' : Kwargs) : Prop :=
  forall k, ~ In k ks -> Dict.get k d' = Dict.get k d.

(** What [get_emergency_phone] needs to return normally. *)
Definition phone_ok (schema : Schema) (hd : Kwargs) : Prop :=
  match Dict.get "emergency_phone" hd with
  | None | Some PNone => True
  | Some (PDict kw) =>
      match EpaPhone_clean schema kw with
      | None | Some (KeyError _) => True
      | Some _ => False
      end
  | Some _ => False
  end.

(** What [get_address] needs to return an Address. *)
Definition address_ok (schema : Schema) (key : string) (hd : Kwargs) : Prop :=
  match Dict.get key hd with
  | Some (PAddress _) => True
  | Some (PDict kw) => Address_clean schema kw = None
  | _ => False
  end.

(** A handler block that gets as far as resolving its addresses and has no
    [key] for one of them. *)
Definition lacks_address (schema : Schema) (hd : Kwargs) (key : string) : Prop :=
  (key = "site_address" /\ Dict.get "site_address" hd = None) \/
  (key = "mail_address" /\ address_ok schema "site_address" hd /\
   Dict.get "mail_address" hd = None).

(** The paper-signature statement of [ManifestHandlerManager.save]: the
    fields of the row it inserts ([Some None] when the payload has no
    block), or [None] when it raises. *)
Definition paper_block (schema : Schema) (hd : Kwargs) : option (option Kwargs) :=
  match Dict.get "paper_signature" hd with
  | None => Some None
  | Some (PDict kw) =>
      match PaperSignature_clean schema kw with
      | None => Some (Some kw)
      | Some _ => None
      end
  | Some _ => None
  end.

(** The database after that statement. *)
Definition db_after_paper (o : option Kwargs) (d : DB) : DB :=
  match o with
  | None => d
  | Some kw => insert_paper_signature (mkRow (fresh (map pk (paper_signatures d))) kw) d
  end.

(** The [except] clauses of [ManifestHandlerManager.save]. *)
Definition save_except (exc : Exc) : option (M (option ManifestHandler)) :=
  match exc with
  | KeyError _ =>
      Some (logger WARNING "KeyError while creating Manifest handler " (ArgExc exc) ;;;
            ret None)
  | ValidationError _ =>
      Some (logger WARNING "ValidationError while creating Manifest handler "
              (ArgExc exc) ;;;
            raise exc)
  | _ => None
  end.

(** What [ManifestHandlerManager.save] has in hand when it enters its
    [try] statement: the e-signature blocks it took from the payload, the
    key of the PaperSignature it created, and the state. *)
Definition e_signature_blocks (hd : Kwargs) : PyVal :=
  match Dict.get "e_signatures" hd with
  | Some v => v
  | None => PList []
  end.

Definition paper_key (o : option Kwargs) (d : DB) : option nat :=
  match o with
  | None => None
  | Some _ => Some (fresh (map pk (paper_signatures d)))
  end.

Definition entering_try (hd : Kwargs) (o : option Kwargs) (s : State) : State :=
  set_db (db_after_paper o (db s))
    (add_log (mkLog DEBUG "e_signature data " (ArgVal (e_signature_blocks hd))) s).

(** The payload once the two signature keys are taken out. *)
Definition without_signatures (hd : Kwargs) : Kwargs :=
  Dict.remove "paper_signature" (Dict.remove "e_signatures" hd).

(** A payload of [ManifestHandlerManager.save] without the nested [handler]
    block, or whose block has no [epa_id]. *)
Definition lacks_handler_key (hd : Kwargs) (key : string) : Prop :=
  (key = "handler" /\ Dict.get "handler" hd = None) \/
  (key = "epa_id" /\
   exists hkw, Dict.get "handler" hd = Some (PDict hkw) /\
               Dict.get "epa_id" hkw = None).

(** However [m] ends, the state it leaves is [R]-related to the one it
    started in. *)
Definition preserves (R : State -> State -> Prop) {A} (m : M A) : Prop :=
  forall s r s', m s = (r, s') -> R s s'.

(** The keys [HandlerManager.save] pops from [self.handler_data]. *)
Definition popped_keys : list string :=
  ["contact"; "emergency_phone"; "site_address"; "mail_address"].

(** [self.handler_data] is still a dictionary and has lost nothing but
    popped keys. *)
Definition keeps_handler_data (s s' : State) : Prop :=
  forall hd, handler_data s = Some hd ->
    exists hd', handler_data s' = Some hd' /\ agree_off popped_keys hd hd'.

(** Handlers are only added, and every ManifestHandler that was not there
    before references a Handler that is there now. *)
Definition handlers_referenced (s s' : State) : Prop :=
  incl (handlers (db s)) (handlers (db s')) /\
  forall mh, In mh (manifest_handlers (db s')) ->
    In mh (manifest_handlers (db s)) \/
    exists h, In h (handlers (db s')) /\ h_pk h = mh_handler mh.

(** [m] is [l] and [r] shuffled together, each in its own order. *)
Inductive Interleave {A : Type} : list A -> list A -> list A -> Prop :=
| Interleave_nil : Interleave [] [] []
| Interleave_left x l r m : Interleave l r m -> Interleave (x :: l) r (x :: m)
| Interleave_right x l r m : Interleave l r m -> Interleave l (x :: r) (x :: m).

(** The rule of the batch, number by number.  [Recorded world serializer
    s numbers succ err s'] holds when the tracking numbers [numbers], taken
    in order from the state [s], leave [succ] under [success], [err] under
    [error] and the state [s']: a number whose manifest is retrieved and
    then saved puts the [mtn] of the saved manifest under [success]; a
    number whose retrieval raises, or whose save raises, is logged and put
    under [error]; either way the next number is taken from the state the
    last one left. *)
Inductive Recorded (world : World) (serializer : Serializer)
  : State -> list string -> list string -> list string -> State -> Prop :=
| Recorded_done s : Recorded world serializer s [] [] [] s
| Recorded_saved s number data s1 manifest s2 rest succ err s' :
    _retrieve_manifest world number s = (Ok data, s1) ->
    _save_manifest serializer data s1 = (Ok manifest, s2) ->
    Recorded world serializer s2 rest succ err s' ->
    Recorded world serializer s (number :: rest) (mtn manifest :: succ) err s'
| Recorded_not_retrieved s number e s1 rest succ err s' :
    _retrieve_manifest world number s = (Raise e, s1) ->
    Recorded world serializer
      (add_log (mkLog WARNING ("error pulling manifest " ++ number ++ ": ")
                  (ArgExc e)) s1)
      rest succ err s' ->
    Recorded world serializer s (number :: rest) succ (number :: err) s'
| Recorded_not_saved s number data s1 e s2 rest succ err s' :
    _retrieve_manifest world number s = (Ok data, s1) ->
    _save_manifest serializer data s1 = (Raise e, s2) ->
    Recorded world serializer
      (add_log (mkLog WARNING ("error pulling manifest " ++ number ++ ": ")
                  (ArgExc e)) s2)
      rest succ err s' ->
    Recorded world serializer s (number :: rest) succ (number :: err) s'.

(** Every manifest the service saves carries the tracking number it was
    asked for. *)
Definition answers_what_was_asked (world : World) (serializer : Serializer) : Prop :=
  forall number s0 data s1 m s2,
    _retrieve_manifest world number s0 = (Ok data, s1) ->
    _save_manifest serializer data s1 = (Ok m, s2) ->
    mtn m = number.

(* ================================================================= *)
(** ** A serializer after the spec *)

(** Modelled from the spec: the [Manifest] model is declared in
    [manifest_model.py]; per section 3 a Manifest has its tracking number,
    which "uniquely identifies a Manifest", so that a second row with the
    same [mtn] is refused, and an "ordered list of ManifestHandlers". *)
Definition Manifest_create (number : string) (manifest_handlers : list nat)
    (kw : Kwargs) : M Manifest :=
  d <- get_db ;;
  if existsb (fun m => String.eqb (mtn m) number) (manifests d)
  then raise (IntegrityError "mtn")
  else
    let m := mkManifest (fresh (map m_pk (manifests d))) number
               manifest_handlers kw in
    put_db (insert_manifest m d) ;;; ret m.

(** Modelled from the spec: per section 6 the serializer persists the
    manifest graph "delegating nested handler data to
    ManifestHandlerAssembler"; each block goes to
    [ManifestHandlerManager.save] in turn, and the ManifestHandlers that
    come back are those of the manifest.  What the serializer does when
    nothing comes back is not in the code at hand.  The spec calls the
    swallowed key "silent data loss" (section 7) and "indistinguishable
    from a no-op to the caller" (section 9): here the serializer goes on
    with the next block. *)
Fixpoint save_handlers (schema : Schema) (blocks : list PyVal) : M (list nat) :=
  match blocks with
  | [] => ret []
  | block :: rest =>
      kw <- as_kwargs block ;;
      manifest_handler <- ManifestHandlerManager_save schema kw ;;
      saved <- save_handlers schema rest ;;
      ret (match manifest_handler with
           | Some mh => mh_pk mh :: saved
           | None => saved
           end)
  end.

(** Modelled from the spec: [ManifestSerializer] is declared in
    [apps/trak/serializers]; per section 6 it "accepts a raw manifest JSON
    document, validates field-level structure, and on success persists the
    full manifest graph (delegating nested handler data to
    ManifestHandlerAssembler) and returns the created Manifest".  Here a
    document is valid when it is a dictionary with a string under
    [manifestTrackingNumber], and its handler blocks are the items of
    [handlers]. *)
Definition manifest_serializer (schema : Schema) : Serializer :=
  mkSerializer
    (fun data _ =>
       match data with
       | PDict kw =>
           match Dict.get "manifestTrackingNumber" kw with
           | Some (PStr _) => true
           | _ => false
           end
       | _ => false
       end)
    (fun _ _ => PDict [("manifestTrackingNumber", PList [PStr "This field is required."])])
    (fun data =>
       kw <- as_kwargs data ;;
       number <- subscript data "manifestTrackingNumber" ;;
       match number with
       | PStr number =>
           blocks <- iterate (match Dict.get "handlers" kw with
                              | Some v => v
                              | None => PList []
                              end) ;;
           saved <- save_handlers schema blocks ;;
           Manifest_create number saved
             (Dict.remove "handlers" (Dict.remove "manifestTrackingNumber" kw))
       | _ => raise (TypeError "manifestTrackingNumber")
       end).

(** Modelled from the spec: [ESignature.objects.save] is declared in
    [signature_model.py]; per section 7 a required nested field missing
    during signature assembly is a MissingKey.  Here every e-signature
    block must name its [signer]. *)
Definition signer_required : Schema :=
  mkSchema (fun _ => None) (fun _ => None) (fun _ => None) (fun _ => None)
           (fun kw => if Dict.mem "signer" kw then None else Some (KeyError "signer"))
           (fun _ => None) (fun _ => None).

(* ================================================================= *)
(** ** Concrete instances *)

(** A schema that accepts every row. *)
Definition accept_all : Schema :=
  mkSchema (fun _ => None) (fun _ => None) (fun _ => None) (fun _ => None)
           (fun _ => None) (fun _ => None) (fun _ => None).

(** 2023-01-01T00:00:00Z. *)
Definition new_year_2023 : datetime := 1672531200%Z.

(** A clock that reads 2023-01-01T00:00:00Z first and a second more on
    each later reading; a gateway that knows no manifest and finds none. *)
Definition sample_world : World :=
  mkWorld (fun _ _ => Ok (mkResponse false PNone))
          (fun _ _ => Ok (mkResponse true (PList [])))
          (fun n => (1672531200 + N.of_nat n)%N).

(** The document RCRAInfo holds for a tracking number. *)
Definition manifest_json (number : string) (handlers : list PyVal) : PyVal :=
  PDict [ ("manifestTrackingNumber", PStr number); ("handlers", PList handlers) ].

(** A gateway that knows every tracking number but "000000000ELC". *)
Definition rcrainfo_echo : World :=
  mkWorld (fun _ number =>
             Ok (mkResponse (negb (String.eqb number "000000000ELC"))
                   (manifest_json number [])))
          (fun _ _ => Ok (mkResponse true (PList [])))
          (fun n => (1672531200 + N.of_nat n)%N).

(** A gateway that answers in its own spelling of the tracking number. *)
Definition rcrainfo_canonical : World :=
  mkWorld (fun _ _ => Ok (mkResponse true (manifest_json "100033134ELC" [])))
          (fun _ _ => Ok (mkResponse true (PList [])))
          (fun n => (1672531200 + N.of_nat n)%N).

Definition sample_address : Kwargs :=
  [ ("street_number", PStr "123"); ("address1", PStr "Main St");
    ("city", PStr "Arlington"); ("zip", PStr "22202") ].

Definition sample_contact : Kwargs :=
  [ ("first_name", PStr "Jane"); ("last_name", PStr "Doe");
    ("email", PStr "jane@example.com") ].

Definition sample_handler : Kwargs :=
  [ ("epa_id", PStr "VAT000000000");
    ("name", PStr "Test Generator");
    ("site_type", PStr "Generator");
    ("contact", PDict sample_contact);
    ("emergency_phone", PNone);
    ("site_address", PDict sample_address);
    ("mail_address", PDict sample_address) ].

(** The same [epa_id] with other nested values. *)
Definition sample_handler_again : Kwargs :=
  [ ("epa_id", PStr "VAT000000000");
    ("name", PStr "Renamed Generator");
    ("contact", PDict [("first_name", PStr "John")]);
    ("emergency_phone", PDict [("number", PStr "555-555-5555")]);
    ("site_address", PDict [("city", PStr "Richmond")]);
    ("mail_address", PDict [("city", PStr "Richmond")]) ].

(** A paper signature block. *)
Definition sample_paper_signature : Kwargs :=
  [ ("printed_name", PStr "Jane Doe"); ("sign_date", PStr "2022-12-31T10:00:00Z") ].

(** A handler block without [contact], and one without [site_address]. *)
Definition handler_without_contact : Kwargs :=
  [ ("epa_id", PStr "VAT000000000");
    ("name", PStr "Test Generator");
    ("site_address", PDict sample_address);
    ("mail_address", PDict sample_address) ].

Definition handler_without_site_address : Kwargs :=
  [ ("epa_id", PStr "VAT000000000");
    ("name", PStr "Test Generator");
    ("contact", PDict sample_contact);
    ("emergency_phone", PNone);
    ("mail_address", PDict sample_address) ].

(** A [ManifestHandlerManager.save] payload with a paper signature and no
    [handler] block. *)
Definition signed_without_handler : Kwargs :=
  [ ("paper_signature", PDict sample_paper_signature) ].

(** A [ManifestHandlerManager.save] payload with a new handler, a paper
    signature and one e-signature. *)
Definition sample_manifest_handler : Kwargs :=
  [ ("handler", PDict sample_handler);
    ("paper_signature", PDict sample_paper_signature);
    ("e_signatures",
       PList [PDict [("signer", PStr "Jane Doe");
                     ("sign_date", PStr "2022-12-31T10:00:00Z")]]) ].

(** A handler block whose second e-signature has no [signer]. *)
Definition half_signed_payload : Kwargs :=
  [ ("handler", PDict sample_handler);
    ("e_signatures",
       PList [ PDict [("signer", PStr "Jane Doe")];
               PDict [("sign_date", PStr "2022-12-31T10:00:00Z")] ]) ].



(** A string of the shape [dddd-dd-ddTdd:dd:ddZ]. *)
Definition is_digit (c : ascii) : bool :=
  Nat.leb 48 (nat_of_ascii c) && Nat.leb (nat_of_ascii c) 57.

Definition is_timestamp (t : string) : bool :=
  match list_ascii_of_string t with
  | [y1; y2; y3; y4; d1; m1; m2; d2; a1; a2; t0; h1; h2; c1; n1; n2; c2; s1; s2; z] =>
      forallb is_digit [y1; y2; y3; y4; m1; m2; a1; a2; h1; h2; n1; n2; s1; s2]
      && Ascii.eqb d1 "-" && Ascii.eqb d2 "-" && Ascii.eqb t0 "T"
      && Ascii.eqb c1 ":" && Ascii.eqb c2 ":" && Ascii.eqb z "Z"
  | _ => false
  end.

(** A date whose year has four digits. *)
Definition four_digit_year (t : datetime) : Prop :=
  (1000 <= Datetime.year t <= 9999)%Z.

(** The dates [search_rcra_mtn] prints when it starts in [s]: the one the
    caller gave, or the clock's reading at that point (less 360 days for
    the start). *)
Definition search_end (world : World) (a : SearchArgs) (s : State) : datetime :=
  match end_date a with
  | Some t => t
  | None => utcnow world (clock_reads s)
  end.

Definition search_start (world : World) (a : SearchArgs) (s : State) : datetime :=
  match start_date a with
  | Some t => t
  | None =>
      (utcnow world
         (clock_reads s + match end_date a with Some _ => 0 | None => 1 end)
       - 360 * 86400)%Z
  end.

(** How many times [filtered_params] reads the clock. *)
Definition missing_dates (a : SearchArgs) : nat :=
  (match end_date a with Some _ => 0 | None => 1 end)
  + (match start_date a with Some _ => 0 | None => 1 end).

(** Neither the gateway nor the clock has been used between [s] and [s']. *)
Definition world_untouched (s s' : State) : Prop :=
  requests s' = requests s /\ clock_reads s' = clock_reads s.

(** A serializer that leaves the gateway and the clock alone. *)
Definition offline (serializer : Serializer) : Prop :=
  forall data, preserves world_untouched (save serializer data).

(** [results] with the entries of [more] appended. *)
Definition extend (results more : Results) : Results :=
  mkResults (success results ++ success more) (error results ++ error more).

(** Only Address and EpaPhone rows may have been added between [s] and
    [s']. *)
Definition only_addresses_and_phones (s s' : State) : Prop :=
  contacts (db s') = contacts (db s) /\
  handlers (db s') = handlers (db s) /\
  paper_signatures (db s') = paper_signatures (db s) /\
  e_signatures (db s') = e_signatures (db s) /\
  manifest_handlers (db s') = manifest_handlers (db s) /\
  manifests (db s') = manifests (db s).

(** The manager attribute is what it was. *)
Definition same_handler_data (s s' : State) : Prop :=
  handler_data s' = handler_data s.

(** The [except] clause of [HandlerManager.save]. *)
Definition creation_except (exc : Exc) : option (M (option Handler)) :=
  match exc with
  | KeyError _ =>
      Some (logger WARNING "error while creating handler " (ArgExc exc) ;;;
            ret None)
  | _ => None
  end.

(** An Address instance given under [key] is a row of the store. *)
Definition address_stored (key : string) (hd : Kwargs) (d : DB) : Prop :=
  forall a, Dict.get key hd = Some (PAddress a) -> stored a (addresses d) = true.

(** The scalar fields of a handler payload: what is left once the four
    nested keys are popped. *)
Definition scalar_fields (hd : Kwargs) : Kwargs :=
  Dict.remove "mail_address"
    (Dict.remove "site_address"
       (Dict.remove "emergency_phone" (Dict.remove "contact" hd))).

(** Only a Contact row, Address rows and EpaPhone rows may have been added
    between [s] and [s']. *)
Definition only_handler_parts (s s' : State) : Prop :=
  handlers (db s') = handlers (db s) /\
  paper_signatures (db s') = paper_signatures (db s) /\
  e_signatures (db s') = e_signatures (db s) /\
  manifest_handlers (db s') = manifest_handlers (db s) /\
  manifests (db s') = manifests (db s).

(** The Handler, Address, Contact and EpaPhone tables and the manager
    attribute are what they were. *)
Definition handler_graph_same (s s' : State) : Prop :=
  handlers (db s') = handlers (db s) /\
  addresses (db s') = addresses (db s) /\
  contacts (db s') = contacts (db s) /\
  phones (db s') = phones (db s) /\
  handler_data s' = handler_data s.

(** The ManifestHandler table is what it was. *)
Definition same_manifest_handlers (s s' : State) : Prop :=
  manifest_handlers (db s') = manifest_handlers (db s).

(** The store after [sample_handler] has been saved. *)
Definition store_with_handler : State :=
  snd (HandlerManager_save accept_all sample_handler init_state).

(** A [ManifestHandlerManager.save] payload whose handler block has no
    [contact]. *)
Definition manifest_handler_without_contact : Kwargs :=
  [ ("handler", PDict handler_without_contact);
    ("paper_signature", PDict sample_paper_signature) ].

(** No two Handler rows share an [epa_id]. *)
Definition epa_ids_unique (d : DB) : Prop := NoDup (map h_epa_id (handlers d)).

Definition keeps_epa_ids_unique (s s' : State) : Prop :=
  epa_ids_unique (db s) -> epa_ids_unique (db s').

(** The Handler table is what it was. *)
Definition same_handlers (s s' : State) : Prop :=
  handlers (db s') = handlers (db s).

(** Between [s] and [s'] the Handler table has not changed, or the Handler
    that is returned has been appended to it, with an [epa_id] no row
    had. *)
Definition creates_at_most_one (s : State) (r : Result (option Handler))
    (s' : State) : Prop :=
  handlers (db s') = handlers (db s) \/
  exists h,
    r = Ok (Some h) /\
    handlers (db s') = (handlers (db s) ++ [h])%list /\
    ~ In (h_epa_id h) (map h_epa_id (handlers (db s))).

(** Every ESignature row references a ManifestHandler row that is stored. *)
Definition e_signatures_referenced (d : DB) : Prop :=
  forall e, In e (e_signatures d) ->
    exists mh, In mh (manifest_handlers d) /\ mh_pk mh = es_manifest_handler e.

(** ManifestHandlers are only added, and every ESignature that was not
    there before references a ManifestHandler that is there now. *)
Definition e_signatures_follow (s s' : State) : Prop :=
  incl (manifest_handlers (db s)) (manifest_handlers (db s')) /\
  forall e, In e (e_signatures (db s')) ->
    In e (e_signatures (db s)) \/
    exists mh, In mh (manifest_handlers (db s')) /\ mh_pk mh = es_manifest_handler e.

(** The ManifestHandler and ESignature tables are what they were. *)
Definition same_signature_tables (s s' : State) : Prop :=
  manifest_handlers (db s') = manifest_handlers (db s) /\
  e_signatures (db s') = e_signatures (db s).

(** The store after [sample_manifest_handler] has been saved: one
    ManifestHandler with a paper signature and one e-signature. *)
Definition store_with_signature : State :=
  snd (ManifestHandlerManager_save accept_all sample_manifest_handler init_state).

(** A payload for a Handler that exists, with neither kind of signature. *)
Definition unsigned_manifest_handler : Kwargs :=
  [ ("handler", PDict sample_handler_again); ("order", PInt 2) ].

(* ================================================================= *)
(** * Properties *)

(** ** [strftime] on known instants *)

Example strftime_epoch : Datetime.strftime 0%Z = "1970-01-01T00:00:00Z".
Proof. reflexivity. Qed.

Example strftime_leap_day : Datetime.strftime 1709251199%Z = "2024-02-29T23:59:59Z".
Proof. reflexivity. Qed.

Example strftime_new_year : Datetime.strftime 1672531200%Z = "2023-01-01T00:00:00Z".
Proof. reflexivity. Qed.

Example strftime_century : Datetime.strftime 951827696%Z = "2000-02-29T12:34:56Z".
Proof. reflexivity. Qed.


(* ================================================================= *)
(** ** The [signed] property *)

Lemma exists_filter_iff {A} (p : A -> bool) (l : list A) :
  exists_ (filter p l) = true <-> exists x, In x l /\ p x = true.
Proof.
  induction l as [|a l IH]; simpl.
  - split; [discriminate | intros [x [[] _]]].
  - destruct (p a) eqn:Hp; simpl.
    + split; [intros _; exists a; auto | reflexivity].
    + rewrite IH. split.
      * intros [x [Hin Hx]]. exists x. auto.
      * intros [x [[Heq | Hin] Hx]]; [subst; congruence | exists x; auto].
Qed.

(** C9. [ManifestHandler.signed] is true exactly when the ManifestHandler
    holds a PaperSignature or some ESignature of the store references it:
    a paper signature alone signs it, one e-signature alone signs it, both
    together sign it, and with neither it is not signed. *)
Theorem signed_iff_paper_or_e_signature (self : ManifestHandler) (d : DB) :
  (signed self d = true <->
     mh_paper_signature self <> None \/
     exists e, In e (e_signatures d) /\ es_manifest_handler e = mh_pk self)
  /\ (forall p, mh_paper_signature self = Some p ->
        (forall e, In e (e_signatures d) -> es_manifest_handler e <> mh_pk self) ->
        signed self d = true)
  /\ (forall e, mh_paper_signature self = None ->
        In e (e_signatures d) -> es_manifest_handler e = mh_pk self ->
        signed self d = true)
  /\ (forall p e, mh_paper_signature self = Some p ->
        In e (e_signatures d) -> es_manifest_handler e = mh_pk self ->
        signed self d = true)
  /\ (mh_paper_signature self = None ->
        (forall e, In e (e_signatures d) -> es_manifest_handler e <> mh_pk self) ->
        signed self d = false).
Proof.
  assert (Hiff : signed self d = true <->
     mh_paper_signature self <> None \/
     exists e, In e (e_signatures d) /\ es_manifest_handler e = mh_pk self).
  { unfold signed. rewrite orb_true_iff, exists_filter_iff. split.
    - intros [Hp | [e [Hin He]]].
      + left. destruct (mh_paper_signature self); [discriminate | discriminate].
      + right. exists e. split; [assumption | now apply Nat.eqb_eq].
    - intros [Hp | [e [Hin He]]].
      + left. destruct (mh_paper_signature self); [reflexivity | congruence].
      + right. exists e. split; [assumption | now apply Nat.eqb_eq]. }
  split; [exact Hiff |].
  split; [intros p Hp _; apply Hiff; left; congruence |].
  split; [intros e _ Hin He; apply Hiff; right; eauto |].
  split; [intros p e Hp _ _; apply Hiff; left; congruence |].
  intros Hp Hnone. apply not_true_is_false. intros Hs.
  apply Hiff in Hs. destruct Hs as [Hs | [e [Hin He]]].
  - congruence.
  - exact (Hnone e Hin He).
Qed.

(* ================================================================= *)
(** ** The search payload *)

Ltac run_filtered_params :=
  unfold filtered_params, datetime_utcnow, bind, ret, py_str, Dict.drop_None;
  cbn -[Datetime.strftime Z.sub Datetime.timedelta_minutes].

(** With neither date given, the end of the window is the first reading of
    the clock and the start is the second reading less
    [timedelta(minutes=60 * 24 * 30 * 12)]. *)
Lemma filtered_params_default_window (world : World) (a : SearchArgs) (s : State) :
  start_date a = None -> end_date a = None ->
  exists params s',
    filtered_params world a s = (Ok params, s') /\
    Dict.get "endDate" params
      = Some (PStr (Datetime.strftime (utcnow world (clock_reads s)))) /\
    Dict.get "startDate" params
      = Some (PStr (Datetime.strftime
                      (utcnow world (S (clock_reads s)) - 360 * 86400)%Z)).
Proof.
  intros Hs He. destruct a as [si sd ed st dt sc sty]. simpl in Hs, He. subst.
  destruct si, st, dt, sc, sty; run_filtered_params;
    (eexists; eexists; split; [reflexivity | split; reflexivity]).
Qed.

(** The payload is the seven-entry dictionary of the source less its
    [None] entries, whatever the two dates print as. *)
Lemma filtered_params_shape (world : World) (a : SearchArgs) (s : State) :
  exists end_text start_text s',
    filtered_params world a s =
    (Ok (Dict.drop_None
           [ ("stateCode", py_str (state_code a));
             ("siteId", py_str (site_id a));
             ("status", py_str (status a));
             ("dateType", py_str (date_type a));
             ("siteType", py_str (site_type a));
             ("endDate", PStr end_text);
             ("startDate", PStr start_text) ]), s').
Proof.
  unfold filtered_params, datetime_utcnow, bind, ret.
  destruct (end_date a), (start_date a); do 3 eexists; reflexivity.
Qed.

Ltac decide_key H :=
  simpl in H; repeat (destruct H as [H | H]; [discriminate H |]); try contradiction.

(** C6, as amended.  No entry of the payload is [None]; each of
    [state_code], [site_id], [status], [date_type] and [site_type]
    contributes its key exactly when its value is not [None]; [endDate] and
    [startDate] are always there.  [date_type] is "UpdatedDate" unless the
    caller passes something else, so a call with only
    [site_id="VAT000000000"] builds the keys [siteId], [dateType], [endDate],
    [startDate] and no [status], [stateCode] or [siteType]. *)
Theorem filtered_params_omits_None (world : World) (a : SearchArgs) (s : State) :
  exists params s',
    filtered_params world a s = (Ok params, s') /\
    (forall k, Dict.get k params <> Some PNone) /\
    (In "stateCode" (Dict.keys params) <-> state_code a <> None) /\
    (In "siteId" (Dict.keys params) <-> site_id a <> None) /\
    (In "status" (Dict.keys params) <-> status a <> None) /\
    (In "dateType" (Dict.keys params) <-> date_type a <> None) /\
    (In "siteType" (Dict.keys params) <-> site_type a <> None) /\
    In "endDate" (Dict.keys params) /\
    In "startDate" (Dict.keys params) /\
    incl (Dict.keys params) filter_names /\
    (a = with_site_id "VAT000000000" search_defaults ->
     Dict.keys params = ["siteId"; "dateType"; "endDate"; "startDate"] /\
     Dict.get "siteId" params = Some (PStr "VAT000000000") /\
     Dict.get "dateType" params = Some (PStr "UpdatedDate")).
Proof.
  destruct (filtered_params_shape world a s) as [et [st' [s' Hrun]]].
  do 2 eexists. split; [exact Hrun |]. clear Hrun.
  destruct a as [si sd ed st dt sc sty].
  destruct si, st, dt, sc, sty; unfold Dict.drop_None, py_str;
    cbn [filter Dict.is_not_None snd site_id status date_type state_code site_type];
    (split;
     [ intros k; cbn;
       repeat match goal with
              | |- context [String.eqb k ?x] => destruct (String.eqb k x)
              end; discriminate
     | ]);
    repeat match goal with
           | |- (In _ _ <-> _) /\ _ =>
               split;
               [ split;
                 [ intros H; first [ discriminate | decide_key H ]
                 | intros H; first [ now (simpl; tauto) | congruence ] ]
               | ]
           end;
    (split; [simpl; tauto |]);
    (split; [simpl; tauto |]);
    (split;
     [ intros k Hk; unfold filter_names; simpl in Hk |- *; tauto
     | intros Heq; unfold with_site_id, search_defaults in Heq; simpl in Heq;
       first [ discriminate Heq
             | injection Heq; intros; subst; repeat split; reflexivity ] ]).
Qed.

(** The call of the example, on a clock at 2023-01-01T00:00:00Z. *)
Lemma filtered_params_site_id_only :
  fst (filtered_params sample_world (with_site_id "VAT000000000" search_defaults)
         init_state)
  = Ok [ ("siteId", PStr "VAT000000000");
         ("dateType", PStr "UpdatedDate");
         ("endDate", PStr "2023-01-01T00:00:00Z");
         ("startDate", PStr "2022-01-06T00:00:01Z") ].
Proof. reflexivity. Qed.

(** C6, the claim as written fails: the call with only
    [site_id="VAT000000000"] builds a payload that has the [dateType] key,
    so its keys are not exactly [siteId], [endDate], [startDate]. *)
Lemma filtered_params_site_id_only_keeps_dateType :
  exists params,
    fst (filtered_params sample_world (with_site_id "VAT000000000" search_defaults)
           init_state) = Ok params /\
    In "dateType" (Dict.keys params) /\
    Dict.get "dateType" params = Some (PStr "UpdatedDate") /\
    Dict.keys params <> ["siteId"; "endDate"; "startDate"].
Proof.
  eexists. split; [exact filtered_params_site_id_only |].
  split; [simpl; tauto |]. split; [reflexivity | discriminate].
Qed.

(** C5.  On a clock that reads 2023-01-01T00:00:00Z, the call without dates
    builds [endDate] from that reading and [startDate] from the next one
    less 518400 minutes: 360 days back, not the three years of the
    docstring (2020-01-01 would be three years back). *)
Theorem default_start_date_is_360_days_back :
  fst (filtered_params sample_world search_defaults init_state)
  = Ok [ ("dateType", PStr "UpdatedDate");
         ("endDate", PStr "2023-01-01T00:00:00Z");
         ("startDate", PStr "2022-01-06T00:00:01Z") ]
  /\ Datetime.timedelta_minutes (60 * 24 * 30 * 12) = (360 * 86400)%Z
  /\ Datetime.strftime (new_year_2023 - 3 * 365 * 86400 - 86400)%Z
     = "2020-01-01T00:00:00Z".
Proof. repeat split; reflexivity. Qed.

(* ================================================================= *)
(** ** Dictionaries, keys and runs of the monad *)

Lemma get_remove_same (k : string) (d : Kwargs) :
  Dict.get k (Dict.remove k d) = None.
Proof.
  induction d as [|[k' v] d IH]; simpl; [reflexivity |].
  destruct (String.eqb k k') eqn:E; [exact IH |].
  simpl. now rewrite E.
Qed.

Lemma get_remove_other (k k' : string) (d : Kwargs) :
  String.eqb k k' = false ->
  Dict.get k (Dict.remove k' d) = Dict.get k d.
Proof.
  intros Hk. induction d as [|[k0 v] d IH]; simpl; [reflexivity |].
  destruct (String.eqb k' k0) eqn:E.
  - apply String.eqb_eq in E. subst k0. now rewrite Hk.
  - simpl. now rewrite IH.
Qed.

Lemma remove_absent (k : string) (d : Kwargs) :
  Dict.get k d = None -> Dict.remove k d = d.
Proof.
  induction d as [|[k0 v] d IH]; simpl; [reflexivity |].
  destruct (String.eqb k k0); [discriminate |].
  intros H. now rewrite IH.
Qed.

Lemma fresh_not_in (pks : list nat) : ~ In (fresh pks) pks.
Proof.
  unfold fresh. intros Hin.
  assert (H : forall n, In n pks -> n <= list_max pks).
  { intros n Hn. pose proof (proj1 (list_max_le pks (list_max pks)) (le_n _)) as Hall.
    rewrite Forall_forall in Hall. now apply Hall. }
  apply H in Hin. lia.
Qed.

Lemma bind_inv {A B} (m : M A) (f : A -> M B) s r s' :
  bind m f s = (r, s') ->
  (exists a s1, m s = (Ok a, s1) /\ f a s1 = (r, s')) \/
  (exists e, m s = (Raise e, s') /\ r = Raise e).
Proof.
  unfold bind. destruct (m s) as [[a | e] s1]; intros H.
  - left. eauto.
  - right. inversion H; subst. eauto.
Qed.

Lemma bind_inv_ok {A B} (m : M A) (f : A -> M B) s b s' :
  bind m f s = (Ok b, s') ->
  exists a s1, m s = (Ok a, s1) /\ f a s1 = (Ok b, s').
Proof.
  intros H. apply bind_inv in H. destruct H as [H | [e [_ H]]];
    [exact H | discriminate].
Qed.

Lemma bind_run_ok {A B} (m : M A) (f : A -> M B) s a s1 :
  m s = (Ok a, s1) -> bind m f s = f a s1.
Proof. unfold bind. now intros ->. Qed.

Lemma bind_run_raise {A B} (m : M A) (f : A -> M B) s e s1 :
  m s = (Raise e, s1) -> bind m f s = (Raise e, s1).
Proof. unfold bind. now intros ->. Qed.

Lemma try_inv {A} (m : M A) (except : Exc -> option (M A)) s r s' :
  try_ m except s = (r, s') ->
  (exists a, m s = (Ok a, s') /\ r = Ok a) \/
  (exists e s1 h, m s = (Raise e, s1) /\ except e = Some h /\ h s1 = (r, s')) \/
  (exists e, m s = (Raise e, s') /\ except e = None /\ r = Raise e).
Proof.
  unfold try_. destruct (m s) as [[a | e] s1]; intros H.
  - left. inversion H; subst. eauto.
  - destruct (except e) as [h |] eqn:E.
    + right. left. exists e, s1, h. auto.
    + right. right. inversion H; subst. eauto.
Qed.

(* ================================================================= *)
(** ** [HandlerManager.get_address] *)

Lemma get_address_instance (schema : Schema) (key : string) (s : State)
    (hd : Kwargs) (a : nat) :
  handler_data s = Some hd ->
  Dict.get key hd = Some (PAddress a) ->
  get_address schema key s
  = (Ok a, set_handler_data (Some (Dict.remove key hd)) s).
Proof.
  intros Hhd Hget. unfold get_address, try_, bind, pop_handler_data.
  now rewrite Hhd, Hget.
Qed.

Lemma get_address_raw (schema : Schema) (key : string) (s : State)
    (hd kw : Kwargs) :
  handler_data s = Some hd ->
  Dict.get key hd = Some (PDict kw) ->
  Address_clean schema kw = None ->
  get_address schema key s
  = (Ok (fresh (map pk (addresses (db s)))),
     set_db (insert_address (mkRow (fresh (map pk (addresses (db s)))) kw) (db s))
       (set_handler_data (Some (Dict.remove key hd)) s)).
Proof.
  intros Hhd Hget Hclean.
  unfold get_address, try_, bind, pop_handler_data, as_kwargs, Address_create.
  rewrite Hhd, Hget. cbn. rewrite Hclean. reflexivity.
Qed.

Lemma get_address_missing (schema : Schema) (key : string) (s : State)
    (hd : Kwargs) :
  handler_data s = Some hd ->
  Dict.get key hd = None ->
  get_address schema key s
  = (Raise (ValidationError (KeyError key)),
     add_log (mkLog WARNING "" (ArgExc (KeyError key))) s).
Proof.
  intros Hhd Hget. unfold get_address, try_, bind, pop_handler_data.
  now rewrite Hhd, Hget.
Qed.

(** C10.  [get_address] on a key that holds an Address instance returns
    that instance and leaves every table as it was; on a key that holds raw
    fields the Address model accepts, it appends one Address row built from
    those fields under a key no row had, returns that key, and leaves the
    other tables as they were. *)
Theorem get_address_reuses_or_creates_one (schema : Schema) (key : string)
    (s : State) (hd : Kwargs) :
  handler_data s = Some hd ->
  (forall a, Dict.get key hd = Some (PAddress a) ->
     exists s', get_address schema key s = (Ok a, s') /\ db s' = db s)
  /\
  (forall kw, Dict.get key hd = Some (PDict kw) ->
     Address_clean schema kw = None ->
     exists n s',
       get_address schema key s = (Ok n, s') /\
       addresses (db s') = (addresses (db s) ++ [mkRow n kw])%list /\
       ~ In n (map pk (addresses (db s))) /\
       contacts (db s') = contacts (db s) /\
       phones (db s') = phones (db s) /\
       handlers (db s') = handlers (db s) /\
       paper_signatures (db s') = paper_signatures (db s) /\
       e_signatures (db s') = e_signatures (db s) /\
       manifest_handlers (db s') = manifest_handlers (db s) /\
       manifests (db s') = manifests (db s)).
Proof.
  intros Hhd. split.
  - intros a Hget. eexists. split.
    + exact (get_address_instance schema key s hd a Hhd Hget).
    + reflexivity.
  - intros kw Hget Hclean. do 2 eexists. split.
    + exact (get_address_raw schema key s hd kw Hhd Hget Hclean).
    + cbn. repeat split. apply fresh_not_in.
Qed.

Lemma get_address_reuses_or_creates_one_witness :
  (exists s',
     get_address accept_all "site_address"
       (set_handler_data (Some [("site_address", PAddress 7)]) init_state)
     = (Ok 7, s') /\ db s' = empty_db)
  /\
  (exists n s',
     get_address accept_all "site_address"
       (set_handler_data (Some sample_handler) init_state) = (Ok n, s') /\
     addresses (db s') = [mkRow n sample_address]).
Proof.
  split.
  - exact (proj1 (get_address_reuses_or_creates_one accept_all "site_address"
                    (set_handler_data (Some [("site_address", PAddress 7)]) init_state)
                    [("site_address", PAddress 7)] eq_refl) 7 eq_refl).
  - destruct (proj2 (get_address_reuses_or_creates_one accept_all "site_address"
                       (set_handler_data (Some sample_handler) init_state)
                       sample_handler eq_refl) sample_address eq_refl eq_refl)
      as [n [s' [Hrun [Haddr _]]]].
    exists n, s'. split; [exact Hrun | exact Haddr].
Defined.

(* ================================================================= *)
(** ** Swallowed [KeyError]s *)

Lemma HandlerManager_save_missing_contact (schema : Schema) (hd : Kwargs) (s : State) :
  Handler_filter (Dict.get_or_None "epa_id" hd) (db s) = [] ->
  Dict.get "contact" hd = None ->
  HandlerManager_save schema hd s
  = (Ok None,
     add_log (mkLog WARNING "error while creating handler " (ArgExc (KeyError "contact")))
       (set_handler_data (Some hd) s)).
Proof.
  intros Hnew Hcontact.
  unfold HandlerManager_save, try_, bind, get_db, pop_handler_data.
  rewrite Hnew. cbn. rewrite Hcontact. reflexivity.
Qed.

Lemma mem_false_get (k : string) (d : Kwargs) :
  Dict.mem k d = false -> Dict.get k d = None.
Proof. unfold Dict.mem. destruct (Dict.get k d); [discriminate | reflexivity]. Qed.

Lemma mem_true_get (k : string) (d : Kwargs) :
  Dict.mem k d = true -> exists v, Dict.get k d = Some v.
Proof. unfold Dict.mem. destruct (Dict.get k d); [eauto | discriminate]. Qed.

(** The first statement: take the e-signature blocks out of the payload. *)
Lemma take_e_signatures_run (hd : Kwargs) (s : State) :
  exists es hd1,
    (if Dict.mem "e_signatures" hd
     then pop "e_signatures" hd
     else ret (PList [], hd)) s = (Ok (es, hd1), s) /\
    hd1 = Dict.remove "e_signatures" hd /\
    es = match Dict.get "e_signatures" hd with Some v => v | None => PList [] end.
Proof.
  destruct (Dict.mem "e_signatures" hd) eqn:Hm.
  - destruct (mem_true_get _ _ Hm) as [v Hv]. unfold pop. rewrite Hv.
    do 2 eexists. split; [reflexivity | split; reflexivity].
  - apply mem_false_get in Hm. rewrite Hm.
    do 2 eexists. split; [reflexivity | split; [| reflexivity]].
    symmetry. now apply remove_absent.
Qed.

Lemma try_run_ok {A} (m : M A) except s a s' :
  m s = (Ok a, s') -> try_ m except s = (Ok a, s').
Proof. unfold try_. now intros ->. Qed.

Lemma try_run_unhandled {A} (m : M A) except s e s' :
  m s = (Raise e, s') -> except e = None -> try_ m except s = (Raise e, s').
Proof. unfold try_. now intros -> ->. Qed.

Lemma try_run_handled {A} (m : M A) except s e s' h :
  m s = (Raise e, s') -> except e = Some h -> try_ m except s = h s'.
Proof. unfold try_. now intros -> ->. Qed.

Lemma agree_off_refl ks d : agree_off ks d d.
Proof. intros k _. reflexivity. Qed.

Lemma agree_off_remove k ks d : In k ks -> agree_off ks d (Dict.remove k d).
Proof.
  intros Hin k' Hk'. apply get_remove_other.
  apply String.eqb_neq. intros ->. now apply Hk'.
Qed.

Lemma get_emergency_phone_run (schema : Schema) (s : State) (hd : Kwargs) :
  handler_data s = Some hd ->
  phone_ok schema hd ->
  exists p s' hd',
    get_emergency_phone schema s = (Ok p, s') /\
    handler_data s' = Some hd' /\
    agree_off ["emergency_phone"] hd hd' /\
    handlers (db s') = handlers (db s).
Proof.
  intros Hhd Hok. unfold phone_ok in Hok.
  unfold get_emergency_phone, try_, bind, pop_handler_data. rewrite Hhd.
  destruct (Dict.get "emergency_phone" hd) as [v |] eqn:Hv.
  - destruct v; try contradiction.
    + cbn. do 3 eexists. split; [reflexivity |]. cbn.
      split; [reflexivity |]. split; [| reflexivity].
      apply agree_off_remove. now left.
    + cbn. unfold EpaPhone_create.
      destruct (EpaPhone_clean schema kvs) as [e |] eqn:Hc.
      * destruct e; try contradiction. cbn.
        do 3 eexists. split; [reflexivity |]. cbn.
        split; [reflexivity |]. split; [| reflexivity].
        apply agree_off_remove. now left.
      * cbn. do 3 eexists. split; [reflexivity |]. cbn.
        split; [reflexivity |]. split; [| reflexivity].
        apply agree_off_remove. now left.
  - cbn. do 3 eexists. split; [reflexivity |]. cbn.
    split; [exact Hhd |]. split; [apply agree_off_refl | reflexivity].
Qed.

Lemma get_address_run_ok (schema : Schema) (key : string) (s : State) (hd : Kwargs) :
  handler_data s = Some hd ->
  address_ok schema key hd ->
  exists a s',
    get_address schema key s = (Ok a, s') /\
    handler_data s' = Some (Dict.remove key hd) /\
    handlers (db s') = handlers (db s).
Proof.
  intros Hhd Hok. unfold address_ok in Hok.
  destruct (Dict.get key hd) as [v |] eqn:Hv; [| contradiction].
  destruct v; try contradiction.
  - do 2 eexists. split; [exact (get_address_raw schema key s hd _ Hhd Hv Hok) |].
    split; reflexivity.
  - do 2 eexists. split; [exact (get_address_instance schema key s hd _ Hhd Hv) |].
    split; reflexivity.
Qed.

Lemma Contact_save_run (schema : Schema) (kw : Kwargs) (s : State) :
  Contact_clean schema kw = None ->
  Contact_save schema kw s
  = (Ok (fresh (map pk (contacts (db s)))),
     set_db (insert_contact (mkRow (fresh (map pk (contacts (db s)))) kw) (db s)) s).
Proof. intros H. unfold Contact_save. rewrite H. reflexivity. Qed.

Lemma HandlerManager_save_lacks_address (schema : Schema) (hd ckw : Kwargs)
    (key : string) (s : State) :
  Handler_filter (Dict.get_or_None "epa_id" hd) (db s) = [] ->
  Dict.get "contact" hd = Some (PDict ckw) ->
  Contact_clean schema ckw = None ->
  phone_ok schema hd ->
  lacks_address schema hd key ->
  exists s',
    HandlerManager_save schema hd s = (Raise (ValidationError (KeyError key)), s').
Proof.
  intros Hnew Hcontact Hclean Hphone Hlack.
  unfold HandlerManager_save.
  assert (Hbody : forall body except,
            (exists s', body s = (Raise (ValidationError (KeyError key)), s')) ->
            except (ValidationError (KeyError key)) = None ->
            exists s', @try_ (option Handler) body except s
                       = (Raise (ValidationError (KeyError key)), s')).
  { intros body except [s' Hrun] Hex. exists s'. now apply try_run_unhandled. }
  apply Hbody; [| reflexivity]. clear Hbody.
  unfold bind at 1, get_db. rewrite Hnew. cbn [exists_].
  unfold bind at 1. cbn [fst snd].
  unfold bind at 1, pop_handler_data. cbn [handler_data set_handler_data].
  rewrite Hcontact.
  unfold bind at 1, as_kwargs, ret.
  unfold bind at 1. rewrite Contact_save_run by exact Hclean.
  set (s2 := set_db _ _).
  assert (Hhd2 : handler_data s2 = Some (Dict.remove "contact" hd)) by reflexivity.
  assert (Hphone2 : phone_ok schema (Dict.remove "contact" hd)).
  { unfold phone_ok in *. now rewrite get_remove_other by reflexivity. }
  destruct (get_emergency_phone_run schema s2 _ Hhd2 Hphone2)
    as [p [s3 [hd3 [Hrun3 [Hhd3 [Hagree Hh3]]]]]].
  rewrite (bind_run_ok _ _ _ _ _ Hrun3).
  assert (Hget : forall k, k <> "contact" -> k <> "emergency_phone" ->
                           Dict.get k hd3 = Dict.get k hd).
  { intros k Hk1 Hk2. rewrite Hagree by (simpl; intuition congruence).
    apply get_remove_other. now apply String.eqb_neq. }
  destruct Hlack as [[-> Hsite] | [-> [Hsite Hmail]]].
  - assert (Hs : Dict.get "site_address" hd3 = None)
      by (rewrite Hget by discriminate; exact Hsite).
    rewrite (bind_run_raise _ _ _ _ _ (get_address_missing schema "site_address" s3 _ Hhd3 Hs)).
    eexists. reflexivity.
  - assert (Hs : address_ok schema "site_address" hd3).
    { unfold address_ok in *. now rewrite Hget by discriminate. }
    destruct (get_address_run_ok schema "site_address" s3 _ Hhd3 Hs)
      as [a [s4 [Hrun4 [Hhd4 Hh4]]]].
    rewrite (bind_run_ok _ _ _ _ _ Hrun4).
    assert (Hm : Dict.get "mail_address" (Dict.remove "site_address" hd3) = None).
    { rewrite get_remove_other by reflexivity. rewrite Hget by discriminate.
      exact Hmail. }
    rewrite (bind_run_raise _ _ _ _ _ (get_address_missing schema "mail_address" s4 _ Hhd4 Hm)).
    eexists. reflexivity.
Qed.

Lemma get_without_signatures (k : string) (hd : Kwargs) :
  String.eqb k "paper_signature" = false ->
  String.eqb k "e_signatures" = false ->
  Dict.get k (without_signatures hd) = Dict.get k hd.
Proof.
  intros H1 H2. unfold without_signatures.
  now rewrite !get_remove_other.
Qed.

Lemma ManifestHandlerManager_save_prefix (schema : Schema) (hd : Kwargs)
    (s : State) (o : option Kwargs) :
  paper_block schema hd = Some o ->
  exists es ps s1,
    ManifestHandlerManager_save schema hd s
    = try_ (assemble schema (without_signatures hd) es ps) save_except s1 /\
    db s1 = db_after_paper o (db s) /\
    handler_data s1 = handler_data s /\
    log s1 = (log s ++ [mkLog DEBUG "e_signature data " (ArgVal es)])%list.
Proof.
  intros Hp. unfold ManifestHandlerManager_save.
  destruct (take_e_signatures_run hd s) as [es [hd1 [Hrun [-> Hes]]]].
  rewrite (bind_run_ok _ _ _ _ _ Hrun). cbn beta iota.
  unfold bind at 1, logger. cbn beta iota.
  unfold paper_block in Hp. unfold without_signatures.
  rewrite <- (get_remove_other "paper_signature" "e_signatures" hd eq_refl) in Hp.
  unfold Dict.mem.
  destruct (Dict.get "paper_signature" (Dict.remove "e_signatures" hd))
    as [v |] eqn:Hv.
  - destruct v; try discriminate.
    destruct (PaperSignature_clean schema kvs) eqn:Hc; [discriminate |].
    injection Hp as <-.
    unfold bind at 1. unfold bind at 1, pop. rewrite Hv.
    cbn beta iota. unfold ret at 1. cbn beta iota.
    unfold bind at 1, as_kwargs, ret at 1. cbn beta iota.
    unfold bind at 1, PaperSignature_create. rewrite Hc.
    cbn. do 3 eexists. split; [reflexivity |]. cbn. repeat split.
  - injection Hp as <-. unfold bind at 1, ret at 1. cbn beta iota.
    rewrite (remove_absent _ _ Hv).
    do 3 eexists. split; [reflexivity |]. cbn. repeat split.
Qed.

Lemma assemble_lacks_handler_key (schema : Schema) (hd : Kwargs) (key : string)
    (es : PyVal) (ps : option nat) (s : State) :
  lacks_handler_key hd key ->
  assemble schema (without_signatures hd) es ps s = (Raise (KeyError key), s).
Proof.
  intros [[-> Hh] | [-> [hkw [Hh He]]]]; unfold assemble, bind at 1, subscript;
    rewrite get_without_signatures by reflexivity; rewrite Hh.
  - reflexivity.
  - unfold ret at 1. cbn beta iota. unfold bind at 1. now rewrite He.
Qed.

(** C4, as amended.  A [KeyError] for a key the two methods look up is
    swallowed: [HandlerManager.save] on a new [epa_id] without [contact],
    and [ManifestHandlerManager.save] without [handler] or without the
    [epa_id] of the handler block, log a warning that names the key and
    return [None].  The first leaves the database as it was.  The second
    creates no Handler, ManifestHandler or ESignature; the PaperSignature
    it built from the payload's [paper_signature] block before looking the
    handler up is the one row it leaves behind. *)
Theorem missing_key_is_swallowed (schema : Schema) :
  (forall hd s,
     Handler_filter (Dict.get_or_None "epa_id" hd) (db s) = [] ->
     Dict.get "contact" hd = None ->
     exists s',
       HandlerManager_save schema hd s = (Ok None, s') /\
       db s' = db s /\
       log s' = (log s ++ [mkLog WARNING "error while creating handler "
                             (ArgExc (KeyError "contact"))])%list)
  /\
  (forall hd key o s,
     lacks_handler_key hd key ->
     paper_block schema hd = Some o ->
     exists s',
       ManifestHandlerManager_save schema hd s = (Ok None, s') /\
       db s' = db_after_paper o (db s) /\
       handlers (db s') = handlers (db s) /\
       manifest_handlers (db s') = manifest_handlers (db s) /\
       e_signatures (db s') = e_signatures (db s) /\
       In (mkLog WARNING "KeyError while creating Manifest handler "
             (ArgExc (KeyError key))) (log s')).
Proof.
  split.
  - intros hd s Hnew Hcontact.
    rewrite (HandlerManager_save_missing_contact schema hd s Hnew Hcontact).
    eexists. split; [reflexivity |]. split; reflexivity.
  - intros hd key o s Hlack Hpaper.
    destruct (ManifestHandlerManager_save_prefix schema hd s _ Hpaper)
      as [es [ps [s1 [Hrun [Hdb [_ Hlog]]]]]].
    rewrite Hrun.
    rewrite (try_run_handled _ save_except _ _ _ _
               (assemble_lacks_handler_key schema hd key es ps s1 Hlack) eq_refl).
    eexists. split; [reflexivity |]. cbn. rewrite Hdb.
    split; [reflexivity |].
    repeat split; try (destruct o; reflexivity).
    apply in_or_app. right. now left.
Qed.

Lemma Handler_filter_ext (v : PyVal) (d d' : DB) :
  handlers d' = handlers d -> Handler_filter v d' = Handler_filter v d.
Proof. intros H. unfold Handler_filter. now rewrite H. Qed.

Lemma handlers_after_paper (o : option Kwargs) (d : DB) :
  handlers (db_after_paper o d) = handlers d.
Proof. destruct o; reflexivity. Qed.

(** C7.  [get_address] on a key the handler payload does not have raises
    [ValidationError] (carrying the [KeyError]) after logging a warning;
    and when a new handler's block gets as far as resolving its addresses
    and lacks [site_address] or [mail_address], that [ValidationError]
    leaves [ManifestHandlerManager.save], which logs it and raises it
    again. *)
Theorem missing_address_raises_ValidationError (schema : Schema) :
  (forall key s hd,
     handler_data s = Some hd ->
     Dict.get key hd = None ->
     get_address schema key s
     = (Raise (ValidationError (KeyError key)),
        add_log (mkLog WARNING "" (ArgExc (KeyError key))) s))
  /\
  (forall hd hkw ckw epa key o s,
     paper_block schema hd = Some o ->
     Dict.get "handler" hd = Some (PDict hkw) ->
     Dict.get "epa_id" hkw = Some epa ->
     Handler_filter epa (db s) = [] ->
     Dict.get "contact" hkw = Some (PDict ckw) ->
     Contact_clean schema ckw = None ->
     phone_ok schema hkw ->
     lacks_address schema hkw key ->
     exists s',
       ManifestHandlerManager_save schema hd s
       = (Raise (ValidationError (KeyError key)), s') /\
       In (mkLog WARNING "ValidationError while creating Manifest handler "
             (ArgExc (ValidationError (KeyError key)))) (log s')).
Proof.
  split.
  - intros key s hd Hhd Hget. exact (get_address_missing schema key s hd Hhd Hget).
  - intros hd hkw ckw epa key o s Hpaper Hh Hepa Hnew Hcontact Hclean Hphone Hlack.
    destruct (ManifestHandlerManager_save_prefix schema hd s _ Hpaper)
      as [es [ps [s1 [Hrun [Hdb _]]]]].
    rewrite Hrun.
    assert (Hnew1 : Handler_filter epa (db s1) = []).
    { rewrite <- Hnew. apply Handler_filter_ext. rewrite Hdb.
      apply handlers_after_paper. }
    assert (Hnew2 : Handler_filter (Dict.get_or_None "epa_id" hkw) (db s1) = []).
    { unfold Dict.get_or_None. now rewrite Hepa. }
    destruct (HandlerManager_save_lacks_address schema hkw ckw key s1 Hnew2 Hcontact
                Hclean Hphone Hlack) as [s2 Hsave].
    assert (Hbody : assemble schema (without_signatures hd) es ps s1
                    = (Raise (ValidationError (KeyError key)), s2)).
    { unfold assemble, bind at 1, subscript.
      rewrite get_without_signatures by reflexivity. rewrite Hh.
      unfold ret at 1. cbn beta iota.
      unfold bind at 1. rewrite Hepa. unfold ret at 1. cbn beta iota.
      unfold bind at 1, get_db. cbn beta iota. rewrite Hnew1. cbn [exists_].
      unfold bind at 1. unfold bind at 1, pop.
      rewrite get_without_signatures by reflexivity. rewrite Hh.
      unfold ret at 1. cbn beta iota.
      unfold bind at 1, as_kwargs, ret at 1. cbn beta iota.
      unfold bind at 1. rewrite Hsave. reflexivity. }
    rewrite (try_run_handled _ save_except _ _ _ _ Hbody eq_refl).
    eexists. split; [reflexivity |]. cbn.
    apply in_or_app. right. now left.
Qed.

Lemma missing_key_is_swallowed_witness :
  (exists s',
     HandlerManager_save accept_all handler_without_contact init_state = (Ok None, s') /\
     db s' = empty_db)
  /\
  (exists s',
     ManifestHandlerManager_save accept_all signed_without_handler init_state
     = (Ok None, s') /\
     handlers (db s') = [] /\ manifest_handlers (db s') = []).
Proof.
  split.
  - destruct (proj1 (missing_key_is_swallowed accept_all)
                handler_without_contact init_state eq_refl eq_refl)
      as [s' [Hrun [Hdb _]]].
    exists s'. split; [exact Hrun | exact Hdb].
  - destruct (proj2 (missing_key_is_swallowed accept_all)
                signed_without_handler "handler" (Some sample_paper_signature)
                init_state (or_introl (conj eq_refl eq_refl)) eq_refl)
      as [s' [Hrun [_ [Hh [Hm _]]]]].
    exists s'. split; [exact Hrun | split; [exact Hh | exact Hm]].
Defined.

(** C4, the claim as written fails: a payload with a [paper_signature]
    block and no [handler] makes [ManifestHandlerManager.save] return
    [None] after the [KeyError], and the PaperSignature it created first is
    in the store. *)
Lemma missing_handler_leaves_paper_signature :
  Dict.get "handler" signed_without_handler = None /\
  fst (ManifestHandlerManager_save accept_all signed_without_handler init_state)
  = Ok None /\
  paper_signatures (db init_state) = [] /\
  paper_signatures
    (db (snd (ManifestHandlerManager_save accept_all signed_without_handler init_state)))
  = [mkRow 1 sample_paper_signature].
Proof. repeat split. Qed.

Lemma missing_address_raises_ValidationError_witness :
  get_address accept_all "site_address"
    (set_handler_data (Some handler_without_site_address) init_state)
  = (Raise (ValidationError (KeyError "site_address")),
     add_log (mkLog WARNING "" (ArgExc (KeyError "site_address")))
       (set_handler_data (Some handler_without_site_address) init_state))
  /\
  exists s',
    ManifestHandlerManager_save accept_all
      [("handler", PDict handler_without_site_address)] init_state
    = (Raise (ValidationError (KeyError "site_address")), s').
Proof.
  split.
  - exact (proj1 (missing_address_raises_ValidationError accept_all)
             "site_address"
             (set_handler_data (Some handler_without_site_address) init_state)
             handler_without_site_address eq_refl eq_refl).
  - destruct (proj2 (missing_address_raises_ValidationError accept_all)
                [("handler", PDict handler_without_site_address)]
                handler_without_site_address sample_contact
                (PStr "VAT000000000") "site_address" None init_state
                eq_refl eq_refl eq_refl eq_refl eq_refl eq_refl I
                (or_introl (conj eq_refl eq_refl)))
      as [s' [Hrun _]].
    exists s'. exact Hrun.
Defined.

(* ================================================================= *)
(** ** Relations every step of a computation keeps *)

Section Frame.

Variable R : State -> State -> Prop.
Hypothesis R_refl : forall s, R s s.
Hypothesis R_trans : forall a b c, R a b -> R b c -> R a c.

Lemma preserves_ret {A} (a : A) : preserves R (ret a).
Proof. intros s r s' H. inversion H; subst. apply R_refl. Qed.

Lemma preserves_raise {A} (e : Exc) : preserves R (@raise A e).
Proof. intros s r s' H. inversion H; subst. apply R_refl. Qed.

Lemma preserves_get_db : preserves R get_db.
Proof. intros s r s' H. inversion H; subst. apply R_refl. Qed.

Lemma preserves_bind {A B} (m : M A) (f : A -> M B) :
  preserves R m -> (forall a, preserves R (f a)) -> preserves R (bind m f).
Proof.
  intros Hm Hf s r s' H. apply bind_inv in H.
  destruct H as [[a [s1 [H1 H2]]] | [e [H1 _]]].
  - eapply R_trans; [eapply Hm; exact H1 | eapply Hf; exact H2].
  - eapply Hm; exact H1.
Qed.

Lemma preserves_try {A} (m : M A) (except : Exc -> option (M A)) :
  preserves R m ->
  (forall e h, except e = Some h -> preserves R h) ->
  preserves R (try_ m except).
Proof.
  intros Hm Hh s r s' H. apply try_inv in H.
  destruct H as [[a [H1 _]] | [[e [s1 [h [H1 [H2 H3]]]]] | [e [H1 _]]]].
  - eapply Hm; exact H1.
  - eapply R_trans; [eapply Hm; exact H1 | eapply Hh; [exact H2 | exact H3]].
  - eapply Hm; exact H1.
Qed.

Lemma preserves_as_kwargs (v : PyVal) : preserves R (as_kwargs v).
Proof. destruct v; first [apply preserves_ret | apply preserves_raise]. Qed.

Lemma preserves_pop (k : string) (d : Kwargs) : preserves R (pop k d).
Proof.
  unfold pop. destruct (Dict.get k d);
    first [apply preserves_ret | apply preserves_raise].
Qed.

Lemma preserves_subscript (v : PyVal) (k : string) : preserves R (subscript v k).
Proof.
  unfold subscript. destruct v; try apply preserves_raise.
  destruct (Dict.get k kvs); first [apply preserves_ret | apply preserves_raise].
Qed.

Lemma preserves_iterate (v : PyVal) : preserves R (iterate v).
Proof. destruct v; first [apply preserves_ret | apply preserves_raise]. Qed.

Lemma preserves_Handler_get (v : PyVal) : preserves R (Handler_get v).
Proof.
  unfold Handler_get. apply preserves_bind; [apply preserves_get_db |].
  intros d. destruct (Handler_filter v d) as [| h [| h' l]];
    first [apply preserves_ret | apply preserves_raise].
Qed.

End Frame.

(** The structural steps of a [preserves] proof; [prim] closes the goals
    about the operations that touch the state. *)
Ltac frame_step HR HT prim :=
  first
    [ apply (preserves_ret _ HR)
    | apply (preserves_raise _ HR)
    | apply (preserves_get_db _ HR)
    | apply (preserves_as_kwargs _ HR)
    | apply (preserves_pop _ HR)
    | apply (preserves_subscript _ HR)
    | apply (preserves_iterate _ HR)
    | apply (preserves_Handler_get _ HR HT)
    | prim
    | apply (preserves_bind _ HT); [| intros ?]
    | match goal with
      | |- preserves _ (if ?b then _ else _) => destruct b
      | |- preserves _ (match ?x with _ => _ end) => destruct x
      end ].

Ltac frame HR HT prim := repeat frame_step HR HT prim.

Lemma agree_off_trans ks d1 d2 d3 :
  agree_off ks d1 d2 -> agree_off ks d2 d3 -> agree_off ks d1 d3.
Proof. intros H12 H23 k Hk. rewrite H23, H12; auto. Qed.

Lemma keeps_handler_data_refl s : keeps_handler_data s s.
Proof. intros hd H. exists hd. split; [exact H | apply agree_off_refl]. Qed.

Lemma keeps_handler_data_trans a b c :
  keeps_handler_data a b -> keeps_handler_data b c -> keeps_handler_data a c.
Proof.
  intros Hab Hbc hd H. destruct (Hab hd H) as [hd1 [H1 A1]].
  destruct (Hbc hd1 H1) as [hd2 [H2 A2]]. exists hd2.
  split; [exact H2 | eapply agree_off_trans; eassumption].
Qed.

Lemma keeps_handler_data_same s s' :
  handler_data s' = handler_data s -> keeps_handler_data s s'.
Proof.
  intros E hd H. exists hd. split; [now rewrite E | apply agree_off_refl].
Qed.

(** Unfold a state-touching operation in [H : op s = (r, s')] and split on
    what it tests. *)
Ltac run_prim H :=
  repeat match type of H with
         | context [match ?x with _ => _ end] => destruct x eqn:?
         end;
  inversion H; subst; clear H.

Ltac keeps_same :=
  intros s r s' H;
  unfold logger, Address_create, Contact_save, EpaPhone_create,
    PaperSignature_create, ESignature_save, bind, get_db, put_db, ret, raise in H;
  run_prim H; apply keeps_handler_data_same; reflexivity.

Lemma keeps_logger l t a : preserves keeps_handler_data (logger l t a).
Proof. keeps_same. Qed.

Lemma keeps_Address_create schema kw :
  preserves keeps_handler_data (Address_create schema kw).
Proof. keeps_same. Qed.

Lemma keeps_Contact_save schema kw :
  preserves keeps_handler_data (Contact_save schema kw).
Proof. keeps_same. Qed.

Lemma keeps_EpaPhone_create schema kw :
  preserves keeps_handler_data (EpaPhone_create schema kw).
Proof. keeps_same. Qed.

Lemma keeps_pop_handler_data key :
  In key popped_keys -> preserves keeps_handler_data (pop_handler_data key).
Proof.
  intros Hin s r s' H. unfold pop_handler_data in H. run_prim H;
    try apply keeps_handler_data_refl.
  intros hd Hhd. cbn. eexists. split; [reflexivity |].
  assert (hd = k) by congruence. subst.
  intros k' Hk'. apply get_remove_other. apply String.eqb_neq.
  intros ->. now apply Hk'.
Qed.

Ltac keeps_prim :=
  first [ apply keeps_logger | apply keeps_Address_create | apply keeps_Contact_save
        | apply keeps_EpaPhone_create
        | apply keeps_pop_handler_data; simpl; tauto ].

Ltac keeps := frame keeps_handler_data_refl keeps_handler_data_trans keeps_prim.

Lemma keeps_get_emergency_phone schema :
  preserves keeps_handler_data (get_emergency_phone schema).
Proof.
  unfold get_emergency_phone.
  apply (preserves_try _ keeps_handler_data_trans).
  - keeps.
  - intros e h He. destruct e; inversion He; subst. keeps.
Qed.

Lemma keeps_get_address schema key :
  In key popped_keys -> preserves keeps_handler_data (get_address schema key).
Proof.
  intros Hin. unfold get_address.
  apply (preserves_try _ keeps_handler_data_trans).
  - apply (preserves_bind _ keeps_handler_data_trans).
    + now apply keeps_pop_handler_data.
    + intros v. keeps.
  - intros e h He. destruct e; inversion He; subst. keeps.
Qed.

(* ================================================================= *)
(** ** [HandlerManager.save] is get-or-create *)

Lemma Handler_filter_insert (e : string) (h : Handler) (d : DB) :
  h_epa_id h = e ->
  Handler_filter (PStr e) (insert_handler h d)
  = (Handler_filter (PStr e) d ++ [h])%list.
Proof.
  intros He. unfold Handler_filter. cbn. rewrite filter_app. cbn.
  rewrite He, String.eqb_refl. reflexivity.
Qed.

Lemma exists_false {A} (l : list A) : exists_ l = false -> l = [].
Proof. destruct l; [reflexivity | discriminate]. Qed.

Lemma Handler_get_inv (v : PyVal) (s : State) (h : Handler) (s' : State) :
  Handler_get v s = (Ok h, s') -> Handler_filter v (db s) = [h] /\ s' = s.
Proof.
  unfold Handler_get, bind, get_db. intros H.
  destruct (Handler_filter v (db s)) as [| h0 [| h1 l]]; inversion H; subst.
  split; reflexivity.
Qed.

(** Creating the row either appends it, the checks passed, or raises and
    leaves the state as it was. *)
Lemma TrakBaseManager_save_cases schema sa ma p c kw s :
  (exists h,
     TrakBaseManager_save schema sa ma p c kw s
     = (Ok h, set_db (insert_handler h (db s)) s) /\
     Handler_filter (PStr (h_epa_id h)) (db s) = [] /\
     (Dict.get "epa_id" kw = Some (PStr (h_epa_id h)) \/
      (Dict.get "epa_id" kw = None /\ h_epa_id h = "")) /\
     h = mkHandler (fresh (map h_pk (handlers (db s)))) (h_epa_id h) sa ma c p kw /\
     stored sa (addresses (db s)) = true /\
     stored ma (addresses (db s)) = true /\
     stored c (contacts (db s)) = true /\
     stored_or_null p (phones (db s)) = true)
  \/
  (exists e, TrakBaseManager_save schema sa ma p c kw s = (Raise e, s)).
Proof.
  unfold TrakBaseManager_save, epa_id_column, bind, get_db, put_db, ret, raise.
  destruct (Handler_clean schema kw) as [e |]; [right; now exists e |].
  destruct (Dict.get "epa_id" kw) as [v |] eqn:Hv; [destruct v |];
    try (right; eexists; reflexivity);
    (destruct (exists_ _) eqn:Hex; [right; eexists; reflexivity |]);
    (destruct (stored sa _) eqn:Hsa; [| right; eexists; reflexivity]);
    (destruct (stored ma _) eqn:Hma; [| right; eexists; reflexivity]);
    (destruct (stored c _) eqn:Hc; [| right; eexists; reflexivity]);
    (destruct (stored_or_null p _) eqn:Hp; [| right; eexists; reflexivity]);
    left; eexists; cbn [negb h_epa_id];
    (split; [reflexivity |]); (split; [now apply exists_false |]);
    (split; [auto |]); repeat split.
Qed.

(** What creating the row does: the checks passed, no Handler had the
    [epa_id], and the new row is appended. *)
Lemma TrakBaseManager_save_inv schema sa ma p c kw s h s' :
  TrakBaseManager_save schema sa ma p c kw s = (Ok h, s') ->
  Handler_filter (PStr (h_epa_id h)) (db s) = [] /\
  s' = set_db (insert_handler h (db s)) s /\
  (Dict.get "epa_id" kw = Some (PStr (h_epa_id h)) \/
   (Dict.get "epa_id" kw = None /\ h_epa_id h = "")).
Proof.
  intros H.
  destruct (TrakBaseManager_save_cases schema sa ma p c kw s)
    as [[h0 [Hrun [Hnone [Hepa _]]]] | [e Hrun]];
    rewrite Hrun in H; inversion H; subst; clear H.
  split; [exact Hnone |]. split; [reflexivity | exact Hepa].
Qed.

Lemma handlers_referenced_refl s : handlers_referenced s s.
Proof. split; [apply incl_refl | auto]. Qed.

Lemma handlers_referenced_trans a b c :
  handlers_referenced a b -> handlers_referenced b c -> handlers_referenced a c.
Proof.
  intros [Hab Mab] [Hbc Mbc]. split.
  - eapply incl_tran; eassumption.
  - intros mh Hc. destruct (Mbc mh Hc) as [Hb | Hb]; [| now right].
    destruct (Mab mh Hb) as [Ha | [h [Hh Hpk]]]; [now left |].
    right. exists h. split; [now apply Hbc | exact Hpk].
Qed.

Lemma handlers_referenced_same s s' :
  handlers (db s') = handlers (db s) ->
  manifest_handlers (db s') = manifest_handlers (db s) ->
  handlers_referenced s s'.
Proof.
  intros Hh Hm. split.
  - rewrite Hh. apply incl_refl.
  - intros mh Hin. left. now rewrite <- Hm.
Qed.

Ltac referenced_same :=
  intros s r s' H;
  unfold logger, Address_create, Contact_save, EpaPhone_create,
    PaperSignature_create, ESignature_save, pop_handler_data, read_handler_data,
    bind, get_db, put_db, ret, raise in H;
  run_prim H; apply handlers_referenced_same; reflexivity.

Lemma referenced_logger l t a : preserves handlers_referenced (logger l t a).
Proof. referenced_same. Qed.

Lemma referenced_Address_create schema kw :
  preserves handlers_referenced (Address_create schema kw).
Proof. referenced_same. Qed.

Lemma referenced_Contact_save schema kw :
  preserves handlers_referenced (Contact_save schema kw).
Proof. referenced_same. Qed.

Lemma referenced_EpaPhone_create schema kw :
  preserves handlers_referenced (EpaPhone_create schema kw).
Proof. referenced_same. Qed.

Lemma referenced_PaperSignature_create schema kw :
  preserves handlers_referenced (PaperSignature_create schema kw).
Proof. referenced_same. Qed.

Lemma referenced_ESignature_save schema mh kw :
  preserves handlers_referenced (ESignature_save schema mh kw).
Proof. referenced_same. Qed.

Lemma referenced_pop_handler_data key :
  preserves handlers_referenced (pop_handler_data key).
Proof. referenced_same. Qed.

Lemma referenced_read_handler_data :
  preserves handlers_referenced read_handler_data.
Proof. referenced_same. Qed.

Lemma referenced_TrakBaseManager_save schema sa ma p c kw :
  preserves handlers_referenced (TrakBaseManager_save schema sa ma p c kw).
Proof.
  intros s r s' H. destruct r as [h | e].
  - apply TrakBaseManager_save_inv in H. destruct H as [_ [-> _]].
    split; [cbn; apply incl_appl, incl_refl | intros mh Hin; now left].
  - assert (s' = s) as ->; [| apply handlers_referenced_refl].
    destruct (TrakBaseManager_save_cases schema sa ma p c kw s)
      as [[h0 [Hrun _]] | [e0 Hrun]]; rewrite Hrun in H; now inversion H.
Qed.

Ltac referenced_prim :=
  first [ apply referenced_logger | apply referenced_Address_create
        | apply referenced_Contact_save | apply referenced_EpaPhone_create
        | apply referenced_PaperSignature_create | apply referenced_ESignature_save
        | apply referenced_pop_handler_data | apply referenced_read_handler_data
        | apply referenced_TrakBaseManager_save ].

Ltac referenced :=
  frame handlers_referenced_refl handlers_referenced_trans referenced_prim.

Lemma referenced_get_emergency_phone schema :
  preserves handlers_referenced (get_emergency_phone schema).
Proof.
  unfold get_emergency_phone.
  apply (preserves_try _ handlers_referenced_trans).
  - referenced.
  - intros e h He. destruct e; inversion He; subst. referenced.
Qed.

Lemma referenced_get_address schema key :
  preserves handlers_referenced (get_address schema key).
Proof.
  unfold get_address.
  apply (preserves_try _ handlers_referenced_trans).
  - referenced.
  - intros e h He. destruct e; inversion He; subst. referenced.
Qed.

Lemma referenced_HandlerManager_save schema hd :
  preserves handlers_referenced (HandlerManager_save schema hd).
Proof.
  unfold HandlerManager_save.
  apply (preserves_try _ handlers_referenced_trans).
  - apply (preserves_bind _ handlers_referenced_trans);
      [apply (preserves_get_db _ handlers_referenced_refl) |].
    intros d. destruct (exists_ _); [referenced |].
    apply (preserves_bind _ handlers_referenced_trans).
    { intros s r s' H. inversion H; subst.
      apply handlers_referenced_same; reflexivity. }
    intros _.
    repeat first [ apply referenced_get_emergency_phone
                 | apply referenced_get_address
                 | frame_step handlers_referenced_refl handlers_referenced_trans
                     referenced_prim ].
  - intros e h He. destruct e; inversion He; subst. referenced.
Qed.

(** A call that returns a Handler either found it or created it. *)
Lemma HandlerManager_save_inv schema hd s h s' :
  HandlerManager_save schema hd s = (Ok (Some h), s') ->
  (Handler_filter (Dict.get_or_None "epa_id" hd) (db s) = [h] /\ s' = s)
  \/
  (Handler_filter (Dict.get_or_None "epa_id" hd) (db s) = [] /\
   exists s0 rest,
     incl (handlers (db s)) (handlers (db s0)) /\
     Handler_filter (PStr (h_epa_id h)) (db s0) = [] /\
     s' = set_db (insert_handler h (db s0)) s0 /\
     agree_off popped_keys hd rest /\
     (Dict.get "epa_id" rest = Some (PStr (h_epa_id h)) \/
      (Dict.get "epa_id" rest = None /\ h_epa_id h = ""))).
Proof.
  intros H. unfold HandlerManager_save in H. apply try_inv in H.
  destruct H as [[a [H Ha]] | [[e [s1 [h0 [_ [Hex Hh]]]]] | [e [_ [_ Hr]]]]];
    [| destruct e; inversion Hex; subst; inversion Hh | discriminate Hr].
  inversion Ha; subst a; clear Ha.
  unfold bind at 1, get_db in H. cbn beta iota in H.
  destruct (exists_ (Handler_filter (Dict.get_or_None "epa_id" hd) (db s))) eqn:Hexi.
  - left. apply bind_inv_ok in H. destruct H as [h1 [s1 [Hget Hret]]].
    inversion Hret; subst. now apply Handler_get_inv.
  - right. split; [now apply exists_false |].
    apply bind_inv_ok in H. destruct H as [[] [sa [Hset H]]].
    inversion Hset; subst sa; clear Hset.
    apply bind_inv_ok in H. destruct H as [cd [sb [Hpop H]]].
    apply bind_inv_ok in H. destruct H as [ckw [sc [Hkw H]]].
    apply bind_inv_ok in H. destruct H as [nc [sd [Hcon H]]].
    apply bind_inv_ok in H. destruct H as [ph [se [Hph H]]].
    apply bind_inv_ok in H. destruct H as [sa [sf [Hsite H]]].
    apply bind_inv_ok in H. destruct H as [ma [sg [Hmail H]]].
    apply bind_inv_ok in H. destruct H as [rest [sh [Hread H]]].
    apply bind_inv_ok in H. destruct H as [h1 [si [Hsave Hret]]].
    inversion Hret; subst h1 si; clear Hret.
    apply TrakBaseManager_save_inv in Hsave. destruct Hsave as [Hnone [Hs' Hepa]].
    assert (Hsc : sc = sb).
    { destruct cd; inversion Hkw; reflexivity. }
    subst sc.
    assert (Hread' : handler_data sg = Some rest /\ sh = sg).
    { unfold read_handler_data in Hread. destruct (handler_data sg);
        inversion Hread; subst; auto. }
    destruct Hread' as [Hrest ->].
    assert (Hk : keeps_handler_data (set_handler_data (Some hd) s) sg).
    { eapply keeps_handler_data_trans;
        [eapply (keeps_pop_handler_data "contact"); [simpl; tauto | exact Hpop] |].
      eapply keeps_handler_data_trans; [eapply keeps_Contact_save; exact Hcon |].
      eapply keeps_handler_data_trans;
        [eapply keeps_get_emergency_phone; exact Hph |].
      eapply keeps_handler_data_trans;
        [eapply (keeps_get_address schema "site_address");
         [simpl; tauto | exact Hsite] |].
      eapply (keeps_get_address schema "mail_address");
        [simpl; tauto | exact Hmail]. }
    assert (Hr : handlers_referenced (set_handler_data (Some hd) s) sg).
    { eapply handlers_referenced_trans;
        [eapply referenced_pop_handler_data; exact Hpop |].
      eapply handlers_referenced_trans;
        [eapply referenced_Contact_save; exact Hcon |].
      eapply handlers_referenced_trans;
        [eapply referenced_get_emergency_phone; exact Hph |].
      eapply handlers_referenced_trans;
        [eapply referenced_get_address; exact Hsite |].
      eapply referenced_get_address; exact Hmail. }
    destruct (Hk hd eq_refl) as [rest' [Hrest' Hagree]].
    assert (rest' = rest) by congruence. subst rest'.
    exists sg, rest. split; [exact (proj1 Hr) |].
    split; [exact Hnone |]. split; [exact Hs' |]. split; [exact Hagree | exact Hepa].
Qed.

(** C2.  When a call of [HandlerManager.save] with [epa_id] [e] has
    returned a Handler, a second call with the same [epa_id], whatever else
    its payload holds, returns that same Handler and leaves the state as
    the first call left it: no Address, Contact or EpaPhone is created and
    no column of the Handler changes. *)
Theorem HandlerManager_save_twice (schema : Schema) (first second : Kwargs)
    (e : string) (s : State) (h : Handler) (s1 : State) :
  Dict.get "epa_id" first = Some (PStr e) ->
  Dict.get "epa_id" second = Some (PStr e) ->
  HandlerManager_save schema first s = (Ok (Some h), s1) ->
  HandlerManager_save schema second s1 = (Ok (Some h), s1) /\
  h_epa_id h = e /\
  In h (handlers (db s1)).
Proof.
  intros Hfirst Hsecond Hrun.
  assert (Hone : Handler_filter (PStr e) (db s1) = [h]).
  { apply HandlerManager_save_inv in Hrun.
    unfold Dict.get_or_None in Hrun. rewrite Hfirst in Hrun.
    destruct Hrun as [[Hf ->] | [_ [s0 [rest [_ [Hnone [-> [Hagree Hepa]]]]]]]].
    - exact Hf.
    - assert (He : h_epa_id h = e).
      { rewrite Hagree in Hepa by (simpl; intuition discriminate).
        rewrite Hfirst in Hepa. destruct Hepa as [Hepa | [Hepa _]]; congruence. }
      unfold set_db. cbn [db]. rewrite (Handler_filter_insert e h (db s0) He).
      rewrite He in Hnone. now rewrite Hnone. }
  assert (Hin : In h (Handler_filter (PStr e) (db s1))) by (rewrite Hone; now left).
  unfold Handler_filter in Hin. apply filter_In in Hin. destruct Hin as [Hin He].
  apply String.eqb_eq in He.
  split; [| split; [exact He | exact Hin]].
  unfold HandlerManager_save. apply try_run_ok.
  unfold bind at 1, get_db, Dict.get_or_None. rewrite Hsecond. cbn beta iota.
  rewrite Hone. cbn [exists_].
  unfold Handler_get, get_db, bind. cbn beta iota. now rewrite Hone.
Qed.

Lemma HandlerManager_save_twice_witness :
  exists h s1,
    HandlerManager_save accept_all sample_handler init_state = (Ok (Some h), s1) /\
    HandlerManager_save accept_all sample_handler_again s1 = (Ok (Some h), s1) /\
    List.length (addresses (db s1)) = 2 /\ List.length (contacts (db s1)) = 1 /\
    List.length (phones (db s1)) = 0 /\ List.length (handlers (db s1)) = 1.
Proof.
  do 2 eexists. split; [reflexivity |]. split; [| repeat split].
  exact (proj1 (HandlerManager_save_twice accept_all sample_handler
                  sample_handler_again "VAT000000000" init_state _ _
                  eq_refl eq_refl eq_refl)).
Defined.

(* ================================================================= *)
(** ** Every ManifestHandler references a Handler of the store *)

Lemma preserves_bind_with (R : State -> State -> Prop)
    (R_trans : forall a b c, R a b -> R b c -> R a c)
    {A B} (m : M A) (f : A -> M B) (Q : A -> State -> Prop) :
  preserves R m ->
  (forall s a s1, m s = (Ok a, s1) -> Q a s1) ->
  (forall a s1 r s', Q a s1 -> f a s1 = (r, s') -> R s1 s') ->
  preserves R (bind m f).
Proof.
  intros Hm HQ Hf s r s' H. apply bind_inv in H.
  destruct H as [[a [s1 [H1 H2]]] | [e [H1 _]]].
  - eapply R_trans; [eapply Hm; exact H1 |].
    eapply Hf; [eapply HQ; exact H1 | exact H2].
  - eapply Hm; exact H1.
Qed.

Lemma HandlerManager_save_stored schema hd s h s' :
  HandlerManager_save schema hd s = (Ok (Some h), s') -> In h (handlers (db s')).
Proof.
  intros H. apply HandlerManager_save_inv in H.
  destruct H as [[Hf ->] | [_ [s0 [rest [_ [_ [-> _]]]]]]].
  - assert (Hin : In h (Handler_filter (Dict.get_or_None "epa_id" hd) (db s)))
      by (rewrite Hf; now left).
    unfold Handler_filter in Hin. destruct (Dict.get_or_None "epa_id" hd);
      try contradiction.
    apply filter_In in Hin. tauto.
  - cbn. apply in_or_app. right. now left.
Qed.

Lemma Handler_get_stored v s h s' :
  Handler_get v s = (Ok h, s') -> In h (handlers (db s')).
Proof.
  intros H. apply Handler_get_inv in H. destruct H as [Hf ->].
  assert (Hin : In h (Handler_filter v (db s))) by (rewrite Hf; now left).
  unfold Handler_filter in Hin. destruct v; try contradiction.
  apply filter_In in Hin. tauto.
Qed.

Lemma referenced_ManifestHandler_create schema handler ps kw s r s' :
  (forall h, handler = Some h -> In h (handlers (db s))) ->
  ManifestHandler_create schema handler ps kw s = (r, s') ->
  handlers_referenced s s'.
Proof.
  intros Hh H. unfold ManifestHandler_create in H.
  destruct (ManifestHandler_clean schema kw);
    [inversion H; subst; apply handlers_referenced_refl |].
  destruct handler as [h |];
    [| inversion H; subst; apply handlers_referenced_refl].
  unfold bind, get_db, put_db, ret in H. inversion H; subst; clear H.
  split; [apply incl_refl |]. cbn. intros mh Hin.
  apply in_app_or in Hin. destruct Hin as [Hin | [<- | []]]; [now left |].
  right. exists h. split; [now apply Hh | reflexivity].
Qed.

Lemma referenced_attach_e_signatures schema mh items :
  preserves handlers_referenced (attach_e_signatures schema mh items).
Proof.
  induction items as [| item items IH]; cbn [attach_e_signatures].
  - referenced.
  - repeat first [ exact IH | frame_step handlers_referenced_refl
                                handlers_referenced_trans referenced_prim ].
Qed.

Lemma referenced_assemble schema hd es ps :
  preserves handlers_referenced (assemble schema hd es ps).
Proof.
  unfold assemble.
  do 3 (apply (preserves_bind _ handlers_referenced_trans);
        [referenced | intros ?]).
  apply (preserves_bind_with _ handlers_referenced_trans)
    with (Q := fun (x : option Handler * Kwargs) s1 =>
                 forall h, fst x = Some h -> In h (handlers (db s1))).
  - destruct (exists_ _).
    + referenced.
    + repeat first [ apply referenced_HandlerManager_save
                   | frame_step handlers_referenced_refl
                       handlers_referenced_trans referenced_prim ].
  - intros s [handler hd'] s1 H h Hh. cbn in Hh. subst handler.
    destruct (exists_ _).
    + apply bind_inv_ok in H. destruct H as [n1 [t1 [_ H]]].
      apply bind_inv_ok in H. destruct H as [e1 [t2 [_ H]]].
      apply bind_inv_ok in H. destruct H as [h1 [t3 [Hget H]]].
      apply bind_inv_ok in H. destruct H as [[v hd1] [t4 [Hpop H]]].
      apply bind_inv_ok in H. destruct H as [[] [t5 [Hlog H]]].
      inversion H; subst. inversion Hlog; subst.
      apply Handler_get_stored in Hget.
      assert (t4 = t3) as ->.
      { unfold pop in Hpop. destruct (Dict.get "handler" hd);
          inversion Hpop; reflexivity. }
      exact Hget.
    + apply bind_inv_ok in H. destruct H as [[v hd1] [t1 [_ H]]].
      apply bind_inv_ok in H. destruct H as [kw [t2 [_ H]]].
      apply bind_inv_ok in H. destruct H as [h1 [t3 [Hsave H]]].
      apply bind_inv_ok in H. destruct H as [[] [t4 [Hlog H]]].
      inversion H; subst. inversion Hlog; subst.
      apply HandlerManager_save_stored in Hsave. exact Hsave.
  - intros [handler hd'] s1 r s' HQ H. cbn in HQ.
    apply bind_inv in H. destruct H as [[mh [s2 [Hc H]]] | [e [Hc _]]].
    + eapply handlers_referenced_trans;
        [eapply referenced_ManifestHandler_create; [exact HQ | exact Hc] |].
      revert H. generalize s2 r s'.
      change (preserves handlers_referenced
                (logger DEBUG "ManifestHandler created ManifestHandler: "
                   (str_handler handler) ;;;
                 items <- iterate es ;;
                 attach_e_signatures schema mh items ;;;
                 ret (Some mh))).
      repeat first [ apply referenced_attach_e_signatures
                   | frame_step handlers_referenced_refl
                       handlers_referenced_trans referenced_prim ].
    + eapply referenced_ManifestHandler_create; [exact HQ | exact Hc].
Qed.

Lemma referenced_ManifestHandlerManager_save schema hd :
  preserves handlers_referenced (ManifestHandlerManager_save schema hd).
Proof.
  unfold ManifestHandlerManager_save.
  apply (preserves_bind _ handlers_referenced_trans); [referenced |].
  intros [es hd1].
  apply (preserves_bind _ handlers_referenced_trans); [referenced |].
  intros _.
  apply (preserves_bind _ handlers_referenced_trans).
  { destruct (Dict.mem _ _); [| referenced].
    apply (preserves_bind _ handlers_referenced_trans); [referenced |].
    intros [data hd2]. referenced. }
  intros [ps hd2].
  apply (preserves_try _ handlers_referenced_trans).
  - apply referenced_assemble.
  - intros e h He. destruct e; inversion He; subst; referenced.
Qed.

Lemma ManifestHandler_create_without_handler schema ps kw s :
  exists e, ManifestHandler_create schema None ps kw s = (Raise e, s).
Proof.
  unfold ManifestHandler_create.
  destruct (ManifestHandler_clean schema kw); eexists; reflexivity.
Qed.

Lemma NoDup_map_eq {A B} (f : A -> B) (l : list A) (x y : A) :
  NoDup (map f l) -> In x l -> In y l -> f x = f y -> x = y.
Proof.
  induction l as [| a l IH]; cbn; [tauto |].
  intros Hnd Hx Hy Hf. inversion Hnd as [| b l' Hnotin Hnd']; subst.
  destruct Hx as [-> | Hx], Hy as [-> | Hy].
  - reflexivity.
  - exfalso. apply Hnotin. rewrite Hf. now apply in_map.
  - exfalso. apply Hnotin. rewrite <- Hf. now apply in_map.
  - now apply IH.
Qed.

(** C8.  Whatever the payload and however the call ends, every
    ManifestHandler that [ManifestHandlerManager.save] has added to the
    store references a Handler of the store; the reference is never null
    (a row without a Handler is refused), and when the Handlers' keys are
    distinct it designates exactly one Handler. *)
Theorem created_ManifestHandler_references_Handler (schema : Schema)
    (hd : Kwargs) (s : State) (mh : ManifestHandler) :
  In mh (manifest_handlers (db (snd (ManifestHandlerManager_save schema hd s)))) ->
  ~ In mh (manifest_handlers (db s)) ->
  (exists h,
     In h (handlers (db (snd (ManifestHandlerManager_save schema hd s)))) /\
     h_pk h = mh_handler mh) /\
  (NoDup (map h_pk (handlers (db (snd (ManifestHandlerManager_save schema hd s))))) ->
   forall h h',
     In h (handlers (db (snd (ManifestHandlerManager_save schema hd s)))) ->
     In h' (handlers (db (snd (ManifestHandlerManager_save schema hd s)))) ->
     h_pk h = mh_handler mh -> h_pk h' = mh_handler mh -> h = h').
Proof.
  destruct (ManifestHandlerManager_save schema hd s) as [r s'] eqn:Hrun.
  cbn [snd]. intros Hin Hnot.
  destruct (referenced_ManifestHandlerManager_save schema hd s r s' Hrun)
    as [_ Hm].
  destruct (Hm mh Hin) as [Hold | Hex]; [contradiction |].
  split; [exact Hex |].
  intros Hnd h h' Hh Hh' Hpk Hpk'.
  apply (NoDup_map_eq h_pk (handlers (db s')) h h' Hnd Hh Hh'). congruence.
Qed.

(** A payload with a new handler, a paper signature and one e-signature. *)
Lemma created_ManifestHandler_references_Handler_witness :
  exists h,
    In h (handlers (db (snd (ManifestHandlerManager_save accept_all
                               sample_manifest_handler init_state)))) /\
    h_pk h = 1 /\ h_epa_id h = "VAT000000000".
Proof.
  destruct (proj1 (created_ManifestHandler_references_Handler accept_all
                     sample_manifest_handler init_state
                     (mkManifestHandler 1 1 (Some 1) [])
                     (or_introl eq_refl) (fun H => H)))
    as [h [Hin Hpk]].
  exists h. split; [exact Hin |]. split; [exact Hpk |].
  cbn in Hin. destruct Hin as [<- | []]. reflexivity.
Defined.

(* ================================================================= *)
(** ** The atomic unit of work *)

Lemma atomic_raise_restores {A} (m : M A) s e s' :
  atomic m s = (Raise e, s') -> db s' = db s.
Proof.
  unfold atomic. destruct (m s) as [[a | e0] s1]; intros H; inversion H; subst.
  reflexivity.
Qed.


Lemma _retrieve_manifest_db world number s r s' :
  _retrieve_manifest world number s = (r, s') -> db s' = db s.
Proof.
  unfold _retrieve_manifest, rcrainfo_get_manifest, bind, logger, ret, raise.
  destruct (get_manifest world (requests s) number) as [resp | e]; cbn.
  - destruct (ok resp); intros H; inversion H; subst; reflexivity.
  - intros H; inversion H; subst; reflexivity.
Qed.

(** The loop body always ends normally, in one of two ways. *)
Lemma pull_one_cases world serializer results number s :
  (exists data s1 m s2,
     _retrieve_manifest world number s = (Ok data, s1) /\
     _save_manifest serializer data s1 = (Ok m, s2) /\
     pull_one world serializer results number s
     = (Ok (mkResults (success results ++ [mtn m]) (error results)), s2))
  \/
  (exists e s',
     pull_one world serializer results number s
     = (Ok (mkResults (success results) (error results ++ [number])), s') /\
     db s' = db s /\
     In (mkLog WARNING ("error pulling manifest " ++ number ++ ": ") (ArgExc e))
        (log s') /\
     ((exists s1, _retrieve_manifest world number s = (Raise e, s1)) \/
      (exists data s1 s2,
         _retrieve_manifest world number s = (Ok data, s1) /\
         _save_manifest serializer data s1 = (Raise e, s2)))).
Proof.
  unfold pull_one, try_.
  destruct (_retrieve_manifest world number s) as [[data | e] s1] eqn:Hr.
  - destruct (_save_manifest serializer data s1) as [[m | e] s2] eqn:Hs.
    + left. exists data, s1, m, s2. split; [reflexivity |]. split; [exact Hs |].
      unfold bind at 1. rewrite Hr. unfold bind at 1. rewrite Hs. reflexivity.
    + right. exists e. eexists. split.
      * unfold bind at 1. rewrite Hr. unfold bind at 1. rewrite Hs. reflexivity.
      * cbn. split.
        { rewrite (atomic_raise_restores _ _ _ _ Hs).
          exact (_retrieve_manifest_db _ _ _ _ _ Hr). }
        split; [apply in_or_app; right; now left |].
        right. exists data, s1, s2. split; [reflexivity | exact Hs].
  - right. exists e. eexists. split.
    + unfold bind at 1. rewrite Hr. reflexivity.
    + cbn. split; [exact (_retrieve_manifest_db _ _ _ _ _ Hr) |].
      split; [apply in_or_app; right; now left |].
      left. exists s1. reflexivity.
Qed.


Lemma assemble_returns_Some schema hd es ps s r s' :
  assemble schema hd es ps s = (Ok r, s') -> exists mh, r = Some mh.
Proof.
  unfold assemble. intros H.
  apply bind_inv_ok in H. destruct H as [x1 [t1 [_ H]]].
  apply bind_inv_ok in H. destruct H as [x2 [t2 [_ H]]].
  apply bind_inv_ok in H. destruct H as [x3 [t3 [_ H]]].
  apply bind_inv_ok in H. destruct H as [[x4 x4'] [t4 [_ H]]].
  apply bind_inv_ok in H. destruct H as [mh [t5 [_ H]]].
  apply bind_inv_ok in H. destruct H as [x6 [t6 [_ H]]].
  apply bind_inv_ok in H. destruct H as [x7 [t7 [_ H]]].
  apply bind_inv_ok in H. destruct H as [x8 [t8 [_ H]]].
  inversion H; subst. now exists mh.
Qed.

(** When [ManifestHandlerManager.save] returns without a ManifestHandler,
    it has swallowed a [KeyError]. *)
Lemma ManifestHandlerManager_save_None schema hd s s' :
  ManifestHandlerManager_save schema hd s = (Ok None, s') ->
  exists key,
    In (mkLog WARNING "KeyError while creating Manifest handler "
          (ArgExc (KeyError key))) (log s').
Proof.
  unfold ManifestHandlerManager_save. intros H.
  apply bind_inv_ok in H. destruct H as [[es hd1] [t1 [_ H]]].
  apply bind_inv_ok in H. destruct H as [x2 [t2 [_ H]]].
  apply bind_inv_ok in H. destruct H as [[ps hd2] [t3 [_ H]]].
  apply try_inv in H.
  destruct H as [[a [H Ha]] | [[e [t4 [h [_ [Hex Hh]]]]] | [e [_ [_ Hr]]]]].
  - apply assemble_returns_Some in H. destruct H as [mh ->]. discriminate.
  - destruct e; inversion Hex; subst; clear Hex.
    + inversion Hh; subst. exists key. cbn. apply in_or_app. right. now left.
    + inversion Hh.
  - discriminate.
Qed.

(* ================================================================= *)
(** ** [pull_manifests] *)

Lemma Interleave_Permutation {A} (l r m : list A) :
  Interleave l r m -> Permutation (l ++ r) m.
Proof.
  induction 1 as [| x l r m _ IH | x l r m _ IH]; cbn.
  - constructor.
  - now constructor.
  - eapply Permutation_trans; [apply Permutation_sym, Permutation_middle |].
    now constructor.
Qed.

Lemma Interleave_In_left {A} (l r m : list A) (x : A) :
  Interleave l r m -> In x l -> In x m.
Proof.
  induction 1 as [| y l r m _ IH | y l r m _ IH]; cbn; intuition.
Qed.

Lemma Interleave_In_right {A} (l r m : list A) (x : A) :
  Interleave l r m -> In x r -> In x m.
Proof.
  induction 1 as [| y l r m _ IH | y l r m _ IH]; cbn; intuition.
Qed.

Lemma Interleave_disjoint {A} (l r m : list A) :
  Interleave l r m -> NoDup m -> forall x, In x l -> ~ In x r.
Proof.
  induction 1 as [| y l r m Hi IH | y l r m Hi IH]; intros Hnd x Hl Hr.
  - contradiction.
  - inversion Hnd as [| y' m' Hnotin Hnd']; subst.
    destruct Hl as [-> | Hl].
    + apply Hnotin. eapply Interleave_In_right; eassumption.
    + exact (IH Hnd' x Hl Hr).
  - inversion Hnd as [| y' m' Hnotin Hnd']; subst.
    destruct Hr as [-> | Hr].
    + apply Hnotin. eapply Interleave_In_left; eassumption.
    + exact (IH Hnd' x Hl Hr).
Qed.

(** The loop, from any accumulated [results]: it ends normally and appends
    one entry for each tracking number, in order. *)
Lemma pull_loop_appends world serializer numbers :
  forall results s,
  exists succ err s',
    pull_loop world serializer numbers results s
    = (Ok (mkResults (success results ++ succ) (error results ++ err)), s') /\
    List.length succ + List.length err = List.length numbers /\
    incl err numbers /\
    (answers_what_was_asked world serializer -> Interleave succ err numbers).
Proof.
  induction numbers as [| number rest IH]; intros results s.
  - exists [], [], s. cbn. rewrite !app_nil_r. destruct results.
    split; [reflexivity |]. split; [reflexivity |].
    split; [apply incl_refl | intros _; constructor].
  - cbn [pull_loop].
    destruct (pull_one_cases world serializer results number s)
      as [[data [s1 [m [s2 [Hr [Hs Hrun]]]]]] | [e [s2 [Hrun _]]]].
    + rewrite (bind_run_ok _ _ _ _ _ Hrun).
      destruct (IH (mkResults (success results ++ [mtn m]) (error results)) s2)
        as [succ [err [s' [Hloop [Hlen [Hincl Hil]]]]]].
      exists (mtn m :: succ), err, s'. cbn [success error] in Hloop.
      rewrite <- app_assoc in Hloop. split; [exact Hloop |].
      split; [cbn; lia |]. split; [now apply incl_tl |].
      intros Hask. rewrite (Hask number s data s1 m s2 Hr Hs).
      constructor. now apply Hil.
    + rewrite (bind_run_ok _ _ _ _ _ Hrun).
      destruct (IH (mkResults (success results) (error results ++ [number])) s2)
        as [succ [err [s' [Hloop [Hlen [Hincl Hil]]]]]].
      exists succ, (number :: err), s'. cbn [success error] in Hloop.
      rewrite <- app_assoc in Hloop. split; [exact Hloop |].
      split; [cbn; lia |].
      split; [intros x [<- | Hx]; [now left | right; now apply Hincl] |].
      intros Hask. constructor. now apply Hil.
Qed.

(** The loop, from any accumulated [results], follows the rule of the
    batch. *)
Lemma pull_loop_recorded world serializer numbers :
  forall results s,
  exists succ err s',
    pull_loop world serializer numbers results s
    = (Ok (mkResults (success results ++ succ) (error results ++ err)), s') /\
    Recorded world serializer s numbers succ err s'.
Proof.
  induction numbers as [| number rest IH]; intros results s.
  - exists [], [], s. cbn. rewrite !app_nil_r. destruct results.
    split; [reflexivity | constructor].
  - cbn [pull_loop]. unfold pull_one at 1, try_.
    destruct (_retrieve_manifest world number s) as [[data | e] s1] eqn:Hr.
    + destruct (_save_manifest serializer data s1) as [[m | e] s2] eqn:Hs.
      * destruct (IH (mkResults (success results ++ [mtn m]) (error results)) s2)
          as [succ [err [s' [Hloop Hrec]]]].
        exists (mtn m :: succ), err, s'. cbn [success error] in Hloop.
        rewrite <- app_assoc in Hloop. split.
        { unfold bind at 1. unfold bind at 1. rewrite Hr.
          unfold bind at 1. rewrite Hs. exact Hloop. }
        eapply Recorded_saved; eassumption.
      * destruct (IH (mkResults (success results) (error results ++ [number]))
                    (add_log (mkLog WARNING
                                ("error pulling manifest " ++ number ++ ": ")
                                (ArgExc e)) s2))
          as [succ [err [s' [Hloop Hrec]]]].
        exists succ, (number :: err), s'. cbn [success error] in Hloop.
        rewrite <- app_assoc in Hloop. split.
        { unfold bind at 1. unfold bind at 1. rewrite Hr.
          unfold bind at 1. rewrite Hs. exact Hloop. }
        eapply Recorded_not_saved; eassumption.
    + destruct (IH (mkResults (success results) (error results ++ [number]))
                  (add_log (mkLog WARNING
                              ("error pulling manifest " ++ number ++ ": ")
                              (ArgExc e)) s1))
        as [succ [err [s' [Hloop Hrec]]]].
      exists succ, (number :: err), s'. cbn [success error] in Hloop.
      rewrite <- app_assoc in Hloop. split.
      { unfold bind at 1. unfold bind at 1. rewrite Hr. exact Hloop. }
      eapply Recorded_not_retrieved; eassumption.
Qed.

(** C1, as amended.  [pull_manifests] always returns, and what it returns
    follows the rule of the batch: it handles the tracking numbers in input
    order, each from the state the one before left, and each one adds
    exactly one entry: the [mtn] of the saved manifest under [success] when
    retrieval and persistence both succeed, the requested number under
    [error] when either raises, after which the loop goes on.  So the two
    lists together are as long as the input and every [error] entry is an
    input number.  When every saved manifest carries the number it was
    requested under, the input is [success] and [error] shuffled together,
    each in input order: their union is the input set, and no number is in
    both lists when the input has no repeated number. *)
Theorem pull_manifests_partitions_input (world : World) (serializer : Serializer)
    (tracking_numbers : list string) (s : State) :
  exists results s',
    pull_manifests world serializer tracking_numbers s = (Ok results, s') /\
    Recorded world serializer s tracking_numbers
      (success results) (error results) s' /\
    List.length (success results) + List.length (error results)
    = List.length tracking_numbers /\
    incl (error results) tracking_numbers /\
    (answers_what_was_asked world serializer ->
     Interleave (success results) (error results) tracking_numbers /\
     Permutation (success results ++ error results) tracking_numbers /\
     (forall number,
        In number tracking_numbers <->
        In number (success results) \/ In number (error results)) /\
     (NoDup tracking_numbers ->
      forall number, In number (success results) -> ~ In number (error results))).
Proof.
  unfold pull_manifests.
  destruct (pull_loop_appends world serializer tracking_numbers (mkResults [] []) s)
    as [succ [err [s' [Hloop [Hlen [Hincl Hil]]]]]].
  destruct (pull_loop_recorded world serializer tracking_numbers (mkResults [] []) s)
    as [succ' [err' [s'' [Hloop' Hrec]]]].
  rewrite Hloop in Hloop'. inversion Hloop'; subst succ' err' s''. clear Hloop'.
  cbn [success error app] in Hloop.
  exists (mkResults succ err), s'. cbn [success error].
  split; [exact Hloop |]. split; [exact Hrec |].
  split; [exact Hlen |]. split; [exact Hincl |].
  intros Hask. specialize (Hil Hask).
  split; [exact Hil |].
  split; [now apply Interleave_Permutation |].
  split.
  - intros number. split.
    + intros Hin. apply in_app_or.
      eapply Permutation_in; [apply Permutation_sym, Interleave_Permutation, Hil |].
      exact Hin.
    + intros [Hin | Hin];
        [eapply Interleave_In_left | eapply Interleave_In_right]; eassumption.
  - intros Hnd. exact (Interleave_disjoint _ _ _ Hil Hnd).
Qed.

Lemma rcrainfo_echo_answers_what_was_asked (schema : Schema) :
  answers_what_was_asked rcrainfo_echo (manifest_serializer schema).
Proof.
  intros number s0 data s1 m s2 Hr Hs.
  assert (Hdata : data = manifest_json number []).
  { unfold _retrieve_manifest, rcrainfo_get_manifest, bind in Hr. cbn in Hr.
    destruct (negb (String.eqb number "000000000ELC")); cbn in Hr;
      inversion Hr; reflexivity. }
  subst data.
  unfold _save_manifest, atomic in Hs.
  unfold bind at 1, get_db in Hs. cbn in Hs.
  unfold Manifest_create, bind, get_db, put_db, logger, ret, raise in Hs.
  cbn in Hs.
  destruct (existsb _ _); cbn in Hs; inversion Hs; reflexivity.
Qed.

Lemma pull_manifests_partitions_input_witness :
  exists results s',
    pull_manifests rcrainfo_echo (manifest_serializer accept_all)
      ["100033134ELC"; "000000000ELC"; "100033135ELC"] init_state
    = (Ok results, s') /\
    results = mkResults ["100033134ELC"; "100033135ELC"] ["000000000ELC"] /\
    Recorded rcrainfo_echo (manifest_serializer accept_all) init_state
      ["100033134ELC"; "000000000ELC"; "100033135ELC"]
      (success results) (error results) s' /\
    Interleave (success results) (error results)
      ["100033134ELC"; "000000000ELC"; "100033135ELC"] /\
    forall number, In number (success results) -> ~ In number (error results).
Proof.
  destruct (pull_manifests_partitions_input rcrainfo_echo
              (manifest_serializer accept_all)
              ["100033134ELC"; "000000000ELC"; "100033135ELC"] init_state)
    as [results [s' [Hrun [Hrec [_ [_ H]]]]]].
  destruct (H (rcrainfo_echo_answers_what_was_asked accept_all))
    as [Hil [_ [_ Hdis]]].
  exists results, s'. split; [exact Hrun |].
  split.
  { assert (Hres : fst (pull_manifests rcrainfo_echo (manifest_serializer accept_all)
                          ["100033134ELC"; "000000000ELC"; "100033135ELC"]
                          init_state)
                   = Ok (mkResults ["100033134ELC"; "100033135ELC"]
                           ["000000000ELC"]))
      by (vm_compute; reflexivity).
    rewrite Hrun in Hres. cbn [fst] in Hres. now inversion Hres. }
  split; [exact Hrec |]. split; [exact Hil |].
  apply Hdis. repeat constructor; cbn; intuition discriminate.
Defined.

(** C1, the claim as written fails.  A tracking number given twice is
    saved the first time and refused the second time, and ends in both
    lists; and a gateway that answers "100033134elc" with the manifest
    "100033134ELC" puts under [success] a number that is not in the input,
    while the input number is in neither list. *)
Lemma pull_manifests_lists_are_not_a_partition :
  fst (pull_manifests rcrainfo_echo (manifest_serializer accept_all)
         ["100033134ELC"; "100033134ELC"] init_state)
  = Ok (mkResults ["100033134ELC"] ["100033134ELC"])
  /\
  fst (pull_manifests rcrainfo_canonical (manifest_serializer accept_all)
         ["100033134elc"] init_state)
  = Ok (mkResults ["100033134ELC"] [])
  /\ ~ In "100033134elc" ["100033134ELC"].
Proof.
  split; [reflexivity |]. split; [reflexivity |].
  intros [H | []]. discriminate H.
Qed.

(* ================================================================= *)
(** ** The payload and the [signed] property on concrete inputs *)

Lemma filtered_params_omits_None_witness :
  exists params s',
    filtered_params sample_world (with_site_id "VAT000000000" search_defaults)
      init_state = (Ok params, s') /\
    Dict.keys params = ["siteId"; "dateType"; "endDate"; "startDate"] /\
    ~ In "status" (Dict.keys params).
Proof.
  destruct (filtered_params_omits_None sample_world
              (with_site_id "VAT000000000" search_defaults) init_state)
    as [params [s' [Hrun [_ [_ [_ [Hstatus [_ [_ [_ [_ [_ Hex]]]]]]]]]]]].
  exists params, s'. split; [exact Hrun |].
  split; [exact (proj1 (Hex eq_refl)) |].
  intros Hin. apply Hstatus in Hin. apply Hin. reflexivity.
Defined.

Lemma signed_iff_paper_or_e_signature_witness :
  signed (mkManifestHandler 1 1 (Some 1) []) empty_db = true /\
  signed (mkManifestHandler 1 1 None [])
    (insert_e_signature (mkESignature 1 1 []) empty_db) = true /\
  signed (mkManifestHandler 1 1 (Some 1) [])
    (insert_e_signature (mkESignature 1 1 []) empty_db) = true /\
  signed (mkManifestHandler 1 1 None [])
    (insert_e_signature (mkESignature 1 2 []) empty_db) = false.
Proof.
  split; [| split; [| split]].
  - apply (proj1 (proj2 (signed_iff_paper_or_e_signature
                           (mkManifestHandler 1 1 (Some 1) []) empty_db))
             1 eq_refl).
    intros e [].
  - apply (proj1 (proj2 (proj2 (signed_iff_paper_or_e_signature
                                  (mkManifestHandler 1 1 None [])
                                  (insert_e_signature (mkESignature 1 1 []) empty_db))))
             (mkESignature 1 1 []) eq_refl (or_introl eq_refl) eq_refl).
  - apply (proj1 (proj2 (proj2 (proj2 (signed_iff_paper_or_e_signature
                                         (mkManifestHandler 1 1 (Some 1) [])
                                         (insert_e_signature (mkESignature 1 1 [])
                                            empty_db)))))
             1 (mkESignature 1 1 []) eq_refl (or_introl eq_refl) eq_refl).
  - apply (proj2 (proj2 (proj2 (proj2 (signed_iff_paper_or_e_signature
                                         (mkManifestHandler 1 1 None [])
                                         (insert_e_signature (mkESignature 1 2 [])
                                            empty_db)))))
             eq_refl).
    intros e [<- | []]. cbn. discriminate.
Defined.

(* ================================================================= *)
(** ** More on [search_rcra_mtn] *)

Lemma is_digit_digit (n : Z) : is_digit (Datetime.digit n) = true.
Proof.
  unfold Datetime.digit, is_digit.
  assert (H : (0 <= n mod 10 < 10)%Z) by (apply Z.mod_pos_bound; lia).
  assert (Hk : Z.to_nat (n mod 10) < 10) by lia.
  rewrite nat_ascii_embedding by lia.
  apply andb_true_intro. split; [apply Nat.leb_le | apply Nat.leb_le]; lia.
Qed.

Lemma strftime_is_timestamp (t : datetime) :
  four_digit_year t -> is_timestamp (Datetime.strftime t) = true.
Proof.
  unfold four_digit_year, Datetime.year, Datetime.strftime.
  destruct (Datetime.civil_from_days (t / 86400)) as [[y m] d].
  cbn [fst]. intros Hy. unfold Datetime.year_text.
  destruct (Z.ltb_spec y 10); [lia |].
  destruct (Z.ltb_spec y 100); [lia |].
  destruct (Z.ltb_spec y 1000); [lia |].
  unfold Datetime.pad4, Datetime.pad2, is_timestamp.
  cbn [String.append list_ascii_of_string forallb].
  rewrite !is_digit_digit. reflexivity.
Qed.

(** The default start date is a [datetime]: 360 days before a reading of
    the clock is after [datetime.min]. *)
Lemma default_start_in_range (world : World) (n : nat) :
  (Datetime.min
   <= utcnow world n - Datetime.timedelta_minutes (60 * 24 * 30 * 12))%Z.
Proof. unfold utcnow, Datetime.min, Datetime.timedelta_minutes. lia. Qed.

(** A year before 1000 is printed on fewer digits. *)
Example strftime_year_999 :
  Datetime.strftime (-30641760000)%Z = "999-01-01T00:00:00Z".
Proof. reflexivity. Qed.

(** What [filtered_params] leaves of the state: only the clock has been
    read. *)
Lemma filtered_params_state (world : World) (a : SearchArgs) (s : State) r s' :
  filtered_params world a s = (r, s') ->
  db s' = db s /\ handler_data s' = handler_data s /\ log s' = log s /\
  requests s' = requests s /\ clock_reads s' = clock_reads s + missing_dates a.
Proof.
  unfold filtered_params, datetime_utcnow, bind, ret, missing_dates.
  destruct (end_date a), (start_date a); intros H; inversion H; subst; cbn;
    repeat split; lia.
Qed.

(** X1.  The dates of the payload: a date the caller gives is printed as it is;
    a missing end date is the clock's reading; a missing start date is the
    clock's next reading less 360 days, whatever the end date is. *)
Theorem filtered_params_dates (world : World) (a : SearchArgs) (s : State) :
  exists params s',
    filtered_params world a s = (Ok params, s') /\
    clock_reads s' = clock_reads s + missing_dates a /\
    Dict.get "endDate" params
    = Some (PStr (Datetime.strftime
                    match end_date a with
                    | Some t => t
                    | None => utcnow world (clock_reads s)
                    end)) /\
    Dict.get "startDate" params
    = Some (PStr (Datetime.strftime
                    match start_date a with
                    | Some t => t
                    | None =>
                        (utcnow world
                           (clock_reads s
                            + match end_date a with Some _ => 0 | None => 1 end)
                         - 360 * 86400)%Z
                    end)).
Proof.
  destruct a as [si sd ed st dt sc sty].
  unfold missing_dates. cbn [end_date start_date].
  destruct si, st, dt, sc, sty, ed, sd; run_filtered_params;
    (do 2 eexists; split; [reflexivity |]);
    cbn [clock_reads]; rewrite ?Nat.add_0_r, ?Nat.add_1_r;
    (split; [try reflexivity; lia | split; reflexivity]).
Qed.

(** X2.  When the two dates [search_rcra_mtn] prints have years of four
    digits, the [endDate] and [startDate] of the payload have the shape
    [dddd-dd-ddTdd:dd:ddZ]. *)
Theorem filtered_params_dates_are_timestamps (world : World) (a : SearchArgs)
    (s : State) :
  four_digit_year (search_end world a s) ->
  four_digit_year (search_start world a s) ->
  exists params s' end_text start_text,
    filtered_params world a s = (Ok params, s') /\
    end_text = Datetime.strftime (search_end world a s) /\
    start_text = Datetime.strftime (search_start world a s) /\
    Dict.get "endDate" params = Some (PStr end_text) /\
    Dict.get "startDate" params = Some (PStr start_text) /\
    is_timestamp end_text = true /\ is_timestamp start_text = true.
Proof.
  intros Hend Hstart.
  assert (Hrun : exists params s',
             filtered_params world a s = (Ok params, s') /\
             Dict.get "endDate" params
             = Some (PStr (Datetime.strftime (search_end world a s))) /\
             Dict.get "startDate" params
             = Some (PStr (Datetime.strftime (search_start world a s)))).
  { unfold search_end, search_start. destruct a as [si sd ed st dt sc sty].
    cbn [end_date start_date].
    destruct si, st, dt, sc, sty, ed, sd; run_filtered_params;
      (do 2 eexists; split; [reflexivity |]);
      rewrite ?Nat.add_0_r, ?Nat.add_1_r; split; reflexivity. }
  destruct Hrun as [params [s' [Hrun [He Hs]]]].
  exists params, s'. do 2 eexists.
  split; [exact Hrun |]. split; [reflexivity |]. split; [reflexivity |].
  split; [exact He |]. split; [exact Hs |].
  split; apply strftime_is_timestamp; assumption.
Qed.

Lemma filtered_params_dates_are_timestamps_witness :
  exists params s',
    filtered_params sample_world search_defaults init_state = (Ok params, s') /\
    Dict.get "endDate" params = Some (PStr "2023-01-01T00:00:00Z") /\
    Dict.get "startDate" params = Some (PStr "2022-01-06T00:00:01Z") /\
    is_timestamp "2023-01-01T00:00:00Z" = true /\
    is_timestamp "2022-01-06T00:00:01Z" = true.
Proof.
  destruct (filtered_params_dates_are_timestamps sample_world search_defaults
              init_state)
    as [params [s' [et [st [Hrun [Het [Hst [He [Hs [Hte Hts]]]]]]]]]].
  - unfold four_digit_year. vm_compute. split; discriminate.
  - unfold four_digit_year. vm_compute. split; discriminate.
  - subst et st. exists params, s'.
    split; [exact Hrun |]. split; [exact He |]. split; [exact Hs |].
    split; [exact Hte | exact Hts].
Defined.

(** X3.  [search_rcra_mtn] sends the payload in one request and touches nothing
    but the clock, the request count and the log: an [ok] response gives its
    body, any other response gives the empty list, and what the gateway
    raises goes to the caller. *)
Theorem search_rcra_mtn_outcome (world : World) (a : SearchArgs) (s : State) :
  exists params s',
    fst (filtered_params world a s) = Ok params /\
    snd (search_rcra_mtn world a s) = s' /\
    db s' = db s /\ handler_data s' = handler_data s /\
    requests s' = S (requests s) /\
    clock_reads s' = clock_reads s + missing_dates a /\
    fst (search_rcra_mtn world a s)
    = match search_mtn world (requests s) params with
      | Ok response => Ok (if ok response then json response else PList [])
      | Raise e => Raise e
      end.
Proof.
  destruct (filtered_params_shape world a s) as [et [st [s1 Hrun]]].
  destruct (filtered_params_state world a s _ _ Hrun)
    as [Hdb [Hhd [Hlog [Hreq Hclk]]]].
  eexists. eexists. split; [rewrite Hrun; reflexivity |].
  split; [reflexivity |].
  unfold search_rcra_mtn, bind, logger, rcrainfo_search_mtn, ret.
  rewrite Hrun. cbn [requests add_log]. rewrite Hreq.
  destruct (search_mtn world (requests s) _) as [resp | e].
  - destruct (ok resp);
      cbn [fst snd db handler_data requests clock_reads add_log];
      repeat split; assumption || congruence.
  - cbn [fst snd db handler_data requests clock_reads add_log].
    repeat split; assumption || congruence.
Qed.

(* ================================================================= *)
(** ** Relations kept by every insertion *)

Section Steady.

Variable R : State -> State -> Prop.
Hypothesis R_refl : forall s, R s s.
Hypothesis R_trans : forall a b c, R a b -> R b c -> R a c.
Hypothesis R_log : forall s r, R s (add_log r s).
Hypothesis R_hd : forall s hd, R s (set_handler_data hd s).
Hypothesis R_address : forall s r, R s (set_db (insert_address r (db s)) s).
Hypothesis R_contact : forall s r, R s (set_db (insert_contact r (db s)) s).
Hypothesis R_phone : forall s r, R s (set_db (insert_phone r (db s)) s).
Hypothesis R_paper :
  forall s r, R s (set_db (insert_paper_signature r (db s)) s).
Hypothesis R_e_signature :
  forall s e, R s (set_db (insert_e_signature e (db s)) s).
Hypothesis R_manifest_handler :
  forall s m, R s (set_db (insert_manifest_handler m (db s)) s).
Hypothesis R_manifest : forall s m, R s (set_db (insert_manifest m (db s)) s).
Hypothesis R_handler :
  forall s h, Handler_filter (PStr (h_epa_id h)) (db s) = [] ->
              R s (set_db (insert_handler h (db s)) s).

Ltac steady_prim_tac :=
  intros s r s' H;
  unfold logger, Address_create, Contact_save, EpaPhone_create,
    PaperSignature_create, ESignature_save, ManifestHandler_create,
    Manifest_create, pop_handler_data, read_handler_data,
    bind, get_db, put_db, ret, raise in H;
  run_prim H; auto.

Lemma steady_logger l t a : preserves R (logger l t a).
Proof. steady_prim_tac. Qed.

Lemma steady_Address_create schema kw : preserves R (Address_create schema kw).
Proof. steady_prim_tac. Qed.

Lemma steady_Contact_save schema kw : preserves R (Contact_save schema kw).
Proof. steady_prim_tac. Qed.

Lemma steady_EpaPhone_create schema kw : preserves R (EpaPhone_create schema kw).
Proof. steady_prim_tac. Qed.

Lemma steady_PaperSignature_create schema kw :
  preserves R (PaperSignature_create schema kw).
Proof. steady_prim_tac. Qed.

Lemma steady_ESignature_save schema mh kw :
  preserves R (ESignature_save schema mh kw).
Proof. steady_prim_tac. Qed.

Lemma steady_ManifestHandler_create schema h ps kw :
  preserves R (ManifestHandler_create schema h ps kw).
Proof. steady_prim_tac. Qed.

Lemma steady_Manifest_create number mhs kw :
  preserves R (Manifest_create number mhs kw).
Proof. steady_prim_tac. Qed.

Lemma steady_pop_handler_data key : preserves R (pop_handler_data key).
Proof. steady_prim_tac. Qed.

Lemma steady_read_handler_data : preserves R read_handler_data.
Proof. steady_prim_tac. Qed.

Lemma steady_TrakBaseManager_save schema sa ma p c kw :
  preserves R (TrakBaseManager_save schema sa ma p c kw).
Proof.
  intros s r s' H. destruct r as [h | e].
  - apply TrakBaseManager_save_inv in H. destruct H as [Hnone [-> _]].
    now apply R_handler.
  - assert (s' = s) as ->; [| apply R_refl].
    destruct (TrakBaseManager_save_cases schema sa ma p c kw s)
      as [[h0 [Hrun _]] | [e0 Hrun]]; rewrite Hrun in H; now inversion H.
Qed.

Ltac steady_prim :=
  first [ apply steady_logger | apply steady_Address_create
        | apply steady_Contact_save | apply steady_EpaPhone_create
        | apply steady_PaperSignature_create | apply steady_ESignature_save
        | apply steady_ManifestHandler_create | apply steady_Manifest_create
        | apply steady_pop_handler_data | apply steady_read_handler_data
        | apply steady_TrakBaseManager_save ].

Ltac steady := frame R_refl R_trans steady_prim.

Lemma steady_get_emergency_phone schema : preserves R (get_emergency_phone schema).
Proof.
  unfold get_emergency_phone. apply (preserves_try _ R_trans).
  - steady.
  - intros e h He. destruct e; inversion He; subst. steady.
Qed.

Lemma steady_get_address schema key : preserves R (get_address schema key).
Proof.
  unfold get_address. apply (preserves_try _ R_trans).
  - steady.
  - intros e h He. destruct e; inversion He; subst. steady.
Qed.

Lemma steady_HandlerManager_save schema hd :
  preserves R (HandlerManager_save schema hd).
Proof.
  unfold HandlerManager_save. apply (preserves_try _ R_trans).
  - apply (preserves_bind _ R_trans); [apply (preserves_get_db _ R_refl) |].
    intros d. destruct (exists_ _); [steady |].
    apply (preserves_bind _ R_trans).
    { intros s r s' H. inversion H; subst. apply R_hd. }
    intros _.
    repeat first [ apply steady_get_emergency_phone | apply steady_get_address
                 | frame_step R_refl R_trans steady_prim ].
  - intros e h He. destruct e; inversion He; subst. steady.
Qed.

Lemma steady_attach_e_signatures schema mh items :
  preserves R (attach_e_signatures schema mh items).
Proof.
  induction items as [| item items IH]; cbn [attach_e_signatures].
  - steady.
  - repeat first [ exact IH | frame_step R_refl R_trans steady_prim ].
Qed.

Lemma steady_assemble schema hd es ps : preserves R (assemble schema hd es ps).
Proof.
  unfold assemble.
  repeat first [ apply steady_HandlerManager_save
               | apply steady_attach_e_signatures
               | frame_step R_refl R_trans steady_prim ].
Qed.

Lemma steady_ManifestHandlerManager_save schema hd :
  preserves R (ManifestHandlerManager_save schema hd).
Proof.
  unfold ManifestHandlerManager_save.
  apply (preserves_bind _ R_trans); [steady |]. intros [es hd1].
  apply (preserves_bind _ R_trans); [steady |]. intros _.
  apply (preserves_bind _ R_trans).
  { destruct (Dict.mem _ _); [| steady].
    apply (preserves_bind _ R_trans); [steady |].
    intros [data hd2]. steady. }
  intros [ps hd2]. apply (preserves_try _ R_trans).
  - apply steady_assemble.
  - intros e h He. destruct e; inversion He; subst; steady.
Qed.

Lemma steady_save_handlers schema blocks :
  preserves R (save_handlers schema blocks).
Proof.
  induction blocks as [| block blocks IH]; cbn [save_handlers].
  - steady.
  - repeat first [ exact IH | apply steady_ManifestHandlerManager_save
                 | frame_step R_refl R_trans steady_prim ].
Qed.

Lemma steady_manifest_serializer schema data :
  preserves R (save (manifest_serializer schema) data).
Proof.
  cbn [save manifest_serializer].
  repeat first [ apply steady_save_handlers
               | frame_step R_refl R_trans steady_prim ].
Qed.

End Steady.

Lemma world_untouched_refl s : world_untouched s s.
Proof. split; reflexivity. Qed.

Lemma world_untouched_trans a b c :
  world_untouched a b -> world_untouched b c -> world_untouched a c.
Proof. intros [H1 H2] [H3 H4]. split; congruence. Qed.

Lemma manifest_serializer_offline schema : offline (manifest_serializer schema).
Proof.
  intros data.
  apply steady_manifest_serializer;
    first [ apply world_untouched_refl | apply world_untouched_trans
          | intros; split; reflexivity ].
Qed.

(* ================================================================= *)
(** ** More on [pull_manifests] *)

Lemma _retrieve_manifest_requests world number s r s' :
  _retrieve_manifest world number s = (r, s') ->
  requests s' = S (requests s) /\ clock_reads s' = clock_reads s.
Proof.
  unfold _retrieve_manifest, rcrainfo_get_manifest, bind, logger, ret, raise.
  destruct (get_manifest world (requests s) number) as [resp | e]; cbn.
  - destruct (ok resp); intros H; inversion H; subst; split; reflexivity.
  - intros H; inversion H; subst; split; reflexivity.
Qed.

Lemma untouched_logger l t a : preserves world_untouched (logger l t a).
Proof. intros s r s' H. inversion H; subst. split; reflexivity. Qed.

Lemma _save_manifest_offline serializer data s r s' :
  offline serializer ->
  _save_manifest serializer data s = (r, s') -> world_untouched s s'.
Proof.
  intros Hoff.
  assert (Hbody : preserves world_untouched
            (d <- get_db ;;
             if is_valid serializer data d
             then logger DEBUG "manifest serializer is valid" NoArg ;;;
                  manifest <- save serializer data ;;
                  logger INFO "saved manifest " (ArgStr (mtn manifest)) ;;;
                  ret manifest
             else logger WARNING "malformed serializer data: "
                    (ArgVal (errors serializer data d)) ;;;
                  raise (Exception_ (errors serializer data d)))).
  { frame world_untouched_refl world_untouched_trans
      ltac:(first [apply Hoff | apply untouched_logger]). }
  unfold _save_manifest, atomic.
  destruct ((d <- get_db ;; _) s) as [[m | e] s1] eqn:Hrun; intros H;
    inversion H; subst; clear H.
  - exact (Hbody _ _ _ Hrun).
  - destruct (Hbody _ _ _ Hrun) as [H1 H2]. split; cbn; assumption.
Qed.

(** With a serializer that stays offline, the loop body makes one request
    and does not read the clock. *)
Lemma pull_one_requests world serializer results number s r s' :
  offline serializer ->
  pull_one world serializer results number s = (r, s') ->
  requests s' = S (requests s) /\ clock_reads s' = clock_reads s.
Proof.
  intros Hoff H.
  destruct (pull_one_cases world serializer results number s)
    as [[data [s1 [m [s2 [Hr [Hs Hrun]]]]]] | [e [s2 [Hrun [_ [_ Hwhy]]]]]];
    rewrite Hrun in H; inversion H; subst; clear H.
  - destruct (_retrieve_manifest_requests _ _ _ _ _ Hr) as [H1 H2].
    destruct (_save_manifest_offline _ _ _ _ _ Hoff Hs) as [H3 H4].
    split; congruence.
  - unfold pull_one, try_ in Hrun.
    destruct Hwhy as [[s1 Hr] | [data [s1 [s3 [Hr Hs]]]]].
    + unfold bind at 1 in Hrun. rewrite Hr in Hrun.
      inversion Hrun; subst.
      destruct (_retrieve_manifest_requests _ _ _ _ _ Hr) as [H1 H2].
      split; cbn; assumption.
    + unfold bind at 1 in Hrun. rewrite Hr in Hrun.
      unfold bind at 1 in Hrun. rewrite Hs in Hrun.
      inversion Hrun; subst.
      destruct (_retrieve_manifest_requests _ _ _ _ _ Hr) as [H1 H2].
      destruct (_save_manifest_offline _ _ _ _ _ Hoff Hs) as [H3 H4].
      split; cbn; congruence.
Qed.

Lemma pull_loop_requests world serializer numbers :
  offline serializer ->
  forall results s r s',
    pull_loop world serializer numbers results s = (r, s') ->
    requests s' = requests s + List.length numbers /\
    clock_reads s' = clock_reads s.
Proof.
  intros Hoff. induction numbers as [| number rest IH]; intros results s r s' H.
  - inversion H; subst. cbn. split; lia.
  - cbn [pull_loop] in H. apply bind_inv in H.
    destruct H as [[res1 [s1 [H1 H2]]] | [e [H1 _]]].
    + destruct (pull_one_requests _ _ _ _ _ _ _ Hoff H1) as [Ha Hb].
      destruct (IH _ _ _ _ H2) as [Hc Hd]. cbn. split; lia.
    + destruct (pull_one_cases world serializer results number s)
        as [[data [t1 [m [t2 [_ [_ Hrun]]]]]] | [e' [t2 [Hrun _]]]];
        rewrite Hrun in H1; discriminate.
Qed.

(** X4.  With a serializer that stays offline, [pull_manifests] asks the gateway
    exactly once for each tracking number, failed or not, and never reads
    the clock. *)
Theorem pull_manifests_one_request_each (world : World) (serializer : Serializer)
    (tracking_numbers : list string) (s : State) :
  offline serializer ->
  requests (snd (pull_manifests world serializer tracking_numbers s))
  = requests s + List.length tracking_numbers /\
  clock_reads (snd (pull_manifests world serializer tracking_numbers s))
  = clock_reads s.
Proof.
  intros Hoff. unfold pull_manifests.
  destruct (pull_loop world serializer tracking_numbers (mkResults [] []) s)
    as [r s'] eqn:H.
  exact (pull_loop_requests world serializer tracking_numbers Hoff _ _ _ _ H).
Qed.

Lemma pull_manifests_one_request_each_witness :
  requests (snd (pull_manifests rcrainfo_echo (manifest_serializer accept_all)
                   ["100033134ELC"; "000000000ELC"; "100033134ELC"] init_state))
  = 3.
Proof.
  exact (proj1 (pull_manifests_one_request_each rcrainfo_echo
                  (manifest_serializer accept_all)
                  ["100033134ELC"; "000000000ELC"; "100033134ELC"] init_state
                  (manifest_serializer_offline accept_all))).
Defined.

(** The loop from accumulated [results] does what it does from empty
    lists, with the new entries appended to the old. *)
Lemma pull_one_shift world serializer results number s :
  pull_one world serializer results number s
  = (match fst (pull_one world serializer (mkResults [] []) number s) with
     | Ok more => Ok (extend results more)
     | Raise e => Raise e
     end,
     snd (pull_one world serializer (mkResults [] []) number s)).
Proof.
  unfold pull_one, try_, bind, extend.
  destruct (_retrieve_manifest world number s) as [[data | e] s1].
  - destruct (_save_manifest serializer data s1) as [[m | e] s2];
      cbn; rewrite ?app_nil_r; reflexivity.
  - cbn; rewrite ?app_nil_r; reflexivity.
Qed.

Lemma extend_assoc a b c : extend (extend a b) c = extend a (extend b c).
Proof. unfold extend. cbn. now rewrite !app_assoc. Qed.

Lemma extend_empty a : extend (mkResults [] []) a = a.
Proof. destruct a. reflexivity. Qed.

Lemma pull_loop_shift world serializer numbers :
  forall results s,
    pull_loop world serializer numbers results s
    = (match fst (pull_loop world serializer numbers (mkResults [] []) s) with
       | Ok more => Ok (extend results more)
       | Raise e => Raise e
       end,
       snd (pull_loop world serializer numbers (mkResults [] []) s)).
Proof.
  induction numbers as [| number rest IH]; intros results s.
  - cbn. unfold extend. cbn. rewrite !app_nil_r. now destruct results.
  - cbn [pull_loop].
    pose proof (pull_one_shift world serializer results number s) as H1.
    destruct (pull_one world serializer (mkResults [] []) number s)
      as [[more | e] s1] eqn:H0; cbn [fst snd] in H1.
    + rewrite (bind_run_ok _ _ _ _ _ H1), (bind_run_ok _ _ _ _ _ H0).
      rewrite (IH (extend results more) s1), (IH more s1).
      destruct (pull_loop world serializer rest (mkResults [] []) s1)
        as [[more' | e] s2]; cbn [fst snd]; [| reflexivity].
      now rewrite extend_assoc.
    + now rewrite (bind_run_raise _ _ _ _ _ H1), (bind_run_raise _ _ _ _ _ H0).
Qed.

(** X5.  A batch can be split anywhere: pulling [first ++ second] gives what
    pulling [first] and then, from the state it leaves, pulling [second]
    gives, list by list and state for state. *)
Theorem pull_manifests_app (world : World) (serializer : Serializer)
    (first second : list string) (s : State) (r1 r2 : Results) (s1 s2 : State) :
  pull_manifests world serializer first s = (Ok r1, s1) ->
  pull_manifests world serializer second s1 = (Ok r2, s2) ->
  pull_manifests world serializer (first ++ second) s
  = (Ok (mkResults (success r1 ++ success r2) (error r1 ++ error r2)), s2).
Proof.
  unfold pull_manifests. revert s r1 s1.
  induction first as [| number rest IH]; intros s r1 s1 H1 H2.
  - inversion H1; subst. cbn. rewrite H2. now destruct r2.
  - cbn [app pull_loop] in *. apply bind_inv_ok in H1.
    destruct H1 as [res1 [t1 [Hone Hrest]]].
    rewrite (bind_run_ok _ _ _ _ _ Hone).
    rewrite pull_loop_shift in Hrest.
    destruct (pull_loop world serializer rest (mkResults [] []) t1)
      as [[more | e] t2] eqn:Hmore; cbn [fst snd] in Hrest; [| discriminate].
    inversion Hrest; subst; clear Hrest.
    rewrite pull_loop_shift.
    rewrite (IH t1 more s1 Hmore H2). cbn [fst snd].
    unfold extend. cbn [success error]. now rewrite !app_assoc.
Qed.

Lemma pull_manifests_app_witness :
  fst (pull_manifests rcrainfo_echo (manifest_serializer accept_all)
         (["100033134ELC"; "000000000ELC"] ++ ["100033134ELC"; "100033135ELC"])
         init_state)
  = Ok (mkResults ["100033134ELC"; "100033135ELC"] ["000000000ELC"; "100033134ELC"]).
Proof.
  rewrite (pull_manifests_app rcrainfo_echo (manifest_serializer accept_all)
             ["100033134ELC"; "000000000ELC"] ["100033134ELC"; "100033135ELC"]
             init_state
             (mkResults ["100033134ELC"] ["000000000ELC"])
             (mkResults ["100033135ELC"] ["100033134ELC"])
             (snd (pull_manifests rcrainfo_echo (manifest_serializer accept_all)
                     ["100033134ELC"; "000000000ELC"] init_state))
             (snd (pull_manifests rcrainfo_echo (manifest_serializer accept_all)
                     ["100033134ELC"; "100033135ELC"]
                     (snd (pull_manifests rcrainfo_echo
                             (manifest_serializer accept_all)
                             ["100033134ELC"; "000000000ELC"] init_state))))
             ltac:(vm_compute; reflexivity) ltac:(vm_compute; reflexivity)).
  reflexivity.
Defined.

(** X6.  A batch in which nothing succeeds reports every tracking number under
    [error], in input order, and leaves the database as it was. *)
Theorem pull_manifests_without_success (world : World) (serializer : Serializer)
    (tracking_numbers : list string) (s : State) (results : Results) (s' : State) :
  pull_manifests world serializer tracking_numbers s = (Ok results, s') ->
  success results = [] ->
  error results = tracking_numbers /\ db s' = db s.
Proof.
  unfold pull_manifests. revert s results s'.
  induction tracking_numbers as [| number rest IH]; intros s results s' H Hnone.
  - inversion H; subst. split; reflexivity.
  - cbn [pull_loop] in H. apply bind_inv_ok in H.
    destruct H as [res1 [s1 [Hone Hrest]]].
    rewrite pull_loop_shift in Hrest.
    destruct (pull_loop world serializer rest (mkResults [] []) s1)
      as [[more | e] s2] eqn:Hmore; cbn [fst snd] in Hrest; [| discriminate].
    inversion Hrest; subst; clear Hrest. cbn [extend success error] in *.
    destruct (pull_one_cases world serializer (mkResults [] []) number s)
      as [[data [t1 [m [t2 [_ [_ Hrun]]]]]] | [e [t2 [Hrun [Hdb _]]]]];
      rewrite Hrun in Hone; inversion Hone; subst; clear Hone.
    + cbn in Hnone. discriminate.
    + cbn [success error app] in *.
      destruct (IH s1 more s' Hmore Hnone) as [Herr Hdb'].
      split; [now rewrite Herr | congruence].
Qed.

Lemma pull_manifests_without_success_witness :
  error (mkResults [] ["000000000ELC"; "000000000ELC"])
  = ["000000000ELC"; "000000000ELC"] /\
  db (snd (pull_manifests rcrainfo_echo (manifest_serializer accept_all)
             ["000000000ELC"; "000000000ELC"] init_state)) = db init_state.
Proof.
  exact (pull_manifests_without_success rcrainfo_echo
           (manifest_serializer accept_all) ["000000000ELC"; "000000000ELC"]
           init_state (mkResults [] ["000000000ELC"; "000000000ELC"])
           (snd (pull_manifests rcrainfo_echo (manifest_serializer accept_all)
                   ["000000000ELC"; "000000000ELC"] init_state))
           ltac:(vm_compute; reflexivity) eq_refl).
Defined.

(* ================================================================= *)
(** ** [get_emergency_phone] and [get_address], case by case *)

Lemma only_addresses_and_phones_refl s : only_addresses_and_phones s s.
Proof. repeat split. Qed.

Lemma only_addresses_and_phones_trans a b c :
  only_addresses_and_phones a b -> only_addresses_and_phones b c ->
  only_addresses_and_phones a c.
Proof.
  unfold only_addresses_and_phones. intros H1 H2.
  repeat split; destruct H1 as (? & ? & ? & ? & ? & ?);
    destruct H2 as (? & ? & ? & ? & ? & ?); congruence.
Qed.

Lemma get_emergency_phone_tables schema :
  preserves only_addresses_and_phones (get_emergency_phone schema).
Proof.
  apply steady_get_emergency_phone;
    first [ apply only_addresses_and_phones_refl
          | apply only_addresses_and_phones_trans
          | intros; repeat split ].
Qed.

Lemma get_address_tables schema key :
  preserves only_addresses_and_phones (get_address schema key).
Proof.
  apply steady_get_address;
    first [ apply only_addresses_and_phones_refl
          | apply only_addresses_and_phones_trans
          | intros; repeat split ].
Qed.

(** X7.  [get_emergency_phone] never lets a [KeyError] out.  Without the key, or
    with [None] under it, it returns [None] and creates nothing; with fields
    the EpaPhone model accepts it appends one EpaPhone row and returns its
    key; and when the model raises a [KeyError] it returns [None] all the
    same, with the key already popped. *)
Theorem get_emergency_phone_cases (schema : Schema) (s : State) (hd : Kwargs) :
  handler_data s = Some hd ->
  (forall key s', get_emergency_phone schema s <> (Raise (KeyError key), s')) /\
  (Dict.get "emergency_phone" hd = None ->
   exists s', get_emergency_phone schema s = (Ok None, s') /\
              db s' = db s /\ handler_data s' = Some hd) /\
  (Dict.get "emergency_phone" hd = Some PNone ->
   get_emergency_phone schema s
   = (Ok None, set_handler_data (Some (Dict.remove "emergency_phone" hd)) s)) /\
  (forall kw,
     Dict.get "emergency_phone" hd = Some (PDict kw) ->
     EpaPhone_clean schema kw = None ->
     exists p s',
       get_emergency_phone schema s = (Ok (Some p), s') /\
       phones (db s') = (phones (db s) ++ [mkRow p kw])%list /\
       ~ In p (map pk (phones (db s))) /\
       addresses (db s') = addresses (db s) /\
       only_addresses_and_phones s s') /\
  (forall kw key,
     Dict.get "emergency_phone" hd = Some (PDict kw) ->
     EpaPhone_clean schema kw = Some (KeyError key) ->
     exists s', get_emergency_phone schema s = (Ok None, s') /\
                db s' = db s /\
                handler_data s' = Some (Dict.remove "emergency_phone" hd)).
Proof.
  intros Hhd. split; [| split; [| split; [| split]]].
  - intros key s' H. unfold get_emergency_phone in H. apply try_inv in H.
    destruct H as [[a [_ Ha]] | [[e [s1 [h [_ [Hex Hh]]]]] | [e [_ [Hex Hr]]]]].
    + discriminate.
    + destruct e; inversion Hex; subst. inversion Hh.
    + inversion Hr; subst. discriminate.
  - intros Hget. unfold get_emergency_phone, try_, bind, pop_handler_data.
    rewrite Hhd, Hget. cbn. eexists. split; [reflexivity |]. split; [reflexivity |].
    exact Hhd.
  - intros Hget. unfold get_emergency_phone, try_, bind, pop_handler_data.
    rewrite Hhd, Hget. reflexivity.
  - intros kw Hget Hclean.
    unfold get_emergency_phone, try_, bind, pop_handler_data, as_kwargs,
      EpaPhone_create.
    rewrite Hhd, Hget. cbn. rewrite Hclean. cbn.
    do 2 eexists. split; [reflexivity |]. cbn.
    split; [reflexivity |]. split; [apply fresh_not_in |].
    split; [reflexivity | repeat split].
  - intros kw key Hget Hclean.
    unfold get_emergency_phone, try_, bind, pop_handler_data, as_kwargs,
      EpaPhone_create.
    rewrite Hhd, Hget. cbn. rewrite Hclean. cbn.
    eexists. split; [reflexivity |]. split; reflexivity.
Qed.

Lemma get_emergency_phone_cases_witness :
  exists p s',
    get_emergency_phone accept_all
      (set_handler_data (Some sample_handler_again) init_state)
    = (Ok (Some p), s') /\
    phones (db s') = [mkRow p [("number", PStr "555-555-5555")]].
Proof.
  destruct (proj1 (proj2 (proj2 (proj2 (get_emergency_phone_cases accept_all
              (set_handler_data (Some sample_handler_again) init_state)
              sample_handler_again eq_refl))))
              [("number", PStr "555-555-5555")] eq_refl eq_refl)
    as [p [s' [Hrun [Hph _]]]].
  exists p, s'. split; [exact Hrun | exact Hph].
Defined.

Lemma get_address_pops (schema : Schema) (key : string) (s : State)
    (hd : Kwargs) (r : Result nat) (s1 : State) :
  handler_data s = Some hd ->
  get_address schema key s = (r, s1) ->
  handler_data s1 = Some (Dict.remove key hd).
Proof.
  intros Hhd Hrun.
  destruct (Dict.get key hd) as [v |] eqn:Hget.
  - assert (Hpop : pop_handler_data key s
                   = (Ok v, set_handler_data (Some (Dict.remove key hd)) s)).
    { unfold pop_handler_data. now rewrite Hhd, Hget. }
    unfold get_address, try_ in Hrun. rewrite (bind_run_ok _ _ _ _ _ Hpop) in Hrun.
    assert (Hrest : forall m : M nat,
              preserves same_handler_data m ->
              forall t r' t', m t = (r', t') -> handler_data t' = handler_data t).
    { intros m Hm t r' t' H. exact (Hm t r' t' H). }
    assert (Hcreate : preserves same_handler_data
                        (match v with
                         | PAddress a => ret a
                         | _ => kw <- as_kwargs v ;; Address_create schema kw
                         end)).
    { assert (Hr : forall t, same_handler_data t t) by (intros t; reflexivity).
      assert (Ht : forall a b c, same_handler_data a b -> same_handler_data b c ->
                                 same_handler_data a c)
        by (unfold same_handler_data; intros; congruence).
      frame Hr Ht ltac:(apply steady_Address_create;
                        [exact Hr | intros; reflexivity]). }
    destruct (match v with
              | PAddress a => ret a
              | _ => kw <- as_kwargs v ;; Address_create schema kw
              end (set_handler_data (Some (Dict.remove key hd)) s))
      as [[a | e] t] eqn:Hbody.
    + inversion Hrun; subst. exact (Hcreate _ _ _ Hbody).
    + pose proof (Hcreate _ _ _ Hbody) as Hsame. unfold same_handler_data in Hsame.
      destruct e; inversion Hrun; subst; exact Hsame.
  - rewrite (get_address_missing schema key s hd Hhd Hget) in Hrun.
    inversion Hrun; subst. cbn. rewrite Hhd. f_equal. symmetry.
    now apply remove_absent.
Qed.

(** X8.  [get_address] consumes its key: however a first call ends, a second
    call for the same key finds nothing and raises [ValidationError]. *)
Theorem get_address_twice (schema : Schema) (key : string) (s : State)
    (hd : Kwargs) (r : Result nat) (s1 : State) :
  handler_data s = Some hd ->
  get_address schema key s = (r, s1) ->
  exists s2,
    get_address schema key s1 = (Raise (ValidationError (KeyError key)), s2) /\
    db s2 = db s1.
Proof.
  intros Hhd Hrun.
  pose proof (get_address_pops schema key s hd r s1 Hhd Hrun) as Hhd1.
  rewrite (get_address_missing schema key s1 _ Hhd1 (get_remove_same key hd)).
  eexists. split; reflexivity.
Qed.

Lemma get_address_twice_witness :
  exists s2,
    get_address accept_all "site_address"
      (snd (get_address accept_all "site_address"
              (set_handler_data (Some sample_handler) init_state)))
    = (Raise (ValidationError (KeyError "site_address")), s2).
Proof.
  destruct (get_address_twice accept_all "site_address"
              (set_handler_data (Some sample_handler) init_state) sample_handler
              (fst (get_address accept_all "site_address"
                      (set_handler_data (Some sample_handler) init_state)))
              (snd (get_address accept_all "site_address"
                      (set_handler_data (Some sample_handler) init_state)))
              eq_refl eq_refl) as [s2 [Hrun _]].
  exists s2. exact Hrun.
Defined.

(* ================================================================= *)
(** ** [HandlerManager.save] on a new [epa_id] *)

Lemma stored_here (k : nat) (rows : list Row) (kw : Kwargs) :
  stored k (rows ++ [mkRow k kw]) = true.
Proof.
  unfold stored. rewrite map_app, existsb_app. cbn.
  rewrite Nat.eqb_refl. now rewrite orb_true_r.
Qed.

Lemma stored_grows (k : nat) (rows more : list Row) :
  stored k rows = true -> stored k (rows ++ more) = true.
Proof.
  unfold stored. intros H. rewrite map_app, existsb_app, H. reflexivity.
Qed.

Lemma get_emergency_phone_ok (schema : Schema) (s : State) (hd : Kwargs) :
  handler_data s = Some hd ->
  phone_ok schema hd ->
  exists p s',
    get_emergency_phone schema s = (Ok p, s') /\
    handler_data s' = Some (Dict.remove "emergency_phone" hd) /\
    only_addresses_and_phones s s' /\
    (Dict.get "emergency_phone" hd = None \/
     Dict.get "emergency_phone" hd = Some PNone -> p = None) /\
    stored_or_null p (phones (db s')) = true /\
    addresses (db s') = addresses (db s).
Proof.
  intros Hhd Hok.
  assert (Hrun : exists p s',
             get_emergency_phone schema s = (Ok p, s') /\
             handler_data s' = Some (Dict.remove "emergency_phone" hd) /\
             (Dict.get "emergency_phone" hd = None \/
              Dict.get "emergency_phone" hd = Some PNone -> p = None) /\
             stored_or_null p (phones (db s')) = true /\
             addresses (db s') = addresses (db s)).
  { unfold phone_ok in Hok.
    unfold get_emergency_phone, try_, bind, pop_handler_data. rewrite Hhd.
    destruct (Dict.get "emergency_phone" hd) as [v |] eqn:Hv.
    - destruct v; try contradiction.
      + cbn. do 2 eexists. split; [reflexivity |]. split; [reflexivity |].
        split; [auto |]. split; reflexivity.
      + cbn. unfold EpaPhone_create.
        destruct (EpaPhone_clean schema kvs) as [e |] eqn:Hc.
        * destruct e; try contradiction. cbn.
          do 2 eexists. split; [reflexivity |]. split; [reflexivity |].
          split; [intros [H | H]; discriminate |]. split; reflexivity.
        * cbn. do 2 eexists. split; [reflexivity |]. split; [reflexivity |].
          split; [intros [H | H]; discriminate |].
          split; [apply stored_here | reflexivity].
    - cbn. do 2 eexists. split; [reflexivity |]. cbn.
      split; [rewrite Hhd; f_equal; symmetry; now apply remove_absent |].
      split; [auto |]. split; reflexivity. }
  destruct Hrun as [p [s' [Hrun [Hhd' [Hp [Hst Haddr]]]]]]. exists p, s'.
  split; [exact Hrun |]. split; [exact Hhd' |].
  split; [exact (get_emergency_phone_tables schema s _ s' Hrun) |].
  split; [exact Hp |]. split; [exact Hst | exact Haddr].
Qed.

Lemma get_address_ok (schema : Schema) (key : string) (s : State) (hd : Kwargs) :
  handler_data s = Some hd ->
  address_ok schema key hd ->
  exists a s',
    get_address schema key s = (Ok a, s') /\
    handler_data s' = Some (Dict.remove key hd) /\
    only_addresses_and_phones s s' /\
    (forall x, Dict.get key hd = Some (PAddress x) ->
               a = x /\ addresses (db s') = addresses (db s)) /\
    (exists more, addresses (db s') = (addresses (db s) ++ more)%list) /\
    phones (db s') = phones (db s) /\
    (address_stored key hd (db s) -> stored a (addresses (db s')) = true).
Proof.
  intros Hhd Hok. unfold address_ok in Hok.
  destruct (Dict.get key hd) as [v |] eqn:Hv; [| contradiction].
  destruct v as [| | | | | kvs | a0]; try contradiction.
  - pose proof (get_address_raw schema key s hd kvs Hhd Hv Hok) as Hrun.
    do 2 eexists. split; [exact Hrun |]. split; [reflexivity |].
    split; [exact (get_address_tables schema key s _ _ Hrun) |].
    split; [intros x Hx; discriminate |].
    split; [eexists; reflexivity |]. split; [reflexivity |].
    intros _. apply stored_here.
  - pose proof (get_address_instance schema key s hd a0 Hhd Hv) as Hrun.
    do 2 eexists. split; [exact Hrun |]. split; [reflexivity |].
    split; [exact (get_address_tables schema key s _ _ Hrun) |].
    split; [intros x Hx; inversion Hx; subst; split; reflexivity |].
    split; [exists []; cbn; now rewrite app_nil_r |]. split; [reflexivity |].
    intros Hst. exact (Hst a0 Hv).
Qed.

(** On a new [epa_id] with a contact block the Contact model accepts and
    an emergency phone that goes through, [HandlerManager.save] has created
    the Contact and is about to resolve the addresses. *)
Lemma HandlerManager_save_new (schema : Schema) (hd ckw : Kwargs) (s : State) :
  Handler_filter (Dict.get_or_None "epa_id" hd) (db s) = [] ->
  Dict.get "contact" hd = Some (PDict ckw) ->
  Contact_clean schema ckw = None ->
  phone_ok schema hd ->
  exists p s3,
    HandlerManager_save schema hd s
    = try_ (site_address <- get_address schema "site_address" ;;
            mail_address <- get_address schema "mail_address" ;;
            rest <- read_handler_data ;;
            h <- TrakBaseManager_save schema site_address mail_address p
                   (fresh (map pk (contacts (db s)))) rest ;;
            ret (Some h))
        creation_except s3 /\
    handler_data s3 = Some (Dict.remove "emergency_phone" (Dict.remove "contact" hd)) /\
    contacts (db s3)
    = (contacts (db s) ++ [mkRow (fresh (map pk (contacts (db s)))) ckw])%list /\
    only_handler_parts s s3 /\
    (Dict.get "emergency_phone" hd = None \/
     Dict.get "emergency_phone" hd = Some PNone -> p = None) /\
    stored_or_null p (phones (db s3)) = true /\
    addresses (db s3) = addresses (db s).
Proof.
  intros Hnew Hcontact Hclean Hphone.
  set (s2 := set_db (insert_contact (mkRow (fresh (map pk (contacts (db s)))) ckw)
                       (db s))
               (set_handler_data (Some (Dict.remove "contact" hd))
                  (set_handler_data (Some hd) s))).
  assert (Hhd2 : handler_data s2 = Some (Dict.remove "contact" hd)) by reflexivity.
  assert (Hphone2 : phone_ok schema (Dict.remove "contact" hd)).
  { unfold phone_ok in *. now rewrite get_remove_other by reflexivity. }
  destruct (get_emergency_phone_ok schema s2 _ Hhd2 Hphone2)
    as [p [s3 [Hrun3 [Hhd3 [Htab [Hp [Hst Haddr]]]]]]].
  exists p, s3.
  split; [| split; [exact Hhd3 | split; [| split; [| split; [| split]]]]].
  - unfold HandlerManager_save, try_.
    unfold bind at 1, get_db. rewrite Hnew. cbn [exists_].
    unfold bind at 1. cbn [fst snd].
    unfold bind at 1, pop_handler_data. cbn [handler_data set_handler_data].
    rewrite Hcontact.
    unfold bind at 1, as_kwargs, ret at 1.
    assert (Hcs : Contact_save schema ckw
                    (set_handler_data (Some (Dict.remove "contact" hd))
                       (set_handler_data (Some hd) s))
                  = (Ok (fresh (map pk (contacts (db s)))), s2))
      by (rewrite Contact_save_run by exact Hclean; reflexivity).
    unfold bind at 1. rewrite Hcs.
    unfold bind at 1. rewrite Hrun3. reflexivity.
  - destruct Htab as (Hc & _). rewrite Hc. reflexivity.
  - destruct Htab as (_ & H1 & H2 & H3 & H4 & H5).
    unfold only_handler_parts. rewrite H1, H2, H3, H4, H5. repeat split.
  - intros H. apply Hp. now rewrite !get_remove_other by reflexivity.
  - exact Hst.
  - rewrite Haddr. reflexivity.
Qed.

Lemma TrakBaseManager_save_run schema sa ma p c kw e s :
  Handler_clean schema kw = None ->
  Dict.get "epa_id" kw = Some (PStr e) ->
  Handler_filter (PStr e) (db s) = [] ->
  stored sa (addresses (db s)) = true ->
  stored ma (addresses (db s)) = true ->
  stored c (contacts (db s)) = true ->
  stored_or_null p (phones (db s)) = true ->
  TrakBaseManager_save schema sa ma p c kw s
  = (Ok (mkHandler (fresh (map h_pk (handlers (db s)))) e sa ma c p kw),
     set_db (insert_handler
               (mkHandler (fresh (map h_pk (handlers (db s)))) e sa ma c p kw)
               (db s)) s).
Proof.
  intros Hclean Hepa Hnew Hsa Hma Hc Hp.
  unfold TrakBaseManager_save, epa_id_column, bind, get_db, put_db, ret.
  rewrite Hclean, Hepa. cbv beta iota. rewrite Hnew, Hsa, Hma, Hc, Hp. reflexivity.
Qed.

Lemma get_scalar_fields (k : string) (hd : Kwargs) :
  ~ In k popped_keys -> Dict.get k (scalar_fields hd) = Dict.get k hd.
Proof.
  intros Hk. unfold scalar_fields.
  rewrite !get_remove_other; [reflexivity | | | |];
    apply String.eqb_neq; intros ->; apply Hk; simpl; tauto.
Qed.

(** X9.  A complete payload with a new [epa_id], whose addresses are raw
    fields or Address instances that are rows of the store, creates exactly
    one Handler and exactly one Contact: the Handler carries the [epa_id],
    references the new Contact and the resolved addresses (an Address
    instance given in the payload is referenced as it is), every row it
    references is in the store, and it keeps the scalar fields of the
    payload; no signature, ManifestHandler or Manifest row is touched. *)
Theorem HandlerManager_save_creates (schema : Schema) (hd ckw : Kwargs)
    (e : string) (s : State) :
  Dict.get "epa_id" hd = Some (PStr e) ->
  Handler_filter (PStr e) (db s) = [] ->
  Dict.get "contact" hd = Some (PDict ckw) ->
  Contact_clean schema ckw = None ->
  phone_ok schema hd ->
  address_ok schema "site_address" hd ->
  address_ok schema "mail_address" hd ->
  address_stored "site_address" hd (db s) ->
  address_stored "mail_address" hd (db s) ->
  Handler_clean schema (scalar_fields hd) = None ->
  exists h s',
    HandlerManager_save schema hd s = (Ok (Some h), s') /\
    handlers (db s') = (handlers (db s) ++ [h])%list /\
    ~ In (h_pk h) (map h_pk (handlers (db s))) /\
    h_epa_id h = e /\
    h_fields h = scalar_fields hd /\
    contacts (db s') = (contacts (db s) ++ [mkRow (h_contact h) ckw])%list /\
    (forall a, Dict.get "site_address" hd = Some (PAddress a) ->
               h_site_address h = a) /\
    (forall a, Dict.get "mail_address" hd = Some (PAddress a) ->
               h_mail_address h = a) /\
    (Dict.get "emergency_phone" hd = None \/
     Dict.get "emergency_phone" hd = Some PNone -> h_emergency_phone h = None) /\
    paper_signatures (db s') = paper_signatures (db s) /\
    e_signatures (db s') = e_signatures (db s) /\
    manifest_handlers (db s') = manifest_handlers (db s) /\
    manifests (db s') = manifests (db s) /\
    stored (h_site_address h) (addresses (db s')) = true /\
    stored (h_mail_address h) (addresses (db s')) = true /\
    stored (h_contact h) (contacts (db s')) = true /\
    stored_or_null (h_emergency_phone h) (phones (db s')) = true.
Proof.
  intros Hepa Hnew Hcontact Hcc Hphone Hsite Hmail Hsst Hmst Hclean.
  assert (Hnew' : Handler_filter (Dict.get_or_None "epa_id" hd) (db s) = []).
  { unfold Dict.get_or_None. now rewrite Hepa. }
  destruct (HandlerManager_save_new schema hd ckw s Hnew' Hcontact Hcc Hphone)
    as [p [s3 [Hrun [Hhd3 [Hcon [Hparts [Hp [Hpst Haddr3]]]]]]]].
  set (hd3 := Dict.remove "emergency_phone" (Dict.remove "contact" hd)) in *.
  assert (Hsite3 : address_ok schema "site_address" hd3).
  { unfold address_ok, hd3 in *. now rewrite !get_remove_other by reflexivity. }
  destruct (get_address_ok schema "site_address" s3 hd3 Hhd3 Hsite3)
    as [sa [s4 [Hrun4 [Hhd4 [Htab4 [Hsa [[more4 Hadd4] [Hph4 Hsast]]]]]]]].
  assert (Hmail4 : address_ok schema "mail_address" (Dict.remove "site_address" hd3)).
  { unfold address_ok, hd3 in *. now rewrite !get_remove_other by reflexivity. }
  destruct (get_address_ok schema "mail_address" s4 _ Hhd4 Hmail4)
    as [ma [s5 [Hrun5 [Hhd5 [Htab5 [Hma [[more5 Hadd5] [Hph5 Hmast]]]]]]]].
  fold (scalar_fields hd) in Hhd5.
  assert (Hread : read_handler_data s5 = (Ok (scalar_fields hd), s5)).
  { unfold read_handler_data. now rewrite Hhd5. }
  destruct Hparts as (Hh3 & Hps3 & Hes3 & Hmh3 & Hm3).
  destruct Htab4 as (Hc4 & Hh4 & Hps4 & Hes4 & Hmh4 & Hm4).
  destruct Htab5 as (Hc5 & Hh5 & Hps5 & Hes5 & Hmh5 & Hm5).
  assert (Hnew5 : Handler_filter (PStr e) (db s5) = []).
  { rewrite <- Hnew. apply Handler_filter_ext. congruence. }
  assert (Hepa5 : Dict.get "epa_id" (scalar_fields hd) = Some (PStr e)).
  { rewrite get_scalar_fields by (simpl; intuition discriminate). exact Hepa. }
  assert (Hsa4 : stored sa (addresses (db s4)) = true).
  { apply Hsast. intros a Ha. rewrite Haddr3. apply (Hsst a).
    unfold hd3 in Ha. now rewrite !get_remove_other in Ha by reflexivity. }
  assert (Hsa5 : stored sa (addresses (db s5)) = true).
  { rewrite Hadd5. now apply stored_grows. }
  assert (Hma5 : stored ma (addresses (db s5)) = true).
  { apply Hmast. intros a Ha. rewrite Hadd4. apply stored_grows.
    rewrite Haddr3. apply (Hmst a).
    unfold hd3 in Ha. now rewrite !get_remove_other in Ha by reflexivity. }
  assert (Hc5' : stored (fresh (map pk (contacts (db s)))) (contacts (db s5)) = true).
  { rewrite Hc5, Hc4, Hcon. apply stored_here. }
  assert (Hp5 : stored_or_null p (phones (db s5)) = true).
  { rewrite Hph5, Hph4. exact Hpst. }
  pose proof (TrakBaseManager_save_run schema sa ma p
                (fresh (map pk (contacts (db s)))) (scalar_fields hd) e s5
                Hclean Hepa5 Hnew5 Hsa5 Hma5 Hc5' Hp5) as Hsave.
  do 2 eexists. split.
  - rewrite Hrun. apply try_run_ok.
    rewrite (bind_run_ok _ _ _ _ _ Hrun4), (bind_run_ok _ _ _ _ _ Hrun5),
      (bind_run_ok _ _ _ _ _ Hread), (bind_run_ok _ _ _ _ _ Hsave).
    reflexivity.
  - cbn [db set_db handlers insert_handler contacts paper_signatures e_signatures
           manifest_handlers manifests addresses phones h_pk h_epa_id h_fields
           h_contact h_site_address h_mail_address h_emergency_phone].
    split; [congruence |].
    split; [rewrite Hh5, Hh4, Hh3; apply fresh_not_in |].
    split; [reflexivity |]. split; [reflexivity |].
    split; [congruence |].
    split.
    { intros a Ha. apply (Hsa a). unfold hd3.
      now rewrite !get_remove_other by reflexivity. }
    split.
    { intros a Ha. apply (Hma a). unfold hd3.
      now rewrite !get_remove_other by reflexivity. }
    split; [exact Hp |].
    split; [congruence |]. split; [congruence |].
    split; [congruence |]. split; [congruence |].
    split; [exact Hsa5 |]. split; [exact Hma5 |].
    split; [exact Hc5' | exact Hp5].
Qed.

(** The Addresses of the Handler of [store_with_handler] are given again,
    as instances, to a Handler with another [epa_id]. *)
Lemma HandlerManager_save_creates_witness :
  exists h s',
    HandlerManager_save accept_all
      [ ("epa_id", PStr "VAT000000001"); ("name", PStr "Test Generator");
        ("contact", PDict sample_contact);
        ("site_address", PAddress 1); ("mail_address", PAddress 2) ]
      store_with_handler = (Ok (Some h), s') /\
    h_site_address h = 1 /\ h_mail_address h = 2 /\
    h_fields h = [ ("epa_id", PStr "VAT000000001"); ("name", PStr "Test Generator") ] /\
    List.length (addresses (db s')) = List.length (addresses (db store_with_handler)).
Proof.
  destruct (HandlerManager_save_creates accept_all
              [ ("epa_id", PStr "VAT000000001"); ("name", PStr "Test Generator");
                ("contact", PDict sample_contact);
                ("site_address", PAddress 1); ("mail_address", PAddress 2) ]
              sample_contact "VAT000000001" store_with_handler
              eq_refl eq_refl eq_refl eq_refl I I I)
    as [h [s' [Hrun [_ [_ [_ [Hf [_ [Hs [Hm _]]]]]]]]]].
  - intros a Ha. inversion Ha; subst. reflexivity.
  - intros a Ha. inversion Ha; subst. reflexivity.
  - reflexivity.
  - exists h, s'. split; [exact Hrun |].
    split; [exact (Hs 1 eq_refl) |]. split; [exact (Hm 2 eq_refl) |].
    split; [exact Hf |].
    assert (Hs' : s' = snd (HandlerManager_save accept_all
                              [ ("epa_id", PStr "VAT000000001");
                                ("name", PStr "Test Generator");
                                ("contact", PDict sample_contact);
                                ("site_address", PAddress 1);
                                ("mail_address", PAddress 2) ]
                              store_with_handler))
      by (rewrite Hrun; reflexivity).
    rewrite Hs'. vm_compute. reflexivity.
Defined.

(** An Address instance that is not a row of the store is refused by the
    foreign key of the Handler: the [IntegrityError] leaves
    [HandlerManager.save] with the Contact created and no Handler. *)
Example HandlerManager_save_dangling_address :
  let run :=
    HandlerManager_save accept_all
      [ ("epa_id", PStr "VAT000000000"); ("name", PStr "Test Generator");
        ("contact", PDict sample_contact);
        ("site_address", PAddress 7); ("mail_address", PAddress 7) ]
      init_state in
  fst run = Raise (IntegrityError "site_address_id") /\
  handlers (db (snd run)) = [] /\
  addresses (db (snd run)) = [] /\
  contacts (db (snd run)) = [mkRow 1 sample_contact].
Proof. repeat split. Qed.

(** X10.  When address resolution fails on a new [epa_id], the
    [ValidationError] leaves [HandlerManager.save] with no Handler created,
    but the Contact created before it stays in the store. *)
Theorem HandlerManager_save_leaves_contact (schema : Schema) (hd ckw : Kwargs)
    (key : string) (s : State) :
  Handler_filter (Dict.get_or_None "epa_id" hd) (db s) = [] ->
  Dict.get "contact" hd = Some (PDict ckw) ->
  Contact_clean schema ckw = None ->
  phone_ok schema hd ->
  lacks_address schema hd key ->
  exists s',
    HandlerManager_save schema hd s = (Raise (ValidationError (KeyError key)), s') /\
    handlers (db s') = handlers (db s) /\
    contacts (db s')
    = (contacts (db s) ++ [mkRow (fresh (map pk (contacts (db s)))) ckw])%list.
Proof.
  intros Hnew Hcontact Hcc Hphone Hlack.
  destruct (HandlerManager_save_new schema hd ckw s Hnew Hcontact Hcc Hphone)
    as [p [s3 [Hrun [Hhd3 [Hcon [Hparts _]]]]]].
  set (hd3 := Dict.remove "emergency_phone" (Dict.remove "contact" hd)) in *.
  destruct Hparts as (Hh3 & _).
  destruct Hlack as [[-> Hsite] | [-> [Hsite Hmail]]].
  - assert (Hs : Dict.get "site_address" hd3 = None).
    { unfold hd3. now rewrite !get_remove_other by reflexivity. }
    pose proof (get_address_missing schema "site_address" s3 hd3 Hhd3 Hs) as Hrun4.
    eexists. split.
    + rewrite Hrun. apply try_run_unhandled; [| reflexivity].
      rewrite (bind_run_raise _ _ _ _ _ Hrun4). reflexivity.
    + cbn. split; assumption.
  - assert (Hs : address_ok schema "site_address" hd3).
    { unfold address_ok, hd3 in *. now rewrite !get_remove_other by reflexivity. }
    destruct (get_address_ok schema "site_address" s3 hd3 Hhd3 Hs)
      as [sa [s4 [Hrun4 [Hhd4 [Htab4 _]]]]].
    assert (Hm : Dict.get "mail_address" (Dict.remove "site_address" hd3) = None).
    { unfold hd3. now rewrite !get_remove_other by reflexivity. }
    pose proof (get_address_missing schema "mail_address" s4 _ Hhd4 Hm) as Hrun5.
    destruct Htab4 as (Hc4 & Hh4 & _).
    eexists. split.
    + rewrite Hrun. apply try_run_unhandled; [| reflexivity].
      rewrite (bind_run_ok _ _ _ _ _ Hrun4), (bind_run_raise _ _ _ _ _ Hrun5).
      reflexivity.
    + cbn. split; congruence.
Qed.

Lemma HandlerManager_save_leaves_contact_witness :
  exists s',
    HandlerManager_save accept_all handler_without_site_address init_state
    = (Raise (ValidationError (KeyError "site_address")), s') /\
    handlers (db s') = [] /\
    contacts (db s') = [mkRow 1 sample_contact].
Proof.
  exact (HandlerManager_save_leaves_contact accept_all
           handler_without_site_address sample_contact "site_address" init_state
           eq_refl eq_refl eq_refl I (or_introl (conj eq_refl eq_refl))).
Defined.

(* ================================================================= *)
(** ** [ManifestHandlerManager.save] and the Handler it resolves *)

Lemma handler_graph_same_refl s : handler_graph_same s s.
Proof. repeat split. Qed.

Lemma handler_graph_same_trans a b c :
  handler_graph_same a b -> handler_graph_same b c -> handler_graph_same a c.
Proof.
  unfold handler_graph_same. intros (? & ? & ? & ? & ?) (? & ? & ? & ? & ?).
  repeat split; congruence.
Qed.

Lemma ManifestHandler_create_inv schema handler ps kw s mh s' :
  ManifestHandler_create schema handler ps kw s = (Ok mh, s') ->
  exists h,
    handler = Some h /\
    mh = mkManifestHandler (fresh (map mh_pk (manifest_handlers (db s))))
           (h_pk h) ps kw /\
    s' = set_db (insert_manifest_handler mh (db s)) s.
Proof.
  unfold ManifestHandler_create, bind, get_db, put_db, ret, raise. intros H.
  destruct (ManifestHandler_clean schema kw); [discriminate |].
  destruct handler as [h |]; [| discriminate].
  inversion H; subst. exists h. repeat split.
Qed.

(** The statements of [assemble] after the Handler is resolved. *)
Lemma assemble_tail_graph schema handler ps kw es :
  preserves handler_graph_same
    (manifest_handler <- ManifestHandler_create schema handler ps kw ;;
     logger DEBUG "ManifestHandler created ManifestHandler: " (str_handler handler) ;;;
     items <- iterate es ;;
     attach_e_signatures schema manifest_handler items ;;;
     ret (Some manifest_handler)).
Proof.
  assert (Hlog : forall s r, handler_graph_same s (add_log r s))
    by (intros; repeat split).
  assert (Hes : forall s e,
             handler_graph_same s (set_db (insert_e_signature e (db s)) s))
    by (intros; repeat split).
  assert (Hmh : forall s m,
             handler_graph_same s (set_db (insert_manifest_handler m (db s)) s))
    by (intros; repeat split).
  frame handler_graph_same_refl handler_graph_same_trans
    ltac:(first
            [ apply (steady_ManifestHandler_create _ handler_graph_same_refl Hmh)
            | apply (steady_logger _ Hlog)
            | apply (steady_attach_e_signatures _ handler_graph_same_refl
                       handler_graph_same_trans Hlog Hes) ]).
Qed.

Lemma attach_keeps_manifest_handlers schema mh items :
  preserves same_manifest_handlers (attach_e_signatures schema mh items).
Proof.
  apply steady_attach_e_signatures; unfold same_manifest_handlers;
    first [ reflexivity | congruence | intros; reflexivity ].
Qed.

(** The run of [assemble] when the Handler exists, up to the creation of
    the ManifestHandler. *)
Lemma assemble_existing (schema : Schema) (hd hkw : Kwargs) (epa : PyVal)
    (h : Handler) (es : PyVal) (ps : option nat) (s1 : State) :
  Dict.get "handler" hd = Some (PDict hkw) ->
  Dict.get "epa_id" hkw = Some epa ->
  Handler_filter epa (db s1) = [h] ->
  assemble schema (without_signatures hd) es ps s1
  = (manifest_handler <-
       ManifestHandler_create schema (Some h) ps
         (Dict.remove "handler" (without_signatures hd)) ;;
     logger DEBUG "ManifestHandler created ManifestHandler: "
       (str_handler (Some h)) ;;;
     items <- iterate es ;;
     attach_e_signatures schema manifest_handler items ;;;
     ret (Some manifest_handler))
      (add_log (mkLog DEBUG "using existing Handler " (ArgStr (h_epa_id h))) s1).
Proof.
  intros Hh Hepa Hone1.
  unfold assemble, bind at 1, subscript.
  rewrite get_without_signatures by reflexivity. rewrite Hh.
  unfold ret at 1. cbv beta iota.
  unfold bind at 1. rewrite Hepa. unfold ret at 1. cbv beta iota.
  unfold bind at 1, get_db. cbv beta iota. rewrite Hone1. cbn [exists_]. cbv iota.
  erewrite bind_run_ok; cycle 1.
  { unfold bind at 1, ret at 1. cbv beta iota.
    unfold bind at 1. rewrite Hepa. unfold ret at 1. cbv beta iota.
    unfold bind at 1, Handler_get. unfold bind at 1, get_db. cbv beta iota.
    rewrite Hone1. unfold ret at 1. cbv beta iota.
    unfold bind at 1, pop.
    rewrite get_without_signatures by reflexivity. rewrite Hh.
    unfold ret at 1. cbv beta iota. reflexivity. }
  reflexivity.
Qed.

(** X11.  When a Handler with the payload's [epa_id] exists,
    [ManifestHandlerManager.save] uses it as it is: whatever else the nested
    block holds and however the call ends, no Handler, Address, Contact or
    EpaPhone row is created and the manager attribute is not touched; the
    ManifestHandler it returns references that Handler. *)
Theorem ManifestHandlerManager_save_uses_existing (schema : Schema)
    (hd hkw : Kwargs) (epa : PyVal) (h : Handler) (o : option Kwargs) (s : State) :
  paper_block schema hd = Some o ->
  Dict.get "handler" hd = Some (PDict hkw) ->
  Dict.get "epa_id" hkw = Some epa ->
  Handler_filter epa (db s) = [h] ->
  handler_graph_same s (snd (ManifestHandlerManager_save schema hd s)) /\
  forall mh,
    fst (ManifestHandlerManager_save schema hd s) = Ok (Some mh) ->
    mh_handler mh = h_pk h /\
    mh_fields mh = Dict.remove "handler" (without_signatures hd) /\
    In mh (manifest_handlers (db (snd (ManifestHandlerManager_save schema hd s)))).
Proof.
  intros Hpaper Hh Hepa Hone.
  destruct (ManifestHandlerManager_save_prefix schema hd s o Hpaper)
    as [es [ps [s1 [Hrun [Hdb [Hhd1 _]]]]]].
  rewrite Hrun.
  assert (Hs1 : handler_graph_same s s1).
  { unfold handler_graph_same. rewrite Hdb, Hhd1. destruct o; repeat split. }
  assert (Hone1 : Handler_filter epa (db s1) = [h]).
  { rewrite <- Hone. apply Handler_filter_ext. now destruct Hs1 as [-> _]. }
  pose proof (assemble_existing schema hd hkw epa h es ps s1 Hh Hepa Hone1) as Hbody.
  set (s2 := add_log (mkLog DEBUG "using existing Handler " (ArgStr (h_epa_id h))) s1)
    in *.
  assert (Hs2 : handler_graph_same s s2).
  { eapply handler_graph_same_trans; [exact Hs1 | repeat split]. }
  unfold try_. rewrite Hbody.
  destruct ((manifest_handler <- ManifestHandler_create schema (Some h) ps _ ;; _) s2)
    as [r s3] eqn:Htail.
  pose proof (assemble_tail_graph schema (Some h) ps _ es s2 r s3 Htail) as Hs3.
  assert (Hs : handler_graph_same s s3)
    by (eapply handler_graph_same_trans; eassumption).
  destruct r as [[mh |] | e].
  - cbn [fst snd]. split; [exact Hs |]. intros mh0 Hmh0. inversion Hmh0; subst mh0.
    apply bind_inv_ok in Htail. destruct Htail as [mh1 [t1 [Hc Htail]]].
    apply ManifestHandler_create_inv in Hc.
    destruct Hc as [h1 [Hh1 [Hmh1 Ht1]]]. inversion Hh1; subst h1.
    apply bind_inv_ok in Htail. destruct Htail as [[] [t2 [Hlog Htail]]].
    apply bind_inv_ok in Htail. destruct Htail as [items [t3 [Hit Htail]]].
    apply bind_inv_ok in Htail. destruct Htail as [[] [t4 [Hatt Htail]]].
    assert (Ht3 : manifest_handlers (db t3) = manifest_handlers (db t1)).
    { inversion Hlog; subst t2. destruct es; inversion Hit; reflexivity. }
    pose proof (attach_keeps_manifest_handlers schema mh1 items t3 _ t4 Hatt) as Ht4.
    unfold same_manifest_handlers in Ht4.
    inversion Htail; subst. clear Htail.
    split; [reflexivity |]. split; [reflexivity |].
    rewrite Ht4, Ht3. cbn. apply in_or_app. right. now left.
  - cbn [fst snd]. split; [exact Hs | intros mh Hmh; discriminate].
  - destruct (save_except e) as [hh |] eqn:Hex.
    + destruct e; inversion Hex; subst; cbn [fst snd bind logger ret raise];
        (split; [| intros mh Hmh; discriminate]);
        (eapply handler_graph_same_trans; [exact Hs | repeat split]).
    + cbn [fst snd]. split; [exact Hs | intros mh Hmh; discriminate].
Qed.

Lemma ManifestHandlerManager_save_uses_existing_witness :
  handler_graph_same store_with_handler
    (snd (ManifestHandlerManager_save accept_all
            [("handler", PDict sample_handler_again)] store_with_handler)) /\
  List.length (handlers (db store_with_handler)) = 1.
Proof.
  split; [| reflexivity].
  exact (proj1 (ManifestHandlerManager_save_uses_existing accept_all
                  [("handler", PDict sample_handler_again)] sample_handler_again
                  (PStr "VAT000000000")
                  (mkHandler 1 "VAT000000000" 1 2 1 None
                     [ ("epa_id", PStr "VAT000000000");
                       ("name", PStr "Test Generator");
                       ("site_type", PStr "Generator") ])
                  None store_with_handler eq_refl eq_refl eq_refl eq_refl)).
Defined.

(** X12.  A new handler block without [contact] does not make
    [ManifestHandlerManager.save] return [None]: [HandlerManager.save]
    swallows the [KeyError] and returns no Handler, the ManifestHandler row
    without a Handler is refused, and the [IntegrityError] goes to the
    caller.  No Handler and no ManifestHandler is created; the
    PaperSignature of the payload is. *)
Theorem ManifestHandlerManager_save_without_contact (schema : Schema)
    (hd hkw : Kwargs) (epa : PyVal) (o : option Kwargs) (s : State) :
  paper_block schema hd = Some o ->
  Dict.get "handler" hd = Some (PDict hkw) ->
  Dict.get "epa_id" hkw = Some epa ->
  Handler_filter epa (db s) = [] ->
  Dict.get "contact" hkw = None ->
  ManifestHandler_clean schema (Dict.remove "handler" (without_signatures hd)) = None ->
  exists s',
    ManifestHandlerManager_save schema hd s
    = (Raise (IntegrityError "handler_id"), s') /\
    db s' = db_after_paper o (db s) /\
    handlers (db s') = handlers (db s) /\
    manifest_handlers (db s') = manifest_handlers (db s) /\
    In (mkLog WARNING "error while creating handler " (ArgExc (KeyError "contact")))
       (log s').
Proof.
  intros Hpaper Hh Hepa Hnew Hcontact Hclean.
  destruct (ManifestHandlerManager_save_prefix schema hd s o Hpaper)
    as [es [ps [s1 [Hrun [Hdb _]]]]].
  rewrite Hrun.
  assert (Hnew1 : Handler_filter epa (db s1) = []).
  { rewrite <- Hnew. apply Handler_filter_ext. rewrite Hdb.
    apply handlers_after_paper. }
  assert (Hnew2 : Handler_filter (Dict.get_or_None "epa_id" hkw) (db s1) = []).
  { unfold Dict.get_or_None. now rewrite Hepa. }
  pose proof (HandlerManager_save_missing_contact schema hkw s1 Hnew2 Hcontact)
    as Hsave.
  eexists. split.
  - apply try_run_unhandled; [| reflexivity].
    unfold assemble, bind at 1, subscript.
    rewrite get_without_signatures by reflexivity. rewrite Hh.
    unfold ret at 1. cbv beta iota.
    unfold bind at 1. rewrite Hepa. unfold ret at 1. cbv beta iota.
    unfold bind at 1, get_db. cbv beta iota. rewrite Hnew1. cbn [exists_]. cbv iota.
    erewrite bind_run_ok; cycle 1.
    { unfold bind at 1, pop.
      rewrite get_without_signatures by reflexivity. rewrite Hh.
      unfold ret at 1. cbv beta iota.
      unfold bind at 1, as_kwargs, ret at 1. cbv beta iota.
      unfold bind at 1. rewrite Hsave.
      unfold bind at 1, logger. cbv beta iota. reflexivity. }
    cbv beta iota. unfold bind at 1, ManifestHandler_create.
    rewrite Hclean. reflexivity.
  - cbn [db add_log set_handler_data log].
    split; [exact Hdb |].
    split; [rewrite Hdb; apply handlers_after_paper |].
    split; [rewrite Hdb; now destruct o |].
    apply in_or_app. left. apply in_or_app. right. now left.
Qed.

Lemma ManifestHandlerManager_save_without_contact_witness :
  exists s',
    ManifestHandlerManager_save accept_all manifest_handler_without_contact init_state
    = (Raise (IntegrityError "handler_id"), s') /\
    manifest_handlers (db s') = [] /\
    paper_signatures (db s') = [mkRow 1 sample_paper_signature].
Proof.
  destruct (ManifestHandlerManager_save_without_contact accept_all
              manifest_handler_without_contact handler_without_contact
              (PStr "VAT000000000") (Some sample_paper_signature) init_state
              eq_refl eq_refl eq_refl eq_refl eq_refl eq_refl)
    as [s' [Hrun [Hdb [_ [Hmh _]]]]].
  exists s'. split; [exact Hrun |]. split; [exact Hmh |].
  rewrite Hdb. reflexivity.
Defined.

(* ================================================================= *)
(** ** The [epa_id] of a Handler stays unique *)

Lemma Handler_filter_nil_not_in (e : string) (d : DB) :
  Handler_filter (PStr e) d = [] -> ~ In e (map h_epa_id (handlers d)).
Proof.
  unfold Handler_filter. intros Hnil Hin. apply in_map_iff in Hin.
  destruct Hin as [h [He Hin]].
  assert (Hf : In h (filter (fun h => String.eqb (h_epa_id h) e) (handlers d))).
  { apply filter_In. split; [exact Hin |]. rewrite He. apply String.eqb_refl. }
  rewrite Hnil in Hf. exact Hf.
Qed.

Lemma NoDup_snoc {A : Type} (l : list A) (x : A) :
  NoDup l -> ~ In x l -> NoDup (l ++ [x])%list.
Proof.
  intros Hl Hx. apply (Permutation_NoDup (Permutation_cons_append l x)).
  now constructor.
Qed.

Lemma keeps_epa_ids_unique_trans a b c :
  keeps_epa_ids_unique a b -> keeps_epa_ids_unique b c -> keeps_epa_ids_unique a c.
Proof. unfold keeps_epa_ids_unique. auto. Qed.

Lemma keeps_epa_ids_unique_insert s h :
  Handler_filter (PStr (h_epa_id h)) (db s) = [] ->
  keeps_epa_ids_unique s (set_db (insert_handler h (db s)) s).
Proof.
  intros Hnil Hu. unfold epa_ids_unique. cbn. rewrite map_app. cbn.
  apply NoDup_snoc; [exact Hu | now apply Handler_filter_nil_not_in].
Qed.

Lemma filter_none {A : Type} (f : A -> bool) (l : list A) :
  (forall x, In x l -> f x = false) -> filter f l = [].
Proof.
  induction l as [| x l IH]; intros H; cbn; [reflexivity |].
  rewrite (H x (or_introl eq_refl)). apply IH. intros y Hy. apply H. now right.
Qed.

Lemma filter_all {A : Type} (f : A -> bool) (l : list A) :
  Forall (fun x => f x = true) l -> filter f l = l.
Proof.
  induction 1 as [| x l Hx _ IH]; cbn; [reflexivity |]. now rewrite Hx, IH.
Qed.

Lemma unique_lookup (e : string) (l : list Handler) :
  NoDup (map h_epa_id l) -> In e (map h_epa_id l) ->
  exists h,
    filter (fun h => String.eqb (h_epa_id h) e) l = [h] /\
    In h l /\ h_epa_id h = e.
Proof.
  induction l as [| a l IH]; cbn; [tauto |].
  intros Hnd Hin. inversion Hnd as [| x l' Hnotin Hnd']; subst.
  destruct (String.eqb (h_epa_id a) e) eqn:Heq.
  - apply String.eqb_eq in Heq. exists a.
    split; [| split; [now left | exact Heq]].
    f_equal. apply filter_none. intros h Hh. apply String.eqb_neq.
    intros Hhe. apply Hnotin. rewrite Heq, <- Hhe. now apply in_map.
  - apply String.eqb_neq in Heq. destruct Hin as [Hin | Hin]; [contradiction |].
    destruct (IH Hnd' Hin) as [h [Hf [Hh He]]].
    exists h. split; [exact Hf |]. split; [now right | exact He].
Qed.

Lemma same_handlers_refl s : same_handlers s s.
Proof. reflexivity. Qed.

Lemma same_handlers_trans a b c :
  same_handlers a b -> same_handlers b c -> same_handlers a c.
Proof. unfold same_handlers. congruence. Qed.

Lemma at_most_one_bind {A} (m : M A) (f : A -> M (option Handler)) :
  preserves same_handlers m ->
  (forall a s r s', f a s = (r, s') -> creates_at_most_one s r s') ->
  forall s r s', bind m f s = (r, s') -> creates_at_most_one s r s'.
Proof.
  intros Hm Hf s r s' H. apply bind_inv in H.
  destruct H as [[a [t [Hrun H]]] | [e [Hrun _]]].
  - pose proof (Hm _ _ _ Hrun) as Hsame. unfold same_handlers in Hsame.
    pose proof (Hf _ _ _ _ H) as Hone. unfold creates_at_most_one in *.
    now rewrite Hsame in Hone.
  - left. exact (Hm _ _ _ Hrun).
Qed.

(** However [HandlerManager.save] ends, it has added no Handler row, or
    the one it returns. *)
Lemma HandlerManager_save_grows (schema : Schema) (hd : Kwargs) (s : State)
    (r : Result (option Handler)) (s' : State) :
  HandlerManager_save schema hd s = (r, s') -> creates_at_most_one s r s'.
Proof.
  assert (Hlog : forall t l, same_handlers t (add_log l t)) by reflexivity.
  assert (Hhd : forall t x, same_handlers t (set_handler_data x t)) by reflexivity.
  assert (Haddr : forall t x, same_handlers t (set_db (insert_address x (db t)) t))
    by reflexivity.
  assert (Hcon : forall t x, same_handlers t (set_db (insert_contact x (db t)) t))
    by reflexivity.
  assert (Hph : forall t x, same_handlers t (set_db (insert_phone x (db t)) t))
    by reflexivity.
  assert (Hbody : forall t r0 s0,
            (d <- get_db ;;
             if exists_ (Handler_filter (Dict.get_or_None "epa_id" hd) d)
             then h <- Handler_get (Dict.get_or_None "epa_id" hd) ;; ret (Some h)
             else
               (fun s => (Ok tt, set_handler_data (Some hd) s)) ;;;
               contact_data <- pop_handler_data "contact" ;;
               contact_kw <- as_kwargs contact_data ;;
               new_contact <- Contact_save schema contact_kw ;;
               emergency_phone <- get_emergency_phone schema ;;
               site_address <- get_address schema "site_address" ;;
               mail_address <- get_address schema "mail_address" ;;
               rest <- read_handler_data ;;
               h <- TrakBaseManager_save schema site_address mail_address
                      emergency_phone new_contact rest ;;
               ret (Some h)) t = (r0, s0) ->
            creates_at_most_one t r0 s0).
  { apply at_most_one_bind; [apply (preserves_get_db _ same_handlers_refl) |].
    intros d. destruct (exists_ _).
    - intros t r0 s0 Hrun. left. revert Hrun.
      generalize s0. generalize r0. generalize t.
      change (preserves same_handlers
                (h <- Handler_get (Dict.get_or_None "epa_id" hd) ;; ret (Some h))).
      frame same_handlers_refl same_handlers_trans fail.
    - apply at_most_one_bind.
      { intros t [] t' Ht; inversion Ht; subst; apply Hhd. }
      intros _.
      apply at_most_one_bind;
        [apply (steady_pop_handler_data _ same_handlers_refl Hhd) |]. intros cd.
      apply at_most_one_bind;
        [apply (preserves_as_kwargs _ same_handlers_refl) |]. intros ckw.
      apply at_most_one_bind;
        [apply (steady_Contact_save _ same_handlers_refl Hcon) |]. intros nc.
      apply at_most_one_bind;
        [apply (steady_get_emergency_phone _ same_handlers_refl
                  same_handlers_trans Hlog Hhd Hph) |]. intros ph.
      apply at_most_one_bind;
        [apply (steady_get_address _ same_handlers_refl same_handlers_trans
                  Hlog Hhd Haddr) |]. intros sa.
      apply at_most_one_bind;
        [apply (steady_get_address _ same_handlers_refl same_handlers_trans
                  Hlog Hhd Haddr) |]. intros ma.
      apply at_most_one_bind;
        [apply (steady_read_handler_data _ same_handlers_refl) |]. intros rest.
      intros t r0 s0 Hrun. apply bind_inv in Hrun.
      destruct (TrakBaseManager_save_cases schema sa ma ph nc rest t)
        as [[h [Hsave [Hnone _]]] | [e Hsave]];
        destruct Hrun as [[h' [t' [Hrun Hret]]] | [e' [Hrun _]]];
        rewrite Hsave in Hrun; inversion Hrun; subst; clear Hrun.
      + inversion Hret; subst. right. exists h'.
        split; [reflexivity |]. split; [reflexivity |].
        now apply Handler_filter_nil_not_in.
      + now left. }
  intros H. unfold HandlerManager_save in H. apply try_inv in H.
  destruct H as [[a [H Ha]] | [[e [s1 [h0 [H [Hex Hh]]]]] | [e [H [_ Hr]]]]].
  - subst r. exact (Hbody _ _ _ H).
  - left. destruct (Hbody _ _ _ H) as [Hsame | [h [Habs _]]]; [| discriminate Habs].
    destruct e; inversion Hex; subst h0.
    unfold bind, logger, ret in Hh. inversion Hh; subst. exact Hsame.
  - subst r. exact (Hbody _ _ _ H).
Qed.

Lemma HandlerManager_save_lookup (schema : Schema) (hd : Kwargs) (e : string)
    (h : Handler) (s : State) :
  Dict.get "epa_id" hd = Some (PStr e) ->
  Handler_filter (PStr e) (db s) = [h] ->
  HandlerManager_save schema hd s = (Ok (Some h), s).
Proof.
  intros Hepa Hone. unfold HandlerManager_save. apply try_run_ok.
  unfold bind at 1, get_db, Dict.get_or_None. rewrite Hepa. cbn beta iota.
  rewrite Hone. cbn [exists_].
  unfold Handler_get, get_db, bind. cbn beta iota. now rewrite Hone.
Qed.

(** X13.  [epa_id] stays unique, and the lookup of the save method relies
    on it.  In a store where no two Handlers share an [epa_id], a payload
    whose [epa_id] is stored makes [HandlerManager.save] return that
    Handler and write nothing at all ([Handler.objects.get] finds exactly
    one row); any other call adds at most one Handler row, whose [epa_id]
    no row had; and after [HandlerManager.save] or
    [ManifestHandlerManager.save], however they end, no two Handlers share
    an [epa_id]. *)
Theorem epa_id_stays_unique (schema : Schema) (hd : Kwargs) (s : State) :
  epa_ids_unique (db s) ->
  (forall e,
     Dict.get "epa_id" hd = Some (PStr e) ->
     In e (map h_epa_id (handlers (db s))) ->
     exists h,
       HandlerManager_save schema hd s = (Ok (Some h), s) /\
       In h (handlers (db s)) /\ h_epa_id h = e) /\
  (handlers (db (snd (HandlerManager_save schema hd s))) = handlers (db s) \/
   exists h,
     fst (HandlerManager_save schema hd s) = Ok (Some h) /\
     handlers (db (snd (HandlerManager_save schema hd s)))
     = (handlers (db s) ++ [h])%list /\
     ~ In (h_epa_id h) (map h_epa_id (handlers (db s)))) /\
  epa_ids_unique (db (snd (HandlerManager_save schema hd s))) /\
  epa_ids_unique (db (snd (ManifestHandlerManager_save schema hd s))).
Proof.
  intros Hu.
  assert (Hrefl : forall t, keeps_epa_ids_unique t t) by (intros t H; exact H).
  assert (Hsame : forall t t', handlers (db t') = handlers (db t) ->
                               keeps_epa_ids_unique t t').
  { intros t t' E H. unfold epa_ids_unique. now rewrite E. }
  split; [| split; [| split]].
  - intros e Hepa Hin.
    destruct (unique_lookup e (handlers (db s)) Hu Hin) as [h [Hone [Hh He]]].
    exists h. split; [| split; [exact Hh | exact He]].
    now apply (HandlerManager_save_lookup schema hd e h s Hepa).
  - destruct (HandlerManager_save schema hd s) as [r s'] eqn:Hrun. cbn [fst snd].
    destruct (HandlerManager_save_grows schema hd s r s' Hrun)
      as [Hkeep | [h [-> [Hgrow Hfresh]]]]; [now left |].
    right. exists h. split; [reflexivity |]. split; [exact Hgrow | exact Hfresh].
  - destruct (HandlerManager_save schema hd s) as [r s'] eqn:Hrun.
    refine (steady_HandlerManager_save keeps_epa_ids_unique Hrefl
              keeps_epa_ids_unique_trans _ _ _ _ _ keeps_epa_ids_unique_insert
              schema hd s r s' Hrun Hu);
      intros; apply Hsame; reflexivity.
  - destruct (ManifestHandlerManager_save schema hd s) as [r s'] eqn:Hrun.
    refine (steady_ManifestHandlerManager_save keeps_epa_ids_unique Hrefl
              keeps_epa_ids_unique_trans _ _ _ _ _ _ _ _
              keeps_epa_ids_unique_insert schema hd s r s' Hrun Hu);
      intros; apply Hsame; reflexivity.
Qed.

Lemma epa_id_stays_unique_witness :
  (exists h,
     HandlerManager_save accept_all sample_handler_again store_with_handler
     = (Ok (Some h), store_with_handler) /\
     h_epa_id h = "VAT000000000") /\
  epa_ids_unique
    (db (snd (ManifestHandlerManager_save accept_all manifest_handler_without_contact
                store_with_handler))).
Proof.
  assert (Hu : epa_ids_unique (db store_with_handler)).
  { unfold epa_ids_unique. vm_compute. repeat constructor. simpl. tauto. }
  split.
  - destruct (proj1 (epa_id_stays_unique accept_all sample_handler_again
                       store_with_handler Hu) "VAT000000000" eq_refl)
      as [h [Hrun [_ He]]].
    + vm_compute. now left.
    + exists h. split; [exact Hrun | exact He].
  - exact (proj2 (proj2 (proj2 (epa_id_stays_unique accept_all
                                  manifest_handler_without_contact
                                  store_with_handler Hu)))).
Defined.


(* ================================================================= *)
(** ** The e-signatures [ManifestHandlerManager.save] attaches *)

Lemma e_signatures_follow_same s s' :
  same_signature_tables s s' -> e_signatures_follow s s'.
Proof.
  intros [Hm He]. split.
  - rewrite Hm. apply incl_refl.
  - intros e Hin. left. now rewrite <- He.
Qed.

Lemma e_signatures_follow_refl s : e_signatures_follow s s.
Proof. apply e_signatures_follow_same. split; reflexivity. Qed.

Lemma e_signatures_follow_trans a b c :
  e_signatures_follow a b -> e_signatures_follow b c -> e_signatures_follow a c.
Proof.
  intros [Hab Rab] [Hbc Rbc]. split.
  - eapply incl_tran; eassumption.
  - intros e Hin. destruct (Rbc e Hin) as [Hb | Hnew]; [| now right].
    destruct (Rab e Hb) as [Ha | [mh [Hmh Hpk]]]; [now left |].
    right. exists mh. split; [now apply Hbc | exact Hpk].
Qed.

Lemma e_signatures_follow_grown s m :
  e_signatures_follow s (set_db (insert_manifest_handler m (db s)) s).
Proof.
  split; cbn.
  - apply incl_appl, incl_refl.
  - intros e Hin. now left.
Qed.

Lemma iterate_inv (v : PyVal) (s : State) (r : Result (list PyVal)) (s' : State) :
  iterate v s = (r, s') -> s' = s.
Proof. destruct v; intros H; inversion H; reflexivity. Qed.

Lemma follow_attach_e_signatures schema mh items :
  forall s r s',
    In mh (manifest_handlers (db s)) ->
    attach_e_signatures schema mh items s = (r, s') ->
    e_signatures_follow s s'.
Proof.
  induction items as [| item items IH]; cbn [attach_e_signatures];
    intros s r s' Hin H.
  - inversion H; subst. apply e_signatures_follow_refl.
  - destruct item; cbn [as_kwargs] in H;
      try (inversion H; subst; apply e_signatures_follow_refl).
    unfold bind at 1, ret at 1 in H. cbv beta iota in H.
    unfold bind at 1, ESignature_save in H.
    destruct (ESignature_clean schema kvs).
    { inversion H; subst. apply e_signatures_follow_refl. }
    unfold bind at 1, get_db in H. cbv beta iota in H.
    unfold bind at 1, put_db, ret at 1 in H. cbv beta iota in H.
    unfold bind at 1, logger in H. cbv beta iota in H.
    eapply e_signatures_follow_trans; [| eapply IH; [| exact H]]; cbn.
    + split; cbn; [apply incl_refl |].
      intros e He. apply in_app_or in He. destruct He as [He | [<- | []]];
        [now left |].
      right. exists mh. split; [exact Hin | reflexivity].
    + exact Hin.
Qed.

Lemma follow_assemble schema hd es ps :
  preserves e_signatures_follow (assemble schema hd es ps).
Proof.
  assert (Hsame : forall s s', same_signature_tables s s' ->
                               e_signatures_follow s s')
    by exact e_signatures_follow_same.
  assert (Hlog : forall s r, e_signatures_follow s (add_log r s))
    by (intros; apply Hsame; split; reflexivity).
  unfold assemble.
  do 3 (apply (preserves_bind _ e_signatures_follow_trans);
        [frame e_signatures_follow_refl e_signatures_follow_trans fail
        | intros ?]).
  apply (preserves_bind _ e_signatures_follow_trans).
  { repeat first
      [ apply (steady_HandlerManager_save e_signatures_follow
                 e_signatures_follow_refl e_signatures_follow_trans Hlog);
        intros; apply Hsame; split; reflexivity
      | frame_step e_signatures_follow_refl e_signatures_follow_trans
          ltac:(apply (steady_logger _ Hlog)) ]. }
  intros [handler hd'].
  apply (preserves_bind_with _ e_signatures_follow_trans)
    with (Q := fun (m : ManifestHandler) s1 => In m (manifest_handlers (db s1))).
  - apply (steady_ManifestHandler_create _ e_signatures_follow_refl
             e_signatures_follow_grown).
  - intros s m s1 H. apply ManifestHandler_create_inv in H.
    destruct H as [h [_ [_ ->]]]. cbn. apply in_or_app. right. now left.
  - intros m s1 r s' HQ H.
    unfold bind at 1, logger in H. cbv beta iota in H.
    apply bind_inv in H. destruct H as [[items [s2 [Hit H]]] | [e [Hit _]]].
    + apply iterate_inv in Hit. subst s2.
      eapply e_signatures_follow_trans; [apply Hlog |].
      apply bind_inv in H. destruct H as [[[] [s3 [Hat H]]] | [e [Hat _]]].
      * inversion H; subst.
        eapply follow_attach_e_signatures; [| exact Hat]. exact HQ.
      * eapply follow_attach_e_signatures; [| exact Hat]. exact HQ.
    + apply iterate_inv in Hit. subst s'. apply Hlog.
Qed.

Lemma follow_ManifestHandlerManager_save schema hd :
  preserves e_signatures_follow (ManifestHandlerManager_save schema hd).
Proof.
  assert (Hlog : forall s r, e_signatures_follow s (add_log r s))
    by (intros; apply e_signatures_follow_same; split; reflexivity).
  assert (Hpaper : forall s r, e_signatures_follow s
                                 (set_db (insert_paper_signature r (db s)) s))
    by (intros; apply e_signatures_follow_same; split; reflexivity).
  unfold ManifestHandlerManager_save.
  apply (preserves_bind _ e_signatures_follow_trans);
    [frame e_signatures_follow_refl e_signatures_follow_trans fail |].
  intros [es hd1].
  apply (preserves_bind _ e_signatures_follow_trans);
    [apply (steady_logger _ Hlog) |].
  intros _.
  apply (preserves_bind _ e_signatures_follow_trans).
  { destruct (Dict.mem _ _);
      [| frame e_signatures_follow_refl e_signatures_follow_trans fail].
    apply (preserves_bind _ e_signatures_follow_trans);
      [frame e_signatures_follow_refl e_signatures_follow_trans fail |].
    intros [data hd2].
    frame e_signatures_follow_refl e_signatures_follow_trans
      ltac:(apply (steady_PaperSignature_create _ e_signatures_follow_refl Hpaper)). }
  intros [ps hd2]. apply (preserves_try _ e_signatures_follow_trans).
  - apply follow_assemble.
  - intros e h He. destruct e; inversion He; subst;
      frame e_signatures_follow_refl e_signatures_follow_trans
        ltac:(apply (steady_logger _ Hlog)).
Qed.

(** X14.  Whatever the payload and however the call ends, every ESignature stored
    after [ManifestHandlerManager.save] references a stored ManifestHandler,
    when that was so before; no ManifestHandler is removed. *)
Theorem e_signatures_stay_referenced (schema : Schema) (hd : Kwargs) (s : State) :
  e_signatures_referenced (db s) ->
  e_signatures_referenced (db (snd (ManifestHandlerManager_save schema hd s))) /\
  incl (manifest_handlers (db s))
       (manifest_handlers (db (snd (ManifestHandlerManager_save schema hd s)))).
Proof.
  intros Href.
  destruct (ManifestHandlerManager_save schema hd s) as [r s'] eqn:Hrun.
  destruct (follow_ManifestHandlerManager_save schema hd s r s' Hrun)
    as [Hincl Hnew].
  split; [| exact Hincl]. cbn [snd]. intros e Hin.
  destruct (Hnew e Hin) as [Hold | Hmh]; [| exact Hmh].
  destruct (Href e Hold) as [mh [Hmh Hpk]].
  exists mh. split; [now apply Hincl | exact Hpk].
Qed.

Lemma store_with_signature_referenced :
  e_signatures_referenced (db store_with_signature).
Proof.
  intros e Hin. vm_compute in Hin. destruct Hin as [<- | []].
  eexists. split; [left; reflexivity | reflexivity].
Defined.

Lemma e_signatures_stay_referenced_witness :
  e_signatures_referenced
    (db (snd (ManifestHandlerManager_save accept_all sample_manifest_handler
                store_with_signature))) /\
  incl (manifest_handlers (db store_with_signature))
       (manifest_handlers
          (db (snd (ManifestHandlerManager_save accept_all sample_manifest_handler
                      store_with_signature)))).
Proof.
  apply (e_signatures_stay_referenced accept_all sample_manifest_handler
           store_with_signature).
  exact store_with_signature_referenced.
Defined.

Lemma same_signature_tables_refl s : same_signature_tables s s.
Proof. split; reflexivity. Qed.

Lemma same_signature_tables_trans a b c :
  same_signature_tables a b -> same_signature_tables b c ->
  same_signature_tables a c.
Proof. intros [? ?] [? ?]. split; congruence. Qed.

Lemma attach_e_signatures_ok schema mh items :
  forall s s',
    attach_e_signatures schema mh items s = (Ok tt, s') ->
    exists news,
      e_signatures (db s') = (e_signatures (db s) ++ news)%list /\
      Forall (fun e => es_manifest_handler e = mh_pk mh) news /\
      List.length news = List.length items /\
      Forall (fun v => exists kw, v = PDict kw) items.
Proof.
  induction items as [| item items IH]; cbn [attach_e_signatures]; intros s s' H.
  - inversion H; subst. exists []. rewrite app_nil_r.
    repeat split; constructor.
  - destruct item; cbn [as_kwargs] in H; try discriminate H.
    unfold bind at 1, ret at 1 in H. cbv beta iota in H.
    unfold bind at 1, ESignature_save in H.
    destruct (ESignature_clean schema kvs); [discriminate H |].
    unfold bind at 1, get_db in H. cbv beta iota in H.
    unfold bind at 1, put_db, ret at 1 in H. cbv beta iota in H.
    unfold bind at 1, logger in H. cbv beta iota in H.
    apply IH in H. cbn in H. destruct H as [news [Hes [Hall [Hlen Hd]]]].
    eexists (_ :: news). rewrite Hes, <- app_assoc. cbn.
    split; [reflexivity |].
    split; [constructor; [reflexivity | exact Hall] |].
    split; [now rewrite Hlen |].
    constructor; [now exists kvs | exact Hd].
Qed.

(** What a run of [assemble] that returns has done to the signature
    tables. *)
Lemma assemble_ok schema hd es ps s r s' :
  assemble schema hd es ps s = (Ok r, s') ->
  exists mh items news,
    r = Some mh /\
    iterate es s' = (Ok items, s') /\
    Forall (fun v => exists kw, v = PDict kw) items /\
    mh_pk mh = fresh (map mh_pk (manifest_handlers (db s))) /\
    mh_paper_signature mh = ps /\
    e_signatures (db s') = (e_signatures (db s) ++ news)%list /\
    Forall (fun e => es_manifest_handler e = mh_pk mh) news /\
    List.length news = List.length items.
Proof.
  assert (Hlog : forall s r, same_signature_tables s (add_log r s))
    by (intros; split; reflexivity).
  intros H. unfold assemble in H.
  apply bind_inv_ok in H. destruct H as [nested [t1 [H1 H]]].
  apply bind_inv_ok in H. destruct H as [epa [t2 [H2 H]]].
  apply bind_inv_ok in H. destruct H as [d [t3 [H3 H]]].
  apply bind_inv_ok in H. destruct H as [[handler hd'] [t4 [H4 H]]].
  apply bind_inv_ok in H. destruct H as [mh [t5 [H5 H]]].
  apply bind_inv_ok in H. destruct H as [[] [t6 [H6 H]]].
  apply bind_inv_ok in H. destruct H as [items [t7 [H7 H]]].
  apply bind_inv_ok in H. destruct H as [[] [t8 [H8 H]]].
  inversion H; subst r t8; clear H.
  assert (E1 : same_signature_tables s t1).
  { revert H1. apply (preserves_subscript _ same_signature_tables_refl). }
  assert (E2 : same_signature_tables t1 t2).
  { revert H2. apply (preserves_subscript _ same_signature_tables_refl). }
  assert (E3 : same_signature_tables t2 t3).
  { revert H3. apply (preserves_get_db _ same_signature_tables_refl). }
  assert (E4 : same_signature_tables t3 t4).
  { match type of H4 with
    | ?m _ = _ => assert (P : preserves same_signature_tables m)
    end; [| exact (P _ _ _ H4)].
    clear H4.
    repeat first
      [ apply (steady_HandlerManager_save same_signature_tables
                 same_signature_tables_refl same_signature_tables_trans Hlog);
        intros; split; reflexivity
      | frame_step same_signature_tables_refl same_signature_tables_trans
          ltac:(apply (steady_logger _ Hlog)) ]. }
  assert (E04 : same_signature_tables s t4).
  { repeat (eapply same_signature_tables_trans; [eassumption |]).
    apply same_signature_tables_refl. }
  destruct E04 as [Emh Ees].
  apply ManifestHandler_create_inv in H5. destruct H5 as [h [-> [Hmh ->]]].
  inversion H6; subst t6; clear H6.
  pose proof (iterate_inv _ _ _ _ H7) as ->.
  apply attach_e_signatures_ok in H8. cbn in H8.
  destruct H8 as [news [Hes [Hall [Hlen Hd]]]].
  exists mh, items, news.
  split; [reflexivity |].
  split.
  { destruct es; inversion H7; reflexivity. }
  split; [exact Hd |].
  split; [rewrite Hmh, Emh; reflexivity |].
  split; [rewrite Hmh; reflexivity |].
  split; [rewrite Hes, Ees; reflexivity |].
  split; [exact Hall | exact Hlen].
Qed.

Lemma ManifestHandlerManager_save_ok schema hd s mh s' :
  ManifestHandlerManager_save schema hd s = (Ok (Some mh), s') ->
  exists items news,
    iterate (match Dict.get "e_signatures" hd with
             | Some v => v
             | None => PList []
             end) s' = (Ok items, s') /\
    Forall (fun v => exists kw, v = PDict kw) items /\
    mh_pk mh = fresh (map mh_pk (manifest_handlers (db s))) /\
    (mh_paper_signature mh = None <-> Dict.mem "paper_signature" hd = false) /\
    e_signatures (db s') = (e_signatures (db s) ++ news)%list /\
    Forall (fun e => es_manifest_handler e = mh_pk mh) news /\
    List.length news = List.length items.
Proof.
  assert (Hlog : forall s r, same_signature_tables s (add_log r s))
    by (intros; split; reflexivity).
  assert (Hpaper : forall s r, same_signature_tables s
                                 (set_db (insert_paper_signature r (db s)) s))
    by (intros; split; reflexivity).
  intros H. unfold ManifestHandlerManager_save in H.
  destruct (take_e_signatures_run hd s) as [es [hd1 [Hrun [-> Hes]]]].
  rewrite (bind_run_ok _ _ _ _ _ Hrun) in H. cbn beta iota in H.
  unfold bind at 1, logger in H. cbn beta iota in H.
  apply bind_inv_ok in H. destruct H as [[ps hd2] [t2 [Hp H]]].
  assert (E : same_signature_tables s t2).
  { eapply same_signature_tables_trans; [apply Hlog |].
    match type of Hp with
    | ?m _ = _ => assert (P : preserves same_signature_tables m)
    end; [| exact (P _ _ _ Hp)].
    clear Hp.
    frame same_signature_tables_refl same_signature_tables_trans
      ltac:(apply (steady_PaperSignature_create _ same_signature_tables_refl
                     Hpaper)). }
  assert (Hps : ps = None <-> Dict.mem "paper_signature" hd = false).
  { assert (Hmem : Dict.mem "paper_signature" (Dict.remove "e_signatures" hd)
                   = Dict.mem "paper_signature" hd).
    { unfold Dict.mem. now rewrite get_remove_other. }
    rewrite Hmem in Hp. destruct (Dict.mem "paper_signature" hd).
    - apply bind_inv_ok in Hp. destruct Hp as [[data hd3] [u1 [_ Hp]]].
      apply bind_inv_ok in Hp. destruct Hp as [kw [u2 [_ Hp]]].
      apply bind_inv_ok in Hp. destruct Hp as [p [u3 [_ Hp]]].
      inversion Hp; subst. split; discriminate.
    - inversion Hp; subst. split; reflexivity. }
  destruct E as [Emh Ees].
  apply try_inv in H.
  destruct H as [[a [H Ha]] | [[e [s1 [h [_ [He H]]]]] | [e [_ [_ Hr]]]]].
  - inversion Ha; subst a; clear Ha. apply assemble_ok in H.
    destruct H as [mh' [items [news [Hsome [Hit [Hd [Hpk [Hpaper' [Hnew [Hall Hlen]]]]]]]]]].
    inversion Hsome; subst mh'; clear Hsome.
    exists items, news. rewrite <- Hes.
    split; [exact Hit |].
    split; [exact Hd |].
    split; [rewrite Hpk, Emh; reflexivity |].
    split; [rewrite Hpaper'; exact Hps |].
    split; [rewrite Hnew, Ees; reflexivity |].
    split; [exact Hall | exact Hlen].
  - destruct e; inversion He; subst h;
      unfold bind, logger, ret, raise in H; discriminate H.
  - discriminate Hr.
Qed.

(** X15.  After [ManifestHandlerManager.save] has returned a ManifestHandler, that
    row is [signed] exactly when the payload had a [paper_signature] block
    or its [e_signatures] list had an item.  The store is one in which the
    ESignatures there reference ManifestHandlers there. *)
Theorem saved_ManifestHandler_signed (schema : Schema) (hd : Kwargs)
    (s : State) (mh : ManifestHandler) (s' : State) :
  e_signatures_referenced (db s) ->
  ManifestHandlerManager_save schema hd s = (Ok (Some mh), s') ->
  (signed mh (db s') = true <->
   (Dict.mem "paper_signature" hd = true \/
    exists x xs, Dict.get "e_signatures" hd = Some (PList (x :: xs)))).
Proof.
  intros Href H. apply ManifestHandlerManager_save_ok in H.
  destruct H as [items [news [Hit [Hd [Hpk [Hpaper [Hes [Hall Hlen]]]]]]]].
  assert (Hold : filter (fun e => Nat.eqb (es_manifest_handler e) (mh_pk mh))
                   (e_signatures (db s)) = []).
  { apply filter_none. intros e Hin. apply Nat.eqb_neq. intros Heq.
    destruct (Href e Hin) as [m [Hm Hmpk]].
    apply (fresh_not_in (map mh_pk (manifest_handlers (db s)))).
    rewrite <- Hpk, <- Heq, <- Hmpk. now apply in_map. }
  assert (Hnew : filter (fun e => Nat.eqb (es_manifest_handler e) (mh_pk mh)) news
                 = news).
  { apply filter_all. eapply Forall_impl; [| exact Hall].
    intros e He. now apply Nat.eqb_eq. }
  assert (Hitems : items <> [] <->
                   exists x xs, Dict.get "e_signatures" hd = Some (PList (x :: xs))).
  { destruct (Dict.get "e_signatures" hd) as [v |].
    - destruct v; cbn in Hit; inversion Hit; subst items; clear Hit.
      + destruct s0 as [| c s0]; cbn in *.
        * split; [congruence | intros [x [xs Hx]]; discriminate Hx].
        * inversion Hd as [| ? ? [kw Hkw] _]. discriminate Hkw.
      + destruct xs as [| x xs].
        * split; [congruence | intros [x [xs Hx]]; discriminate Hx].
        * split; [intros _; now exists x, xs | discriminate].
      + destruct kvs as [| kv kvs]; cbn in *.
        * split; [congruence | intros [x [xs Hx]]; discriminate Hx].
        * inversion Hd as [| ? ? [kw Hkw] _]. discriminate Hkw.
    - cbn in Hit. inversion Hit; subst items.
      split; [congruence | intros [x [xs Hx]]; discriminate Hx]. }
  unfold signed. rewrite Hes, filter_app, Hold, Hnew. cbn [app].
  rewrite <- Hitems.
  destruct (mh_paper_signature mh) as [p |] eqn:Hp.
  - cbn. split; [intros _ | reflexivity]. left.
    destruct (Dict.mem "paper_signature" hd); [reflexivity |].
    destruct Hpaper as [_ Hback]. discriminate (Hback eq_refl).
  - cbn. rewrite (proj1 Hpaper eq_refl).
    destruct news as [| e news]; destruct items as [| i items];
      try discriminate Hlen; cbn.
    + split; [discriminate | intros [Hf | Hf]; [discriminate | congruence]].
    + split; [intros _; right; discriminate | reflexivity].
Qed.

Lemma saved_ManifestHandler_signed_witness :
  signed (mkManifestHandler 2 1 None [("order", PInt 2)])
    (db (snd (ManifestHandlerManager_save accept_all unsigned_manifest_handler
                store_with_signature))) = true <->
  (Dict.mem "paper_signature" unsigned_manifest_handler = true \/
   exists x xs,
     Dict.get "e_signatures" unsigned_manifest_handler = Some (PList (x :: xs))).
Proof.
  apply (saved_ManifestHandler_signed accept_all unsigned_manifest_handler
           store_with_signature (mkManifestHandler 2 1 None [("order", PInt 2)])
           (snd (ManifestHandlerManager_save accept_all unsigned_manifest_handler
                   store_with_signature))
           store_with_signature_referenced).
  vm_compute. reflexivity.
Defined.

(* ================================================================= *)
(** ** A key missing from an e-signature block *)

(** The statements before the [try] statement of
    [ManifestHandlerManager.save]. *)
Lemma ManifestHandlerManager_save_try (schema : Schema) (hd : Kwargs)
    (s : State) (o : option Kwargs) :
  paper_block schema hd = Some o ->
  ManifestHandlerManager_save schema hd s
  = try_ (assemble schema (without_signatures hd) (e_signature_blocks hd)
            (paper_key o (db s)))
      save_except (entering_try hd o s).
Proof.
  intros Hp. unfold ManifestHandlerManager_save.
  destruct (take_e_signatures_run hd s) as [es [hd1 [Hrun [-> Hes]]]].
  rewrite (bind_run_ok _ _ _ _ _ Hrun). cbn beta iota.
  unfold bind at 1, logger. cbn beta iota.
  unfold paper_block in Hp. unfold without_signatures, e_signature_blocks.
  rewrite <- (get_remove_other "paper_signature" "e_signatures" hd eq_refl) in Hp.
  unfold Dict.mem. subst es.
  destruct (Dict.get "paper_signature" (Dict.remove "e_signatures" hd))
    as [v |] eqn:Hv.
  - destruct v; try discriminate.
    destruct (PaperSignature_clean schema kvs) eqn:Hc; [discriminate |].
    injection Hp as <-.
    unfold bind at 1. unfold bind at 1, pop. rewrite Hv.
    cbn beta iota. unfold ret at 1. cbn beta iota.
    unfold bind at 1, as_kwargs, ret at 1. cbn beta iota.
    unfold bind at 1, PaperSignature_create. rewrite Hc.
    reflexivity.
  - injection Hp as <-. unfold bind at 1, ret at 1. cbn beta iota.
    rewrite (remove_absent _ _ Hv). reflexivity.
Qed.

Lemma attach_e_signatures_app schema mh items more :
  forall s,
    attach_e_signatures schema mh (items ++ more) s
    = match attach_e_signatures schema mh items s with
      | (Ok _, t) => attach_e_signatures schema mh more t
      | (Raise e, t) => (Raise e, t)
      end.
Proof.
  induction items as [| item items IH]; intros s; cbn [app attach_e_signatures].
  - reflexivity.
  - destruct item; cbn [as_kwargs]; unfold bind, ret, raise, logger;
      try reflexivity.
    destruct (ESignature_save schema mh kvs s) as [[e_sig | e] t];
      [apply IH | reflexivity].
Qed.

(** The [try] body on a list of e-signature blocks one of which lacks a
    key: when the blocks before it go through, the [KeyError] leaves the
    body in the state they reached. *)
Lemma assemble_missing_key schema hd good kw key rest ps s mh s' :
  ESignature_clean schema kw = Some (KeyError key) ->
  assemble schema hd (PList good) ps s = (Ok (Some mh), s') ->
  assemble schema hd (PList (good ++ PDict kw :: rest)) ps s
  = (Raise (KeyError key), s').
Proof.
  intros Hkw H. unfold assemble in *.
  apply bind_inv_ok in H. destruct H as [x1 [t1 [H1 H]]].
  rewrite (bind_run_ok _ _ _ _ _ H1).
  apply bind_inv_ok in H. destruct H as [x2 [t2 [H2 H]]].
  rewrite (bind_run_ok _ _ _ _ _ H2).
  apply bind_inv_ok in H. destruct H as [x3 [t3 [H3 H]]].
  rewrite (bind_run_ok _ _ _ _ _ H3).
  apply bind_inv_ok in H. destruct H as [[x4 x4'] [t4 [H4 H]]].
  rewrite (bind_run_ok _ _ _ _ _ H4). cbv beta iota.
  apply bind_inv_ok in H. destruct H as [m [t5 [H5 H]]].
  rewrite (bind_run_ok _ _ _ _ _ H5).
  apply bind_inv_ok in H. destruct H as [[] [t6 [H6 H]]].
  rewrite (bind_run_ok _ _ _ _ _ H6).
  apply bind_inv_ok in H. destruct H as [items [t7 [H7 H]]].
  inversion H7; subst items t7; clear H7.
  apply bind_inv_ok in H. destruct H as [[] [t8 [H8 H]]].
  inversion H; subst m t8; clear H.
  unfold bind at 1, iterate, ret at 1. cbv beta iota.
  unfold bind at 1. rewrite attach_e_signatures_app, H8.
  cbn [attach_e_signatures as_kwargs].
  unfold bind at 1, ret at 1. cbv beta iota.
  unfold bind at 1, ESignature_save. rewrite Hkw. reflexivity.
Qed.

Lemma assemble_stored schema hd es ps s mh s' :
  assemble schema hd es ps s = (Ok (Some mh), s') ->
  In mh (manifest_handlers (db s')).
Proof.
  intros H. unfold assemble in H.
  apply bind_inv_ok in H. destruct H as [x1 [t1 [_ H]]].
  apply bind_inv_ok in H. destruct H as [x2 [t2 [_ H]]].
  apply bind_inv_ok in H. destruct H as [x3 [t3 [_ H]]].
  apply bind_inv_ok in H. destruct H as [[x4 x4'] [t4 [_ H]]].
  apply bind_inv_ok in H. destruct H as [m [t5 [H5 H]]].
  apply bind_inv_ok in H. destruct H as [[] [t6 [H6 H]]].
  apply bind_inv_ok in H. destruct H as [items [t7 [H7 H]]].
  apply bind_inv_ok in H. destruct H as [[] [t8 [H8 H]]].
  inversion H; subst m t8; clear H.
  apply ManifestHandler_create_inv in H5. destruct H5 as [h [_ [_ ->]]].
  inversion H6; subst t6; clear H6.
  pose proof (iterate_inv _ _ _ _ H7) as ->.
  rewrite (attach_keeps_manifest_handlers schema mh items _ _ _ H8).
  cbn. apply in_or_app. right. now left.
Qed.


(** X16.  A [KeyError] raised by an e-signature block is swallowed with
    everything written so far left in place: when the [try] body goes
    through on the blocks before the faulty one and returns the
    ManifestHandler in the state [s'], [ManifestHandlerManager.save] on the
    whole list returns [None] in that state with a warning added; the
    ManifestHandler row is stored, and so is one ESignature for each block
    before the faulty one, all referencing it.  The blocks after the faulty
    one are not looked at. *)
Theorem e_signature_KeyError_is_swallowed (schema : Schema) (hd : Kwargs)
    (o : option Kwargs) (good : list PyVal) (kw : Kwargs) (key : string)
    (rest : list PyVal) (s : State) (mh : ManifestHandler) (s' : State) :
  paper_block schema hd = Some o ->
  Dict.get "e_signatures" hd = Some (PList (good ++ PDict kw :: rest)) ->
  ESignature_clean schema kw = Some (KeyError key) ->
  assemble schema (without_signatures hd) (PList good) (paper_key o (db s))
    (entering_try hd o s) = (Ok (Some mh), s') ->
  ManifestHandlerManager_save schema hd s
  = (Ok None,
     add_log (mkLog WARNING "KeyError while creating Manifest handler "
                (ArgExc (KeyError key))) s') /\
  In mh (manifest_handlers (db s')) /\
  exists news,
    e_signatures (db s') = (e_signatures (db s) ++ news)%list /\
    List.length news = List.length good /\
    Forall (fun e => es_manifest_handler e = mh_pk mh) news.
Proof.
  intros Hp Hes Hkw Hgood.
  pose proof (assemble_missing_key schema (without_signatures hd) good kw key rest
                (paper_key o (db s)) (entering_try hd o s) mh s' Hkw Hgood)
    as Hraise.
  split; [| split].
  - rewrite (ManifestHandlerManager_save_try schema hd s o Hp).
    unfold e_signature_blocks. rewrite Hes.
    now rewrite (try_run_handled _ save_except _ _ _ _ Hraise eq_refl).
  - exact (assemble_stored _ _ _ _ _ _ _ Hgood).
  - destruct (assemble_ok _ _ _ _ _ _ _ Hgood)
      as [mh' [items [news [Hsome [Hit [_ [_ [_ [Hnew [Hall Hlen]]]]]]]]]].
    inversion Hsome; subst mh'. inversion Hit; subst items.
    exists news. split; [| split; [exact Hlen | exact Hall]].
    rewrite Hnew. unfold entering_try. cbn [db set_db add_log].
    now destruct o.
Qed.

Lemma e_signature_KeyError_is_swallowed_witness :
  fst (ManifestHandlerManager_save signer_required half_signed_payload init_state)
  = Ok None /\
  manifest_handlers
    (db (snd (ManifestHandlerManager_save signer_required half_signed_payload
                init_state)))
  = [mkManifestHandler 1 1 None []] /\
  e_signatures
    (db (snd (ManifestHandlerManager_save signer_required half_signed_payload
                init_state)))
  = [mkESignature 1 1 [("signer", PStr "Jane Doe")]].
Proof.
  destruct (e_signature_KeyError_is_swallowed signer_required half_signed_payload
              None [PDict [("signer", PStr "Jane Doe")]]
              [("sign_date", PStr "2022-12-31T10:00:00Z")] "signer" [] init_state
              (mkManifestHandler 1 1 None [])
              (snd (assemble signer_required (without_signatures half_signed_payload)
                      (PList [PDict [("signer", PStr "Jane Doe")]]) None
                      (entering_try half_signed_payload None init_state)))
              eq_refl eq_refl eq_refl ltac:(vm_compute; reflexivity))
    as [Hrun _].
  rewrite Hrun. cbn [fst snd]. split; [reflexivity |].
  split; vm_compute; reflexivity.
Defined.

(* ================================================================= *)
(** ** The unit of work around [_save_manifest] *)



